(** * http-server.c: a shallow embedding and its specification

    The server handles one connection at a time.  For each connection it
    reads a request line, validates it, skips the header lines and hands the
    URI either to the mdb-lookup proxy or to the static file handler.

    Conventions of the embedding:
    - a byte is an [ascii]; a buffer filled from the wire is a [list ascii]
      and may hold any byte, NUL included;
    - a C string is represented by the bytes before its terminating NUL;
      [c_str] takes that view of a buffer ([strlen], [strcmp], [strtok] and
      [transmit] never look past the first NUL);
    - sockets, streams and the file system are explicit: a [World] carries the
      unread bytes of the two input streams, the results of the coming
      [send] calls and the chronological trace of what the server did. *)

From Stdlib Require Import String Ascii DecimalString ZArith Lia Bool Arith List.
From Stdlib Require DecimalFacts.
Import ListNotations.

Local Open Scope list_scope.

(* ================================================================= *)
(** ** Bytes and C strings *)

Definition bytes := list ascii.

Definition lit (s : string) : bytes := list_ascii_of_string s.

Definition NUL : ascii := "000"%char.
Definition TAB : ascii := "009"%char.
Definition LF : ascii := "010"%char.
Definition CR : ascii := "013"%char.
Definition SP : ascii := " "%char.
Definition SLASH : ascii := "/"%char.

(** The text "\n" and the text "\r\n". *)
Definition nl : bytes := [LF].
Definition crlf : bytes := [CR; LF].

(** The C string held by a buffer: everything before the first NUL. *)
Fixpoint c_str (buf : bytes) : bytes :=
  match buf with
  | [] => []
  | c :: rest => if Ascii.eqb c NUL then [] else c :: c_str rest
  end.

(** [strcmp(a, b) == 0]. *)
Fixpoint strcmp0 (a b : bytes) : bool :=
  match a, b with
  | [], [] => true
  | x :: a', y :: b' => Ascii.eqb x y && strcmp0 a' b'
  | _, _ => false
  end.

(** [strncmp(a, b, n) == 0]: the first [n] characters agree, or both strings
    end together before that. *)
Fixpoint strncmp0 (a b : bytes) (n : nat) {struct n} : bool :=
  match n with
  | O => true
  | S n' =>
      match a, b with
      | [], [] => true
      | x :: a', y :: b' => Ascii.eqb x y && strncmp0 a' b' n'
      | _, _ => false
      end
  end.

(** [strstr(haystack, needle) != NULL]. *)
Fixpoint strstr (haystack needle : bytes) : bool :=
  strncmp0 haystack needle (length needle) ||
  match haystack with
  | [] => false
  | _ :: rest => strstr rest needle
  end.

(** [fgets(buf, size, f)]: at most [size - 1] bytes, stopping after a
    newline.  [fgets_aux room s] is the pair of the bytes stored and the
    bytes left unread. *)
Fixpoint fgets_aux (room : nat) (s : bytes) : bytes * bytes :=
  match room, s with
  | O, _ => ([], s)
  | _, [] => ([], [])
  | S room', c :: s' =>
      if Ascii.eqb c LF then ([c], s')
      else let (line, rest) := fgets_aux room' s' in (c :: line, rest)
  end.

(** [None] is the NULL result: end of stream (or a read error) before any
    byte was stored. *)
Definition fgets (size : nat) (s : bytes) : option (bytes * bytes) :=
  match s with
  | [] => None
  | _ :: _ => Some (fgets_aux (size - 1) s)
  end.

(* ----------------------------------------------------------------- *)
(** *** strtok with the delimiters of the request parser *)

(** [char *delimiters = "\t \r\n"] *)
Definition delimiters : bytes := [TAB; SP; CR; LF].

Definition is_delim (c : ascii) : bool :=
  existsb (Ascii.eqb c) delimiters.

(** [s + strspn(s, delimiters)] *)
Fixpoint skip_delims (s : bytes) : bytes :=
  match s with
  | [] => []
  | c :: rest => if is_delim c then skip_delims rest else s
  end.

(** The token at the head of [s] and the position strtok saves: just after
    the delimiter that ended the token, or the end of the string. *)
Fixpoint take_token (s : bytes) : bytes * bytes :=
  match s with
  | [] => ([], [])
  | c :: rest =>
      if is_delim c then ([], rest)
      else let (tok, save) := take_token rest in (c :: tok, save)
  end.

(** One call of strtok on the saved position [s]: the token ([None] for
    NULL) and the new saved position. *)
Definition strtok (s : bytes) : option bytes * bytes :=
  match skip_delims s with
  | [] => (None, [])
  | c :: rest => let (tok, save) := take_token (c :: rest) in (Some tok, save)
  end.

(* ================================================================= *)
(** ** The status table and the status response *)

(** [HttpStatusCodes], with its end marker [{ 0, NULL }]. *)
Definition HttpStatusCodes : list (Z * bytes) :=
  [ (200, lit "OK");
    (201, lit "Created");
    (202, lit "Accepted");
    (204, lit "No Content");
    (301, lit "Moved Permanently");
    (302, lit "Moved Temporarily");
    (304, lit "Not Modified");
    (400, lit "Bad Request");
    (401, lit "Unauthorized");
    (403, lit "Forbidden");
    (404, lit "Not Found");
    (500, lit "Internal Server Error");
    (501, lit "Not Implemented");
    (502, lit "Bad Gateway");
    (503, lit "Service Unavailable");
    (0, []) ]%Z.

(** The loop of [getStatusMessage] from position [index] on. *)
Fixpoint status_scan (table : list (Z * bytes)) (statusCode : Z) : bytes :=
  match table with
  | [] => lit "Unknown Status Code"
  | (code, message) :: rest =>
      if (code >? 0)%Z then
        if (code =? statusCode)%Z then message
        else status_scan rest statusCode
      else lit "Unknown Status Code"
  end.

Definition getStatusMessage (statusCode : Z) : bytes :=
  status_scan HttpStatusCodes statusCode.

(** [sprintf("%d", n)] *)
Definition sprintf_d (n : Z) : bytes :=
  lit (NilZero.string_of_int (Z.to_int n)).

Definition strcat (dst src : bytes) : bytes := dst ++ src.

(** The buffer [sendHttpStatus] builds.  The two 1000-byte arrays of the
    source are far from full: the callers pass 200, 400, 403, 404 and 501
    only (see [status_buffer_fits]). *)
Definition status_buffer (statusCode : Z) : bytes :=
  let statusMessage := getStatusMessage statusCode in
  let buffer := lit "HTTP/1.0 " ++ sprintf_d statusCode ++ lit " " in
  let buffer := strcat buffer statusMessage in
  let buffer := strcat buffer crlf in
  let buffer := strcat buffer crlf in
  if negb (statusCode =? 200)%Z then
    let body :=
      lit "<html><body>" ++ nl ++
      lit "<h1>" ++ sprintf_d statusCode ++ lit " " ++ statusMessage
        ++ lit "</h1>" ++ nl ++
      lit "</body></html>" ++ nl in
    strcat buffer body
  else buffer.

(* ================================================================= *)
(** ** The world: sockets, streams, file system *)

Inductive sock := ClientSocket | MdbSocket.

Inductive event :=
| Send (s : sock) (buffer : bytes) (ok : bool)  (* send(); [ok]: all taken *)
| Stat (path : bytes)                           (* stat() *)
| Fopen (path : bytes)                          (* fopen(path, "rb") *)
| Close.                                        (* fclose(clientFile); close(clientSocket) *)

Record World := mkWorld {
  client_in : bytes;      (* bytes not yet read from clientFile *)
  mdb_in : bytes;         (* bytes not yet read from mdbFile *)
  client_ok : list bool;  (* results of the coming send() calls on clientSocket *)
  mdb_ok : list bool;     (* results of the coming send() calls on mdbSocket *)
  trace : list event      (* what the server did, oldest first *)
}.

(** A regular file as [fopen] delivers it: its contents, and the offset at
    which reading fails ([readable] at least the length when it never
    does).  After a read error fread delivers nothing more. *)
Record file := mkFile {
  contents : bytes;
  readable : nat
}.

Record FileSystem := mkFS {
  stat_isdir : bytes -> bool;        (* stat(path) == 0 && S_ISDIR(st_mode) *)
  fopen_rb : bytes -> option file    (* fopen(path, "rb"), None for NULL *)
}.

Definition log (e : event) (w : World) : World :=
  mkWorld (client_in w) (mdb_in w) (client_ok w) (mdb_ok w) (trace w ++ [e]).

Definition set_client_in (s : bytes) (w : World) : World :=
  mkWorld s (mdb_in w) (client_ok w) (mdb_ok w) (trace w).

Definition set_mdb_in (s : bytes) (w : World) : World :=
  mkWorld (client_in w) s (client_ok w) (mdb_ok w) (trace w).

(** [send(sock, buffer, len, 0) == len].  A result list that has run out
    means the socket takes everything. *)
Definition send (s : sock) (buffer : bytes) (w : World) : bool * World :=
  match s with
  | ClientSocket =>
      let ok := hd true (client_ok w) in
      (ok, mkWorld (client_in w) (mdb_in w) (tl (client_ok w)) (mdb_ok w)
                   (trace w ++ [Send ClientSocket buffer ok]))
  | MdbSocket =>
      let ok := hd true (mdb_ok w) in
      (ok, mkWorld (client_in w) (mdb_in w) (client_ok w) (tl (mdb_ok w))
                   (trace w ++ [Send MdbSocket buffer ok]))
  end.

(** [transmit]: the length sent, or -1. *)
Definition transmit (s : sock) (buffer : bytes) (w : World) : Z * World :=
  let len := Z.of_nat (length buffer) in
  let (ok, w') := send s buffer w in
  if ok then (len, w') else ((-1)%Z, w').

Definition sendHttpStatus (statusCode : Z) (w : World) : World :=
  snd (transmit ClientSocket (status_buffer statusCode) w).

(* ================================================================= *)
(** ** Jumps to a cleanup label

    [processMdbRequest] leaves through [goto cleanup] as soon as a write
    fails.  A step is a state transformer whose result [None] means that
    control has jumped to the label. *)

Definition M (A : Type) : Type := World -> option A * World.

Definition ret {A} (a : A) : M A := fun w => (Some a, w).

Definition bind {A B} (m : M A) (k : A -> M B) : M B :=
  fun w =>
    match m w with
    | (Some a, w') => k a w'
    | (None, w') => (None, w')
    end.

Notation "m1 ;; m2" := (bind m1 (fun _ => m2))
  (at level 61, right associativity).

(** [if (transmit(sock, buffer) < 0) goto cleanup;] *)
Definition transmit_or_cleanup (s : sock) (buffer : bytes) : M unit :=
  fun w =>
    let (result, w') := transmit s buffer w in
    if (result <? 0)%Z then (None, w') else (Some tt, w').

(** A call whose result is not looked at. *)
Definition perform (f : World -> World) : M unit :=
  fun w => (Some tt, f w).

(* ================================================================= *)
(** ** processMdbRequest *)

Definition form : bytes :=
  lit "<html><body>" ++ nl ++
  lit "<h1>mdb-lookup</h1>" ++ nl ++
  lit "<p>" ++ nl ++
  lit "<form method=GET action=/mdb-lookup>" ++ nl ++
  lit "lookup: <input type=text name=key>" ++ nl ++
  lit "<input type=submit>" ++ nl ++
  lit "</form>" ++ nl ++
  lit "<p>" ++ nl.

Definition keyURI : bytes := lit "/mdb-lookup?key=".
Definition tableStart : bytes := lit "<p><table border>".
Definition tableEnd : bytes := nl ++ lit "</table>" ++ nl.
Definition pageEnd : bytes := lit "</body></html>" ++ nl.

(** The two row openings: ["\n<tr><td>"] and ["\n<tr><td bgcolor=yellow>"]. *)
Definition rowPlain : bytes := nl ++ lit "<tr><td>".
Definition rowYellow : bytes := nl ++ lit "<tr><td bgcolor=yellow>".

(** [(rowIndex % 2) ? "\n<tr><td>" : "\n<tr><td bgcolor=yellow>"] *)
Definition tableRow (rowIndex : Z) : bytes :=
  if negb (Z.rem rowIndex 2 =? 0)%Z then rowPlain else rowYellow.

(** [rowIndex++] on a 32-bit [int], wrapping around in two's complement. *)
Definition INT_MAX : Z := 2147483647%Z.
Definition INT_MIN : Z := (-2147483648)%Z.

Definition int_succ (x : Z) : Z :=
  if (x =? INT_MAX)%Z then INT_MIN else (x + 1)%Z.

(** The [for (;;)] loop over the lines of the backend.  Every turn reads at
    least one byte, so [fuel] above the length of the unread stream is never
    used up; the outer [None] says that it was. *)
Fixpoint read_rows (fuel : nat) (rowIndex : Z) (w : World)
  : option (option unit * World) :=
  match fuel with
  | O => None
  | S fuel' =>
      match fgets 1000 (mdb_in w) with
      | None => Some (None, w)                      (* goto cleanup *)
      | Some (buf, rest) =>
          let w1 := set_mdb_in rest w in
          let line := c_str buf in
          if strcmp0 nl line then Some (Some tt, w1) (* break *)
          else
            match (transmit_or_cleanup ClientSocket (tableRow rowIndex) ;;
                   transmit_or_cleanup ClientSocket line) w1 with
            | (None, w2) => Some (None, w2)
            | (Some _, w2) => read_rows fuel' (int_succ rowIndex) w2
            end
      end
  end.

Definition read_all_rows : M unit :=
  fun w =>
    match read_rows (S (length (mdb_in w))) 1%Z w with
    | Some r => r
    | None => (None, w)
    end.

(** The block guarded by [strncmp(requestURI, keyURI, strlen(keyURI)) == 0]. *)
Definition lookup (requestURI : bytes) : M unit :=
  if strncmp0 requestURI keyURI (length keyURI) then
    let key := skipn (length keyURI) requestURI in
    transmit_or_cleanup MdbSocket key ;;
    transmit_or_cleanup MdbSocket nl ;;
    transmit_or_cleanup ClientSocket tableStart ;;
    read_all_rows ;;
    transmit_or_cleanup ClientSocket tableEnd
  else ret tt.

Definition mdb_page (requestURI : bytes) (statusCode : Z) : M unit :=
  perform (sendHttpStatus statusCode) ;;
  transmit_or_cleanup ClientSocket form ;;
  lookup requestURI ;;
  transmit_or_cleanup ClientSocket pageEnd.

(** Both the normal end and the cleanup label return [statusCode]. *)
Definition processMdbRequest (requestURI : bytes) (w : World) : Z * World :=
  let statusCode := 200%Z in
  (statusCode, snd (mdb_page requestURI statusCode w)).

(* ================================================================= *)
(** ** processFileRequest *)

Definition BUFFER_SIZE : nat := 4096.

(** The copy loop over what is left of the file.  [None]: out of fuel. *)
Fixpoint send_file (fuel : nat) (unread : bytes) (w : World) : option World :=
  match fuel with
  | O => None
  | S fuel' =>
      let buffer := firstn BUFFER_SIZE unread in     (* fread *)
      let bytesRead := length buffer in
      if (0 <? bytesRead)%nat then
        let (ok, w') := send ClientSocket buffer w in
        if ok then send_file fuel' (skipn BUFFER_SIZE unread) w'
        else Some w'                                 (* break *)
      else Some w
  end.

Definition send_whole_file (f : file) (w : World) : World :=
  let data := firstn (readable f) (contents f) in
  match send_file (S (length data)) data w with
  | Some w' => w'
  | None => w
  end.

(** The path the handler builds: [strcpy(filePath, webRoot)],
    [strcat(filePath, requestURI)] and, when the last character is a slash,
    [strcat(filePath, "index.html")].  [None] stands for the one undefined
    execution: with an empty [webRoot] and an empty [requestURI],
    [filePath[strlen(filePath)-1]] reads in front of the buffer. *)
Definition file_path (webRoot requestURI : bytes) : option bytes :=
  let filePath := strcat webRoot requestURI in
  match nth_error filePath (length filePath - 1) with
  | None => None
  | Some c =>
      Some (if Ascii.eqb c SLASH then strcat filePath (lit "index.html")
            else filePath)
  end.

Definition processFileRequest (fs : FileSystem) (webRoot requestURI : bytes)
    (w : World) : option (Z * World) :=
  match file_path webRoot requestURI with
  | None => None
  | Some filePath =>
      let w := log (Stat filePath) w in
      if stat_isdir fs filePath then
        let statusCode := 403%Z in
        Some (statusCode, sendHttpStatus statusCode w)
      else
        let w := log (Fopen filePath) w in
        match fopen_rb fs filePath with
        | None =>
            let statusCode := 404%Z in
            Some (statusCode, sendHttpStatus statusCode w)
        | Some f =>
            let statusCode := 200%Z in
            let w := sendHttpStatus statusCode w in
            Some (statusCode, send_whole_file f w)
        end
  end.

(* ================================================================= *)
(** ** One turn of the accept loop of main *)

(** The loop that skips the header lines: [true] when the blank line was
    found, [false] when fgets returned NULL first.  [None]: out of fuel. *)
Fixpoint skip_headers (fuel : nat) (w : World) : option (bool * World) :=
  match fuel with
  | O => None
  | S fuel' =>
      match fgets 1000 (client_in w) with
      | None => Some (false, w)
      | Some (buf, rest) =>
          let w' := set_client_in rest w in
          let line := c_str buf in
          if strcmp0 crlf line || strcmp0 nl line then Some (true, w')
          else skip_headers fuel' w'
      end
  end.

Definition skip_all_headers (w : World) : bool * World :=
  match skip_headers (S (length (client_in w))) w with
  | Some r => r
  | None => (false, w)
  end.

(** [*uri != '/'] *)
Definition not_rooted (uri : bytes) : bool :=
  match uri with
  | c :: _ => negb (Ascii.eqb c SLASH)
  | [] => true
  end.

(** The directory traversal test. *)
Definition traversal (uri : bytes) : bool :=
  let len := length uri in
  if (3 <=? len)%nat then
    let tail := skipn (len - 3) uri in
    strcmp0 tail (lit "/..") || strstr uri (lit "/../")
  else false.

Definition mdbRequestURI : bytes := lit "/mdb-lookup".

(** [statusCode = code; sendHttpStatus(clientSocket, statusCode); goto loop_end;] *)
Definition reject (statusCode : Z) (w : World) : option (Z * World) :=
  Some (statusCode, sendHttpStatus statusCode w).

(** The checks on the three parts of the request line, the header lines
    and the hand-over to a handler. *)
Definition check_and_route (fs : FileSystem) (rootDirectory : bytes)
    (httpMethod uri version : bytes) (w : World) : option (Z * World) :=
  if negb (strcmp0 httpMethod (lit "GET")) then reject 501 w
  else if negb (strcmp0 version (lit "HTTP/1.0")) &&
          negb (strcmp0 version (lit "HTTP/1.1")) then reject 501 w
  else if not_rooted uri then reject 400 w
  else if traversal uri then reject 400 w
  else
    match skip_all_headers w with
    | (false, w) => Some (400%Z, w)
    | (true, w) =>
        if strncmp0 uri mdbRequestURI (length mdbRequestURI)
        then Some (processMdbRequest uri w)
        else processFileRequest fs rootDirectory uri w
    end.

(** From the first fgets to the label [loop_end]. *)
Definition handle_request (fs : FileSystem) (rootDirectory : bytes)
    (w : World) : option (Z * World) :=
  match fgets 1000 (client_in w) with
  | None => Some (400%Z, w)
  | Some (buf, rest) =>
      let w := set_client_in rest w in
      let request := c_str buf in
      let '(httpMethod, save) := strtok request in
      let '(uri, save) := strtok save in
      let '(version, save) := strtok save in
      let '(extraTokens, _) := strtok save in
      match httpMethod, uri, version, extraTokens with
      | Some httpMethod, Some uri, Some version, None =>
          check_and_route fs rootDirectory httpMethod uri version w
      | _, _, _, _ => reject 501 w
      end
  end.

(** The body of the accept loop for one accepted connection: the status
    code main has noted and the world after [close(clientSocket)]. *)
Definition serve_connection (fs : FileSystem) (rootDirectory : bytes)
    (w : World) : option (Z * World) :=
  match handle_request fs rootDirectory w with
  | Some (statusCode, w') => Some (statusCode, log Close w')
  | None => None
  end.

(* ================================================================= *)
(** ** The accept loop of main *)

(** What accept() delivers: the bytes the client will send and the results
    of the writes to its socket. *)
Record connection := mkConn {
  conn_in : bytes;
  conn_ok : list bool
}.

(** The world main is in once accept() and fdopen() have succeeded: a fresh
    client stream and client socket, the one backend connection as the
    turns before left it. *)
Definition accepted (c : connection) (w : World) : World :=
  mkWorld (conn_in c) (mdb_in w) (conn_ok c) (mdb_ok w) (trace w).

(** The [for (;;)] loop of main over the connections that arrive, in order:
    the status codes noted and the world after the last close.  (A failing
    accept() or fdopen() ends the process and the list.) *)
Fixpoint accept_loop (fs : FileSystem) (rootDirectory : bytes)
    (conns : list connection) (w : World) : option (list Z * World) :=
  match conns with
  | [] => Some ([], w)
  | c :: later =>
      match serve_connection fs rootDirectory (accepted c w) with
      | None => None
      | Some (statusCode, w') =>
          match accept_loop fs rootDirectory later w' with
          | None => None
          | Some (codes, w'') => Some (statusCode :: codes, w'')
          end
      end
  end.

(* ================================================================= *)
(** ** Vocabulary of the specification *)

(** [s] begins with [p], ends with [p], contains [p]. *)
Definition has_prefix (p s : bytes) : Prop := exists t, s = p ++ t.
Definition has_suffix (p s : bytes) : Prop := exists h, s = h ++ p.
Definition has_infix (p s : bytes) : Prop := exists h t, s = h ++ p ++ t.

(** Splitting a line on whitespace, as the specification words it: the
    maximal runs of bytes that are not tab, space, CR or LF.  [cur] is the
    run being read, last byte first. *)
Fixpoint split_ws (cur : bytes) (s : bytes) : list bytes :=
  match s with
  | [] => match cur with [] => [] | _ :: _ => [rev cur] end
  | c :: rest =>
      if is_delim c then
        match cur with
        | [] => split_ws [] rest
        | _ :: _ => rev cur :: split_ws [] rest
        end
      else split_ws (c :: cur) rest
  end.

Definition tokens (line : bytes) : list bytes := split_ws [] line.

(** A request line the parser lets through its first three checks. *)
Definition get_request_line (line : bytes) (uri : bytes) : Prop :=
  exists version,
    tokens line = [lit "GET"; uri; version] /\
    (version = lit "HTTP/1.0" \/ version = lit "HTTP/1.1").

(** A request line that draws Not Implemented: it does not split into
    exactly three tokens, or its first token is not ["GET"], or its third
    token is neither ["HTTP/1.0"] nor ["HTTP/1.1"]. *)
Definition not_implemented_line (line : bytes) : Prop :=
  length (tokens line) <> 3%nat \/
  nth 0 (tokens line) [] <> lit "GET" \/
  (nth 2 (tokens line) [] <> lit "HTTP/1.0" /\
   nth 2 (tokens line) [] <> lit "HTTP/1.1").

(** A URI with a path traversal segment. *)
Definition traverses (uri : bytes) : Prop :=
  has_infix (lit "/../") uri \/ has_suffix (lit "/..") uri.

(** The client stream [s] begins with the request line [line], a line the
    parser sees whole: at most 998 bytes, none of them NUL, ended by a
    line feed, after which [rest] follows, or, when it is not empty, by the
    end of the stream.  (fgets stores at most 999 bytes, the line feed
    included, and strtok reads them as a C string.) *)
Definition short_request_line (s line rest : bytes) : Prop :=
  ~ In LF line /\ ~ In NUL line /\ (length line <= 998)%nat /\
  (s = line ++ LF :: rest \/ (line <> [] /\ s = line /\ rest = [])).

(** The request line is refused for what it says, with the status [code]:
    wrong token count, method, version (501); URI that does not begin with
    a slash, path traversal (400). *)
Inductive refused (line : bytes) : Z -> Prop :=
| refused_count :
    length (tokens line) <> 3%nat -> refused line 501
| refused_method m u v :
    tokens line = [m; u; v] -> m <> lit "GET" -> refused line 501
| refused_version m u v :
    tokens line = [m; u; v] ->
    v <> lit "HTTP/1.0" -> v <> lit "HTTP/1.1" -> refused line 501
| refused_root uri :
    get_request_line line uri -> ~ has_prefix [SLASH] uri -> refused line 400
| refused_traversal uri :
    get_request_line line uri -> traverses uri -> refused line 400.

(** Reading the header lines from the stream [s]: [Some rest] when a line
    that is just a line terminator is met ([rest] is what follows it),
    [None] when the stream ends first. *)
Inductive headers : bytes -> option bytes -> Prop :=
| headers_eof : headers [] None
| headers_blank s buf rest :
    fgets 1000 s = Some (buf, rest) ->
    c_str buf = crlf \/ c_str buf = nl ->
    headers s (Some rest)
| headers_skip s buf rest r :
    fgets 1000 s = Some (buf, rest) ->
    c_str buf <> crlf -> c_str buf <> nl ->
    headers rest r ->
    headers s r.

(** The parser gives up a request on the client stream [s] with the status
    [code]; [answered] tells the two kinds of failure apart: the request
    line was read and refused ([true]), or a read failed: no request line
    at all, or a stream that ends within the header lines ([false]). *)
Inductive parse_failure : bytes -> Z -> bool -> Prop :=
| fail_no_line : parse_failure [] 400 false
| fail_refused s buf rest code :
    fgets 1000 s = Some (buf, rest) ->
    refused (c_str buf) code ->
    parse_failure s code true
| fail_headers s buf rest uri :
    fgets 1000 s = Some (buf, rest) ->
    get_request_line (c_str buf) uri ->
    has_prefix [SLASH] uri -> ~ traverses uri ->
    headers rest None ->
    parse_failure s 400 false.

(** What a run did, read off its events. *)
Definition is_fs_access (e : event) : bool :=
  match e with
  | Stat _ | Fopen _ => true
  | _ => false
  end.

Definition fs_accesses (evs : list event) : list event :=
  filter is_fs_access evs.

(** The buffers handed to send() on a socket, in order. *)
Fixpoint written (s : sock) (evs : list event) : list bytes :=
  match evs with
  | [] => []
  | Send s' buffer _ :: rest =>
      match s, s' with
      | ClientSocket, ClientSocket | MdbSocket, MdbSocket =>
          buffer :: written s rest
      | _, _ => written s rest
      end
  | _ :: rest => written s rest
  end.

(** Every send() of the run took its whole buffer. *)
Definition all_sent (evs : list event) : Prop :=
  Forall (fun e => match e with Send _ _ ok => ok = true | _ => True end) evs.

(** The socket accepts every coming write. *)
Definition accepts_all (oks : list bool) : Prop := Forall (fun b => b = true) oks.

(** The table rows for the lines [ls], the first of them being row number
    [i] (counted from 1): odd rows open with ["\n<tr><td>"], even rows with
    ["\n<tr><td bgcolor=yellow>"]; each row is written in two pieces. *)
Fixpoint rows (i : nat) (ls : list bytes) : list bytes :=
  match ls with
  | [] => []
  | l :: rest =>
      (if Nat.odd i then rowPlain else rowYellow) :: l :: rows (S i) rest
  end.

(** A backend reply: each line followed by ["\n"], then the blank line. *)
Definition reply (ls : list bytes) : bytes :=
  concat (map (fun l => l ++ nl) ls) ++ nl.

(** A reply line that fits the 1000-byte line buffer together with its
    terminator, is not blank and holds no newline of its own. *)
Definition fits_line (l : bytes) : Prop :=
  l <> [] /\ ~ In LF l /\ (length l <= 998)%nat.

(** A write to the client socket. *)
Definition is_client_send (e : event) : Prop :=
  match e with
  | Send ClientSocket _ _ => True
  | _ => False
  end.

(** From [w] to [w'] the server only wrote to the client: the client's
    input and the backend's write side are as they were. *)
Definition client_run (w w' : World) : Prop :=
  client_in w' = client_in w /\
  mdb_ok w' = mdb_ok w /\
  exists evs, trace w' = trace w ++ evs /\ Forall is_client_send evs.

(** A step that only writes to the client. *)
Definition client_step (m : M unit) : Prop :=
  forall w, client_run w (snd (m w)).

(** Both sockets accept every coming write. *)
Definition healthy (w : World) : Prop :=
  accepts_all (client_ok w) /\ accepts_all (mdb_ok w).

(** The text of a table row: the line with its newline, as the C string
    [transmit] sees in the line buffer. *)
Definition row_text (l : bytes) : bytes := c_str (l ++ nl).

(** Writes to the client that all went through. *)
Definition client_writes (bs : list bytes) : list event :=
  map (fun b => Send ClientSocket b true) bs.

(** The page the lookup handler writes for the reply lines [ls], piece by
    piece: status response, form, table opening, the rows numbered from 1,
    table end, page end. *)
Definition lookup_page (ls : list bytes) : list bytes :=
  [status_buffer 200; form; tableStart] ++ rows 1 (map row_text ls)
    ++ [tableEnd; pageEnd].

(* ----------------------------------------------------------------- *)
(** *** Sample worlds *)

(** A connection on which every write goes through: [cin] is what the
    client sends, [min] what the backend has to say. *)
Definition quiet (cin min : bytes) : World := mkWorld cin min [] [] [].

(** The same with given results for the writes to the client. *)
Definition flaky (cin min : bytes) (oks : list bool) : World :=
  mkWorld cin min oks [] [].

Definition three_lines : list bytes :=
  [lit "alice,555-1234"; lit "bob,555-9876"; lit "carol,555-0000"].

(** A web root with a directory [/www/docs] and one file
    [/www/index.html]. *)
Definition site : FileSystem :=
  mkFS (fun p => strcmp0 p (lit "/www/docs"))
       (fun p => if strcmp0 p (lit "/www/index.html")
                 then Some (mkFile (lit "<h1>hi</h1>") 11)
                 else None).

(** A file system that holds the single readable file [data] at [path]. *)
Definition one_file (path data : bytes) : FileSystem :=
  mkFS (fun _ => false)
       (fun p => if strcmp0 p path then Some (mkFile data (length data))
                 else None).

(** A file of [n] bytes. *)
Definition blob (n : nat) : bytes := repeat "x"%char n.

(** A reply line of 999 bytes: with its newline it does not fit the
    1000-byte line buffer. *)
Definition long_line : bytes := repeat "a"%char 999.

(** The static file mapping of the specification: root, then URI, then
    ["index.html"] when the URI ends in a slash. *)
Definition ends_with_slash (uri : bytes) : bool :=
  match rev uri with
  | c :: _ => Ascii.eqb c SLASH
  | [] => false
  end.

Definition resolved_path (webRoot uri : bytes) : bytes :=
  webRoot ++ uri ++ (if ends_with_slash uri then lit "index.html" else []).

(** The status the file handler owes for a path. *)
Definition file_status (fs : FileSystem) (path : bytes) : Z :=
  if stat_isdir fs path then 403%Z
  else match fopen_rb fs path with
       | None => 404%Z
       | Some _ => 200%Z
       end.

(** The file system calls the handler makes for a path. *)
Definition file_lookups (fs : FileSystem) (path : bytes) : list event :=
  if stat_isdir fs path then [Stat path] else [Stat path; Fopen path].

(* ----------------------------------------------------------------- *)
(** *** Vocabulary for whole connections *)

(** A byte that is neither a delimiter of the request line nor NUL. *)
Definition plain_byte (c : ascii) : Prop := is_delim c = false /\ c <> NUL.

(** A string without tab, space, CR, LF and NUL. *)
Definition plain (s : bytes) : Prop := Forall plain_byte s.

(** A run of request-line delimiters that does not end the line. *)
Definition blanks (d : bytes) : Prop :=
  Forall (fun c => is_delim c = true /\ c <> LF) d.

(** After a write that failed nothing more is done. *)
Fixpoint stops_at_failure (evs : list event) : Prop :=
  match evs with
  | [] => True
  | Send _ _ false :: rest => rest = []
  | _ :: rest => stops_at_failure rest
  end.

Definition is_send (e : event) : Prop :=
  match e with
  | Send _ _ _ => True
  | _ => False
  end.

(** The number of closes in a trace. *)
Fixpoint closes (evs : list event) : nat :=
  match evs with
  | [] => 0
  | Close :: rest => S (closes rest)
  | _ :: rest => closes rest
  end.

(** The status codes main ever notes. *)
Definition known_status (code : Z) : Prop :=
  code = 200%Z \/ code = 400%Z \/ code = 403%Z \/ code = 404%Z \/ code = 501%Z.

(** A URI the parser lets through to a handler. *)
Definition routable (uri : bytes) : Prop :=
  has_prefix [SLASH] uri /\ ~ traverses uri /\ plain uri.

(** The request ["GET <uri> HTTP/1.0\r\n\r\n"]: a request line and an empty
    header section. *)
Definition get_request (uri : bytes) : bytes :=
  lit "GET " ++ uri ++ lit " HTTP/1.0" ++ crlf ++ crlf.

(** The bytes a backend sends when it closes its stream after the lines
    [ls], without the blank line. *)
Definition cut_reply (ls : list bytes) : bytes :=
  concat (map (fun l => l ++ nl) ls).

(** A step that only writes, and that a failed write ends: when it runs
    to its end every write went through. *)
Definition careful (m : M unit) : Prop :=
  forall w, exists evs,
    trace (snd (m w)) = trace w ++ evs /\
    Forall is_send evs /\
    match fst (m w) with
    | Some _ => all_sent evs
    | None => stops_at_failure evs
    end.

(** A header line: not empty, without a newline of its own, and short
    enough for the line buffer together with its CRLF. *)
Definition header_line (h : bytes) : Prop :=
  h <> [] /\ ~ In LF h /\ (length h <= 997)%nat.

(** The request ["GET <uri> HTTP/1.0\r\n"], the header lines [hs], each
    with its CRLF, and the empty line. *)
Definition get_request_with (uri : bytes) (hs : list bytes) : bytes :=
  lit "GET " ++ uri ++ lit " HTTP/1.0" ++ crlf
    ++ concat (map (fun h => h ++ crlf) hs) ++ crlf.

(** A lookup key that passes the parser inside a request line of at most
    998 bytes. *)
Definition lookup_key (key : bytes) : Prop :=
  plain key /\ ~ traverses (keyURI ++ key) /\ (length key <= 968)%nat.

(** The events of a lookup for [key] that the backend answers with the
    lines [ls], every write going through. *)
Definition lookup_events (key : bytes) (ls : list bytes) : list event :=
  client_writes [status_buffer 200; form]
    ++ [Send MdbSocket key true; Send MdbSocket nl true]
    ++ client_writes (tableStart :: rows 1 (map row_text ls)
                        ++ [tableEnd; pageEnd]).

(** A client that asks for [key] and takes every write. *)
Definition lookup_client (key : bytes) : connection :=
  mkConn (get_request (keyURI ++ key)) [].

(** A client that asks for [key] and takes [n] writes, not the next. *)
Definition leaving_client (key : bytes) (n : nat) : connection :=
  mkConn (get_request (keyURI ++ key)) (repeat true n ++ [false]).

(** The first [n] of the buffers [bs] written to the client, and the next
    one refused. *)
Definition cut_writes (bs : list bytes) (n : nat) : list event :=
  client_writes (firstn n bs)
    ++ match nth_error bs n with
       | Some b => [Send ClientSocket b false]
       | None => []
       end.

(* ----------------------------------------------------------------- *)
(** *** Tactics for concrete lines *)

(** [~ In LF l] for a literal [l]. *)
Ltac not_in_line :=
  let H := fresh in
  intros H; simpl in H;
  repeat (destruct H as [H|H]; [discriminate H|]); exact H.

(** [Forall fits_line ls] for literal lines. *)
Ltac fits :=
  repeat constructor; try discriminate; try not_in_line; simpl; lia.

(* ================================================================= *)
(** ** Facts about the string functions *)

Lemma strcmp0_eq (a b : bytes) : strcmp0 a b = true <-> a = b.
Proof.
  revert b; induction a as [|x a IH]; intros [|y b]; simpl;
    try (split; [discriminate | congruence]); try tauto.
  rewrite andb_true_iff, Ascii.eqb_eq, IH.
  split; [intros [-> ->]; reflexivity | intros [= -> ->]; auto].
Qed.

Lemma strcmp0_refl (a : bytes) : strcmp0 a a = true.
Proof. apply strcmp0_eq; reflexivity. Qed.

Lemma c_str_no_nul (buf : bytes) : ~ In NUL (c_str buf).
Proof.
  induction buf as [|c buf IH]; simpl; [tauto|].
  destruct (Ascii.eqb_spec c NUL) as [E|N]; simpl; [tauto|].
  intros [H | H]; [congruence | exact (IH H)].
Qed.

Lemma c_str_id (s : bytes) : ~ In NUL s -> c_str s = s.
Proof.
  induction s as [|c s IH]; simpl; [reflexivity|]. intros H.
  destruct (Ascii.eqb_spec c NUL) as [E|N]; [exfalso; apply H; left; exact E|].
  rewrite IH; [reflexivity | intros K; apply H; right; exact K].
Qed.

Lemma strcmp0_neq (a b : bytes) : strcmp0 a b = false <-> a <> b.
Proof.
  rewrite <- strcmp0_eq. destruct (strcmp0 a b); split; congruence.
Qed.

Lemma strncmp0_prefix (s p : bytes) :
  strncmp0 s p (length p) = true <-> has_prefix p s.
Proof.
  revert s; induction p as [|y p IH]; intros s; simpl.
  - split; [intros _; exists s; reflexivity | reflexivity].
  - destruct s as [|x s].
    + split; [discriminate | intros [t Ht]; discriminate].
    + rewrite andb_true_iff, Ascii.eqb_eq, IH. split.
      * intros [-> [t ->]]. exists t; reflexivity.
      * intros [t Ht]. injection Ht as -> ->. split; [reflexivity | exists t; reflexivity].
Qed.

Lemma strncmp0_not_prefix (s p : bytes) :
  strncmp0 s p (length p) = false <-> ~ has_prefix p s.
Proof.
  rewrite <- strncmp0_prefix. destruct (strncmp0 s p (length p)); split; congruence.
Qed.

Lemma strstr_infix (h n : bytes) : strstr h n = true <-> has_infix n h.
Proof.
  induction h as [|c r IH]; simpl; rewrite orb_true_iff, strncmp0_prefix.
  - split.
    + intros [[t Ht] | H]; [|discriminate]. exists [], t; exact Ht.
    + intros [pre [post H]]. left.
      destruct pre; [exists post; exact H | discriminate].
  - rewrite IH. split.
    + intros [[t Ht] | [pre [post H]]].
      * exists [], t; exact Ht.
      * exists (c :: pre), post. simpl. congruence.
    + intros [pre [post H]]. destruct pre as [|x pre].
      * left. exists post; exact H.
      * right. injection H as _ H. exists pre, post; exact H.
Qed.

Lemma traversal_spec (uri : bytes) :
  traversal uri = true <->
  has_suffix (lit "/..") uri \/ has_infix (lit "/../") uri.
Proof.
  unfold traversal. split.
  - destruct (Nat.leb_spec 3 (length uri)) as [Hlen|]; [|discriminate].
    rewrite orb_true_iff, strcmp0_eq, strstr_infix.
    intros [H | H]; [left | right; exact H].
    exists (firstn (length uri - 3) uri).
    rewrite <- H. symmetry; apply firstn_skipn.
  - intros [[h ->] | H].
    + rewrite length_app. simpl length.
      replace (3 <=? length h + 3)%nat with true
        by (symmetry; apply Nat.leb_le; lia).
      replace (length h + 3 - 3)%nat with (length h + 0)%nat by lia.
      rewrite skipn_app, skipn_all2 by lia.
      replace (length h + 0 - length h)%nat with 0%nat by lia.
      reflexivity.
    + assert (Hs := proj2 (strstr_infix uri (lit "/../")) H).
      destruct H as [pre [post ->]].
      rewrite length_app. simpl length.
      replace (3 <=? _)%nat with true by (symmetry; apply Nat.leb_le; lia).
      rewrite Hs. apply orb_true_r.
Qed.

(* ----------------------------------------------------------------- *)
(** *** strtok yields the whitespace-separated tokens *)

Lemma split_ws_skip_delims (s : bytes) :
  split_ws [] (skip_delims s) = split_ws [] s.
Proof.
  induction s as [|c r IH]; simpl; [reflexivity|].
  destruct (is_delim c) eqn:E; [exact IH|].
  simpl. rewrite E. reflexivity.
Qed.

Lemma split_ws_take_token (s cur tok save : bytes) :
  take_token s = (tok, save) ->
  cur <> [] \/ tok <> [] ->
  split_ws cur s = (rev cur ++ tok) :: split_ws [] save.
Proof.
  revert cur tok save; induction s as [|c r IH]; intros cur tok save; simpl.
  - intros [= <- <-] [H | H]; [|congruence].
    rewrite app_nil_r. destruct cur; [congruence | reflexivity].
  - destruct (is_delim c) eqn:E.
    + intros [= <- <-] [H | H]; [|congruence].
      rewrite app_nil_r. destruct cur; [congruence | reflexivity].
    + destruct (take_token r) as [tok' save'] eqn:T.
      intros [= <- <-] _.
      rewrite (IH (c :: cur) tok' save' eq_refl) by (left; discriminate).
      simpl. rewrite <- app_assoc. reflexivity.
Qed.

Lemma take_token_nonempty (c : ascii) (r : bytes) :
  is_delim c = false -> fst (take_token (c :: r)) <> [].
Proof.
  intros E. simpl. rewrite E. destruct (take_token r). discriminate.
Qed.

Lemma skip_delims_head (s : bytes) (c : ascii) (r : bytes) :
  skip_delims s = c :: r -> is_delim c = false.
Proof.
  induction s as [|x s IH]; simpl; [discriminate|].
  destruct (is_delim x) eqn:E; [exact IH|].
  intros [= <- _]; exact E.
Qed.

Lemma strtok_none (s save : bytes) :
  strtok s = (None, save) -> tokens s = [] /\ save = [].
Proof.
  unfold strtok, tokens. rewrite <- split_ws_skip_delims.
  destruct (skip_delims s) as [|c r].
  - intros [= <-]. split; reflexivity.
  - destruct (take_token (c :: r)); discriminate.
Qed.

Lemma strtok_some (s tok save : bytes) :
  strtok s = (Some tok, save) -> tokens s = tok :: tokens save /\ tok <> [].
Proof.
  unfold strtok, tokens. rewrite <- split_ws_skip_delims.
  destruct (skip_delims s) as [|c r] eqn:K; [discriminate|].
  destruct (take_token (c :: r)) as [t sv] eqn:T.
  intros [= <- <-].
  assert (Hne : t <> []).
  { pose proof (take_token_nonempty c r (skip_delims_head _ _ _ K)) as H.
    rewrite T in H. exact H. }
  split; [|exact Hne].
  apply (split_ws_take_token _ [] _ _ T). right; exact Hne.
Qed.

(* ----------------------------------------------------------------- *)
(** *** fgets *)

Lemma fgets_aux_split (room : nat) (s : bytes) :
  fst (fgets_aux room s) ++ snd (fgets_aux room s) = s.
Proof.
  revert s; induction room as [|room IH]; intros [|c s]; simpl; try reflexivity.
  destruct (Ascii.eqb c LF); simpl; [reflexivity|].
  specialize (IH s). destruct (fgets_aux room s); simpl in *. congruence.
Qed.

Lemma fgets_split (size : nat) (s buf rest : bytes) :
  fgets size s = Some (buf, rest) -> buf ++ rest = s.
Proof.
  destruct s as [|c s]; simpl; [discriminate|].
  intros [= H]. pose proof (fgets_aux_split (size - 1) (c :: s)) as K.
  rewrite H in K. exact K.
Qed.

(** A successful fgets into a buffer of two bytes or more stores at least
    one byte. *)
Lemma fgets_progress (size : nat) (s buf rest : bytes) :
  (2 <= size)%nat -> fgets size s = Some (buf, rest) ->
  (length rest < length s)%nat.
Proof.
  intros Hs H. pose proof (fgets_split _ _ _ _ H) as K.
  assert (buf <> []).
  { destruct s as [|c s]; simpl in H; [discriminate|].
    destruct (size - 1)%nat as [|room] eqn:E; [lia|].
    simpl in H. destruct (Ascii.eqb c LF).
    - injection H as <- _. discriminate.
    - destruct (fgets_aux room s). injection H as <- _. discriminate. }
  rewrite <- K, length_app. destruct buf; [congruence | simpl; lia].
Qed.

(** fgets never stores more than [size - 1] bytes: of a longer line the
    caller sees the first [size - 1] bytes and no newline. *)
Lemma fgets_aux_bound (room : nat) (s : bytes) :
  (length (fst (fgets_aux room s)) <= room)%nat.
Proof.
  revert s; induction room as [|room IH]; intros [|c s]; simpl; try lia.
  destruct (Ascii.eqb c LF); simpl; [lia|].
  specialize (IH s). destruct (fgets_aux room s); simpl in *. lia.
Qed.

Lemma fgets_bound (s buf rest : bytes) :
  fgets 1000 s = Some (buf, rest) -> (length buf <= 999)%nat.
Proof.
  destruct s as [|c s]; [discriminate|]. unfold fgets.
  pose proof (fgets_aux_bound (1000 - 1) (c :: s)) as K.
  remember (fgets_aux (1000 - 1) (c :: s)) as r eqn:R.
  intros [= ->]. cbn [fst] in K. lia.
Qed.

(** A line that fits the buffer is read whole, with its newline. *)
Lemma fgets_aux_line (room : nat) (l rest : bytes) :
  ~ In LF l -> (length l < room)%nat ->
  fgets_aux room (l ++ LF :: rest) = (l ++ [LF], rest).
Proof.
  revert room; induction l as [|c l IH]; intros room Hnl Hlen.
  - destruct room; [simpl in Hlen; lia | reflexivity].
  - destruct room as [|room]; [simpl in Hlen; lia|].
    simpl. destruct (Ascii.eqb_spec c LF) as [->|_].
    + exfalso; apply Hnl; left; reflexivity.
    + rewrite IH; [reflexivity | intros K; apply Hnl; right; exact K
                   | simpl in Hlen; lia].
Qed.

(* ----------------------------------------------------------------- *)
(** *** Writes *)

Lemma transmit_or_cleanup_send (s : sock) (b : bytes) (w : World) :
  transmit_or_cleanup s b w =
  ((if fst (send s b w) then Some tt else None), snd (send s b w)).
Proof.
  unfold transmit_or_cleanup, transmit.
  destruct (send s b w) as [[|] w']; simpl; [|reflexivity].
  replace (Z.of_nat (length b) <? 0)%Z with false; [reflexivity|].
  symmetry; apply Z.ltb_ge; lia.
Qed.

Lemma sendHttpStatus_send (statusCode : Z) (w : World) :
  sendHttpStatus statusCode w =
  snd (send ClientSocket (status_buffer statusCode) w).
Proof.
  unfold sendHttpStatus, transmit.
  destruct (send ClientSocket (status_buffer statusCode) w) as [[|] w'];
    reflexivity.
Qed.

Lemma sendHttpStatus_trace (statusCode : Z) (w : World) :
  trace (sendHttpStatus statusCode w) =
  trace w ++ [Send ClientSocket (status_buffer statusCode)
                (hd true (client_ok w))].
Proof. rewrite sendHttpStatus_send. reflexivity. Qed.

Lemma status_scan_listed (table : list (Z * bytes)) (statusCode : Z) :
  In (statusCode, status_scan table statusCode) table \/
  status_scan table statusCode = lit "Unknown Status Code".
Proof.
  induction table as [|[code message] table IH]; simpl; [right; reflexivity|].
  destruct (code >? 0)%Z; [|right; reflexivity].
  destruct (Z.eqb_spec code statusCode) as [->|_]; [left; left; reflexivity|].
  destruct IH as [IH | IH]; [left; right; exact IH | right; exact IH].
Qed.

(* ================================================================= *)
(** ** The status response (sendHttpStatus) *)

(** C4.  For every status code, sendHttpStatus hands to the client socket,
    in one write, exactly: the status line ["HTTP/1.0 <code> <reason>"],
    CRLF, a blank line (CRLF) and a body.  The body is empty if and only if
    the code is 200; otherwise it is the HTML page
    ["<html><body>\n<h1><code> <reason></h1>\n</body></html>\n"], which
    contains the code and the reason phrase.  The reason phrase is the one
    the table lists for the code, or ["Unknown Status Code"].  The bytes
    depend on the status code alone: the version literal is ["HTTP/1.0"]
    whatever the request said. *)
Theorem sendHttpStatus_bytes (statusCode : Z) (w : World) :
  let code := sprintf_d statusCode in
  let reason := getStatusMessage statusCode in
  exists body,
    trace (sendHttpStatus statusCode w) =
      trace w ++
      [Send ClientSocket
         (lit "HTTP/1.0 " ++ code ++ lit " " ++ reason ++ crlf ++ crlf ++ body)
         (hd true (client_ok w))] /\
    (body = [] <-> statusCode = 200%Z) /\
    (statusCode = 200%Z \/
     body = lit "<html><body>" ++ nl ++ lit "<h1>" ++ code ++ lit " "
              ++ reason ++ lit "</h1>" ++ nl ++ lit "</body></html>" ++ nl /\
     has_infix code body /\ has_infix reason body) /\
    (In (statusCode, reason) HttpStatusCodes \/
     reason = lit "Unknown Status Code").
Proof.
  intros code reason.
  exists (if (statusCode =? 200)%Z then []
          else lit "<html><body>" ++ nl ++ lit "<h1>" ++ code ++ lit " "
                 ++ reason ++ lit "</h1>" ++ nl ++ lit "</body></html>" ++ nl).
  split; [|split; [|split]].
  - rewrite sendHttpStatus_trace. f_equal. f_equal. f_equal.
    unfold status_buffer, strcat. fold code reason.
    destruct (statusCode =? 200)%Z; simpl negb; cbv iota;
      repeat rewrite <- app_assoc; repeat rewrite app_nil_r; reflexivity.
  - destruct (Z.eqb_spec statusCode 200) as [E|E]; split; intros H;
      try tauto; try reflexivity. discriminate H.
  - destruct (Z.eqb_spec statusCode 200) as [E|E]; [left; exact E | right].
    split; [reflexivity | split].
    + exists (lit "<html><body>" ++ nl ++ lit "<h1>"),
             (lit " " ++ reason ++ lit "</h1>" ++ nl ++ lit "</body></html>" ++ nl).
      repeat rewrite <- app_assoc. reflexivity.
    + exists (lit "<html><body>" ++ nl ++ lit "<h1>" ++ code ++ lit " "),
             (lit "</h1>" ++ nl ++ lit "</body></html>" ++ nl).
      repeat rewrite <- app_assoc. reflexivity.
  - apply status_scan_listed.
Qed.

(** The responses the server sends: 200 has no body, the others carry
    their page. *)
Example status_200 :
  status_buffer 200 = lit "HTTP/1.0 200 OK" ++ crlf ++ crlf.
Proof. reflexivity. Qed.

Example status_404 :
  status_buffer 404 =
    lit "HTTP/1.0 404 Not Found" ++ crlf ++ crlf ++
    lit "<html><body>" ++ nl ++ lit "<h1>404 Not Found</h1>" ++ nl ++
    lit "</body></html>" ++ nl.
Proof. reflexivity. Qed.

Example status_unlisted :
  getStatusMessage 418 = lit "Unknown Status Code" /\
  getStatusMessage 0 = lit "Unknown Status Code" /\
  getStatusMessage (-1) = lit "Unknown Status Code".
Proof. repeat split. Qed.

(** The status codes the server passes to sendHttpStatus leave most of the
    1000-byte buffer unused. *)
Lemma status_buffer_fits :
  Forall (fun code => (length (status_buffer code) < 1000)%nat)
         [200; 400; 403; 404; 501]%Z.
Proof. repeat constructor; apply Nat.ltb_lt; vm_compute; reflexivity. Qed.

(* ================================================================= *)
(** ** The lookup page (processMdbRequest) *)

Lemma client_run_refl (w : World) : client_run w w.
Proof.
  split; [reflexivity | split; [reflexivity|]].
  exists []. rewrite app_nil_r. split; [reflexivity | constructor].
Qed.

Lemma client_run_trans (w1 w2 w3 : World) :
  client_run w1 w2 -> client_run w2 w3 -> client_run w1 w3.
Proof.
  intros (Hi1 & Ho1 & e1 & H1 & F1) (Hi2 & Ho2 & e2 & H2 & F2).
  split; [congruence | split; [congruence|]].
  exists (e1 ++ e2). rewrite H2, H1, app_assoc.
  split; [reflexivity | apply Forall_app; split; assumption].
Qed.

Lemma client_run_send (b : bytes) (w : World) :
  client_run w (snd (send ClientSocket b w)).
Proof.
  split; [reflexivity | split; [reflexivity|]].
  eexists. split; [reflexivity|]. repeat constructor.
Qed.

Lemma client_run_transmit (b : bytes) (w : World) :
  client_run w (snd (transmit_or_cleanup ClientSocket b w)).
Proof. rewrite transmit_or_cleanup_send. apply client_run_send. Qed.

Lemma client_sends_only (evs : list event) :
  Forall is_client_send evs ->
  written MdbSocket evs = [] /\ fs_accesses evs = [].
Proof.
  induction 1 as [|x evs Hx F IH]; [split; reflexivity|].
  destruct x as [[|] b ok| | |]; simpl in Hx; try contradiction.
  exact IH.
Qed.

Lemma client_run_written (w w' : World) (evs : list event) :
  client_run w w' -> trace w' = trace w ++ evs ->
  written MdbSocket evs = [] /\ fs_accesses evs = [].
Proof.
  intros (_ & _ & e & H & F) K. rewrite H in K.
  apply app_inv_head in K. subst e.
  apply client_sends_only; exact F.
Qed.

Lemma client_run_set_mdb_in (s : bytes) (w : World) :
  client_run w (set_mdb_in s w).
Proof.
  split; [reflexivity | split; [reflexivity|]].
  exists []. simpl. rewrite app_nil_r. split; [reflexivity | constructor].
Qed.

Lemma transmit_client_mdb_in (b : bytes) (w : World) :
  mdb_in (snd (transmit_or_cleanup ClientSocket b w)) = mdb_in w.
Proof. rewrite transmit_or_cleanup_send. reflexivity. Qed.

(** Writing one table row: the opening, then the line. *)
Lemma row_run (a b : bytes) (w : World) :
  let r := (transmit_or_cleanup ClientSocket a ;;
            transmit_or_cleanup ClientSocket b) w in
  client_run w (snd r) /\ mdb_in (snd r) = mdb_in w.
Proof.
  unfold bind.
  pose proof (client_run_transmit a w) as Ha.
  pose proof (transmit_client_mdb_in a w) as Ia.
  destruct (transmit_or_cleanup ClientSocket a w) as [[[]|] w1]; simpl in *.
  - pose proof (client_run_transmit b w1) as Hb.
    pose proof (transmit_client_mdb_in b w1) as Ib.
    destruct (transmit_or_cleanup ClientSocket b w1) as [r w2]; simpl in *.
    split; [eapply client_run_trans; eassumption | congruence].
  - split; assumption.
Qed.

Lemma read_rows_S (fuel : nat) (rowIndex : Z) (w : World) :
  read_rows (S fuel) rowIndex w =
  match fgets 1000 (mdb_in w) with
  | None => Some (None, w)
  | Some (buf, rest) =>
      if strcmp0 nl (c_str buf) then Some (Some tt, set_mdb_in rest w)
      else
        match (transmit_or_cleanup ClientSocket (tableRow rowIndex) ;;
               transmit_or_cleanup ClientSocket (c_str buf))
                (set_mdb_in rest w) with
        | (None, w2) => Some (None, w2)
        | (Some _, w2) => read_rows fuel (int_succ rowIndex) w2
        end
  end.
Proof. reflexivity. Qed.

(** The loop over the backend's lines always comes to an end. *)
Lemma read_rows_terminates (fuel : nat) (rowIndex : Z) (w : World) :
  (length (mdb_in w) < fuel)%nat -> read_rows fuel rowIndex w <> None.
Proof.
  revert rowIndex w; induction fuel as [|fuel IH]; intros i w Hlen; [lia|].
  rewrite read_rows_S.
  destruct (fgets 1000 (mdb_in w)) as [[buf rest]|] eqn:G; [|discriminate].
  destruct (strcmp0 nl (c_str buf)); [discriminate|].
  pose proof (row_run (tableRow i) (c_str buf) (set_mdb_in rest w)) as [_ Hin].
  cbv zeta in Hin.
  destruct ((transmit_or_cleanup ClientSocket (tableRow i) ;;
             transmit_or_cleanup ClientSocket (c_str buf)) (set_mdb_in rest w))
    as [[[]|] w2]; [|discriminate].
  apply IH. simpl in Hin. rewrite Hin.
  apply fgets_progress in G; lia.
Qed.

Lemma read_rows_run (fuel : nat) (rowIndex : Z) (w : World) r (w' : World) :
  read_rows fuel rowIndex w = Some (r, w') -> client_run w w'.
Proof.
  revert rowIndex w; induction fuel as [|fuel IH]; intros i w; [discriminate|].
  rewrite read_rows_S.
  destruct (fgets 1000 (mdb_in w)) as [[buf rest]|] eqn:G.
  2:{ intros [= _ <-]. apply client_run_refl. }
  pose proof (client_run_set_mdb_in rest w) as H0.
  destruct (strcmp0 nl (c_str buf)).
  { intros [= _ <-]. exact H0. }
  pose proof (row_run (tableRow i) (c_str buf) (set_mdb_in rest w)) as [H1 _].
  cbv zeta in H1.
  destruct ((transmit_or_cleanup ClientSocket (tableRow i) ;;
             transmit_or_cleanup ClientSocket (c_str buf)) (set_mdb_in rest w))
    as [[[]|] w2]; simpl in H1.
  - intros H. apply IH in H.
    exact (client_run_trans _ _ _ H0 (client_run_trans _ _ _ H1 H)).
  - intros [= _ <-]. exact (client_run_trans _ _ _ H0 H1).
Qed.

(** The fuel [read_all_rows] gives the loop is enough. *)
Lemma read_all_rows_total (w : World) :
  read_rows (S (length (mdb_in w))) 1 w = Some (read_all_rows w).
Proof.
  unfold read_all_rows.
  destruct (read_rows (S (length (mdb_in w))) 1 w) as [r|] eqn:R; [reflexivity|].
  exfalso. revert R. apply read_rows_terminates. lia.
Qed.

Lemma read_all_rows_run (w : World) : client_run w (snd (read_all_rows w)).
Proof.
  unfold read_all_rows.
  destruct (read_rows (S (length (mdb_in w))) 1 w) as [[r w']|] eqn:R.
  - simpl. eapply read_rows_run; exact R.
  - apply client_run_refl.
Qed.

(** C10.  processMdbRequest returns 200 on every path: whatever the URI,
    whatever the client socket and the backend do (writes that fail, a
    backend stream that ends or holds no blank line), the value handed back
    to main is 200.  The handler does return: the loop over the backend's
    lines never runs out of the fuel the model gives it. *)
Theorem processMdbRequest_always_200 (requestURI : bytes) (w : World) :
  fst (processMdbRequest requestURI w) = 200%Z /\
  forall w1 : World, read_rows (S (length (mdb_in w1))) 1 w1 <> None.
Proof.
  split; [reflexivity|].
  intros w1. apply read_rows_terminates. lia.
Qed.

Lemma bind_eq {A B} (m : M A) (k : M B) (w : World) :
  (m ;; k) w =
  match m w with
  | (Some _, w1) => k w1
  | (None, w1) => (None, w1)
  end.
Proof. reflexivity. Qed.

Lemma client_step_transmit (b : bytes) :
  client_step (transmit_or_cleanup ClientSocket b).
Proof. intros w. apply client_run_transmit. Qed.

Lemma client_step_bind (m k : M unit) :
  client_step m -> client_step k -> client_step (m ;; k).
Proof.
  intros Hm Hk w. rewrite bind_eq. specialize (Hm w).
  destruct (m w) as [[[]|] w1]; simpl in *; [|exact Hm].
  eapply client_run_trans; [exact Hm | apply Hk].
Qed.

Lemma client_step_read_all_rows : client_step read_all_rows.
Proof. intros w. apply read_all_rows_run. Qed.

Lemma written_app (s : sock) (e1 e2 : list event) :
  written s (e1 ++ e2) = written s e1 ++ written s e2.
Proof.
  induction e1 as [|[s' b ok| | |] e1 IH]; simpl; try assumption; [reflexivity|].
  destruct s, s'; simpl; congruence.
Qed.

Lemma fs_accesses_app (e1 e2 : list event) :
  fs_accesses (e1 ++ e2) = fs_accesses e1 ++ fs_accesses e2.
Proof. apply filter_app. Qed.

Lemma client_run_events (w w' : World) :
  client_run w w' ->
  exists evs, trace w' = trace w ++ evs /\
              written MdbSocket evs = [] /\ fs_accesses evs = [].
Proof.
  intros H. destruct H as (Hi & Ho & evs & Ht & F).
  exists evs. split; [exact Ht | apply client_sends_only; exact F].
Qed.

(** The writes of the lookup block to the backend: the key, then the
    newline if the key went through; nothing if the URI has no key. *)
Lemma lookup_trace (requestURI : bytes) (w : World) :
  exists evs,
    trace (snd (lookup requestURI w)) = trace w ++ evs /\
    fs_accesses evs = [] /\
    written MdbSocket evs =
      (if strncmp0 requestURI keyURI (length keyURI) then
         let key := skipn (length keyURI) requestURI in
         if hd true (mdb_ok w) then [key; nl] else [key]
       else []).
Proof.
  unfold lookup. destruct (strncmp0 requestURI keyURI (length keyURI)).
  2:{ exists []. simpl. rewrite app_nil_r. repeat split. }
  set (key := skipn (length keyURI) requestURI).
  cbv zeta. rewrite bind_eq, transmit_or_cleanup_send.
  cbn [send fst snd client_in mdb_in client_ok mdb_ok trace].
  destruct (hd true (mdb_ok w)) eqn:Ok1.
  2:{ eexists. split; [reflexivity | split; reflexivity]. }
  rewrite bind_eq, transmit_or_cleanup_send.
  cbn [send fst snd client_in mdb_in client_ok mdb_ok trace].
  destruct (hd true (tl (mdb_ok w))) eqn:Ok2.
  2:{ eexists. split; [rewrite <- app_assoc; reflexivity | split; reflexivity]. }
  match goal with |- context [snd (?m ?w0)] =>
    assert (R : client_run w0 (snd (m w0)))
  end.
  { apply client_step_bind; [apply client_step_transmit|].
    apply client_step_bind; [apply client_step_read_all_rows|].
    apply client_step_transmit. }
  apply client_run_events in R. destruct R as (evs & Ht & Hm & Hf).
  exists ([Send MdbSocket key true; Send MdbSocket nl true] ++ evs).
  rewrite Ht. cbn [trace]. rewrite <- !app_assoc.
  split; [reflexivity|].
  rewrite fs_accesses_app, written_app, Hm, Hf. split; reflexivity.
Qed.

Lemma mdb_page_trace (requestURI : bytes) (w : World) :
  let ok1 := hd true (client_ok w) in
  let ok2 := hd true (tl (client_ok w)) in
  exists rest,
    trace (snd (mdb_page requestURI 200 w)) =
      trace w ++ Send ClientSocket (status_buffer 200) ok1
              :: Send ClientSocket form ok2 :: rest /\
    fs_accesses rest = [] /\
    written MdbSocket rest =
      (if ok2 then
         if strncmp0 requestURI keyURI (length keyURI) then
           let key := skipn (length keyURI) requestURI in
           if hd true (mdb_ok w) then [key; nl] else [key]
         else []
       else []).
Proof.
  intros ok1 ok2. unfold mdb_page.
  rewrite bind_eq. unfold perform at 1.
  rewrite sendHttpStatus_send, bind_eq, transmit_or_cleanup_send.
  cbn [send fst snd client_in mdb_in client_ok mdb_ok trace].
  fold ok1 ok2. destruct ok2.
  2:{ exists []. cbn [snd trace]. rewrite <- app_assoc. repeat split. }
  rewrite bind_eq.
  match goal with |- context [lookup requestURI ?w0] =>
    destruct (lookup_trace requestURI w0) as (e1 & Ht1 & Hf1 & Hm1);
    cbn [mdb_ok trace] in Ht1, Hm1;
    destruct (lookup requestURI w0) as [r w3]
  end.
  cbn [snd] in Ht1.
  assert (exists e2, trace (snd (match r with
                                 | Some _ => transmit_or_cleanup ClientSocket pageEnd w3
                                 | None => (None, w3)
                                 end)) = trace w3 ++ e2 /\
                     written MdbSocket e2 = [] /\ fs_accesses e2 = [])
    as (e2 & Ht2 & Hm2 & Hf2).
  { destruct r as [[]|].
    - apply client_run_events, client_run_transmit.
    - exists []. cbn [snd]. rewrite app_nil_r. repeat split. }
  exists (e1 ++ e2). rewrite Ht2, Ht1, <- !app_assoc.
  split; [reflexivity|].
  rewrite fs_accesses_app, written_app, Hf1, Hf2, Hm1, Hm2.
  split; [reflexivity | apply app_nil_r].
Qed.

(** C7.  For every URI handed to processMdbRequest (main hands it every URI
    that begins with ["/mdb-lookup"]), the handler first writes the 200 OK
    status response to the client and next the fixed HTML form.  When the
    URI does not begin with ["/mdb-lookup?key="], nothing else follows but
    the closing ["</body></html>\n"] (written unless the write of the form
    failed): no table, no write to the backend and no read from it, and the
    handler returns 200. *)
Theorem processMdbRequest_form (requestURI : bytes) (w : World) :
  let ok1 := hd true (client_ok w) in
  let ok2 := hd true (tl (client_ok w)) in
  let ok3 := hd true (tl (tl (client_ok w))) in
  let w' := snd (processMdbRequest requestURI w) in
  exists rest,
    trace w' = trace w ++ Send ClientSocket (status_buffer 200) ok1
                       :: Send ClientSocket form ok2 :: rest /\
    (~ has_prefix keyURI requestURI ->
     rest = (if ok2 then [Send ClientSocket pageEnd ok3] else []) /\
     written MdbSocket rest = [] /\
     mdb_ok w' = mdb_ok w /\ mdb_in w' = mdb_in w /\
     fst (processMdbRequest requestURI w) = 200%Z).
Proof.
  intros ok1 ok2 ok3 w'. subst w'. unfold processMdbRequest. cbn [fst snd].
  destruct (strncmp0 requestURI keyURI (length keyURI)) eqn:K.
  - destruct (mdb_page_trace requestURI w) as (rest & Ht & _).
    exists rest. split; [exact Ht|].
    intros Hn. exfalso. apply Hn, strncmp0_prefix, K.
  - exists (if ok2 then [Send ClientSocket pageEnd ok3] else []).
    remember (snd (mdb_page requestURI 200 w)) as w' eqn:E.
    unfold mdb_page, lookup in E. rewrite K in E.
    rewrite bind_eq in E. unfold perform at 1 in E.
    rewrite sendHttpStatus_send, bind_eq, transmit_or_cleanup_send in E.
    cbn [send fst snd client_in mdb_in client_ok mdb_ok trace] in E.
    fold ok1 ok2 in E. destruct ok2.
    + rewrite bind_eq in E. unfold ret at 1 in E.
      rewrite transmit_or_cleanup_send in E.
      cbn [send fst snd client_in mdb_in client_ok mdb_ok trace] in E.
      fold ok3 in E. subst w'. cbn [trace mdb_ok mdb_in written].
      rewrite <- !app_assoc. repeat split.
    + subst w'. cbn [snd trace mdb_ok mdb_in written].
      rewrite <- app_assoc. repeat split.
Qed.


(* ----------------------------------------------------------------- *)
(** *** The table *)

Lemma accepts_all_hd (oks : list bool) : accepts_all oks -> hd true oks = true.
Proof. intros H. destruct H; [reflexivity | assumption]. Qed.

Lemma accepts_all_tl (oks : list bool) : accepts_all oks -> accepts_all (tl oks).
Proof. intros H. destruct H; [constructor | assumption]. Qed.

(** A write on a healthy pair of sockets goes through. *)
Lemma transmit_healthy (s : sock) (b : bytes) (w : World) :
  healthy w ->
  exists w',
    transmit_or_cleanup s b w = (Some tt, w') /\
    healthy w' /\
    trace w' = trace w ++ [Send s b true] /\
    mdb_in w' = mdb_in w /\ client_in w' = client_in w.
Proof.
  intros [Hc Hm]. rewrite transmit_or_cleanup_send.
  destruct s; cbn [send fst snd].
  - rewrite (accepts_all_hd _ Hc). eexists. split; [reflexivity|].
    repeat split; cbn; auto using accepts_all_tl.
  - rewrite (accepts_all_hd _ Hm). eexists. split; [reflexivity|].
    repeat split; cbn; auto using accepts_all_tl.
Qed.

(** The row opening goes by the parity of [rowIndex], and the wrap-around
    of the counter keeps the alternation. *)
Lemma tableRow_odd (x : Z) :
  tableRow x = if Z.odd x then rowPlain else rowYellow.
Proof.
  assert (P : (Z.rem x 2 =? 0)%Z = Z.even x).
  { destruct (Z.eqb_spec (Z.rem x 2) 0) as [E|E]; symmetry.
    - apply Z.even_spec. apply Z.rem_divide in E; [|lia].
      destruct E as [k ->]. exists k. lia.
    - destruct (Z.even x) eqn:K; [|reflexivity].
      exfalso. apply E. apply Z.rem_divide; [lia|].
      apply Z.even_spec in K. destruct K as [k ->]. exists k. lia. }
  unfold tableRow. rewrite P, Z.negb_even. reflexivity.
Qed.

Lemma int_succ_odd (x : Z) : Z.odd (int_succ x) = negb (Z.odd x).
Proof.
  unfold int_succ. destruct (Z.eqb_spec x INT_MAX) as [->|_]; [reflexivity|].
  rewrite Z.add_1_r, Z.odd_succ, Z.negb_odd. reflexivity.
Qed.

Lemma fgets_line (l rest : bytes) :
  ~ In LF l -> (length l <= 998)%nat ->
  fgets 1000 (l ++ LF :: rest) = Some (l ++ [LF], rest).
Proof.
  intros Hnl Hlen. unfold fgets.
  replace (1000 - 1)%nat with 999%nat by reflexivity.
  rewrite (fgets_aux_line 999 l rest Hnl) by lia.
  destruct l; reflexivity.
Qed.

Lemma row_text_not_blank (l : bytes) :
  l <> [] -> ~ In LF l -> strcmp0 nl (row_text l) = false.
Proof.
  intros Hne Hnl. apply strcmp0_neq. unfold row_text.
  destruct l as [|c l]; [congruence|]. simpl.
  destruct (Ascii.eqb c NUL); [discriminate|].
  intros [= E _]. apply Hnl. left. symmetry; exact E.
Qed.

Lemma reply_cons (l : bytes) (ls : list bytes) (rest : bytes) :
  reply (l :: ls) ++ rest = l ++ LF :: (reply ls ++ rest).
Proof.
  unfold reply. simpl. unfold nl. rewrite <- !app_assoc. reflexivity.
Qed.

(** The loop on a reply whose lines all fit: one row per line, in order,
    the blank line read, the rest of the stream left. *)
Lemma read_rows_reply (ls : list bytes) :
  forall (fuel i : nat) (rowIndex : Z) (rest : bytes) (w : World),
    Z.odd rowIndex = Nat.odd i ->
    Forall fits_line ls ->
    mdb_in w = reply ls ++ rest ->
    healthy w ->
    (length (mdb_in w) < fuel)%nat ->
    exists w',
      read_rows fuel rowIndex w = Some (Some tt, w') /\
      healthy w' /\
      trace w' = trace w ++ client_writes (rows i (map row_text ls)) /\
      mdb_in w' = rest /\ client_in w' = client_in w.
Proof.
  induction ls as [|l ls IH]; intros fuel i rowIndex rest w Hpar Hfit Hin Hw Hfuel.
  - destruct fuel as [|fuel]; [lia|]. rewrite read_rows_S, Hin.
    change (reply [] ++ rest) with ([] ++ LF :: rest).
    rewrite fgets_line by (simpl; try tauto; lia).
    change (strcmp0 nl (c_str ([] ++ [LF]))) with true. cbv iota.
    eexists. split; [reflexivity|].
    split; [exact Hw|]. cbn. rewrite app_nil_r. repeat split.
  - destruct fuel as [|fuel]; [lia|].
    inversion Hfit as [|? ? (Hne & Hnl & Hlen) Hfit']; subst.
    rewrite read_rows_S, Hin, reply_cons, fgets_line by assumption.
    change (c_str (l ++ [LF])) with (row_text l).
    rewrite row_text_not_blank by assumption.
    rewrite bind_eq.
    set (w0 := set_mdb_in (reply ls ++ rest) w).
    assert (H0 : healthy w0) by exact Hw.
    destruct (transmit_healthy ClientSocket (tableRow rowIndex) w0 H0)
      as (w1 & E1 & H1 & T1 & I1 & C1).
    rewrite E1.
    destruct (transmit_healthy ClientSocket (row_text l) w1 H1)
      as (w2 & E2 & H2 & T2 & I2 & C2).
    rewrite E2.
    destruct (IH fuel (S i) (int_succ rowIndex) rest w2)
      as (w' & E & H' & T' & I' & C'); [| exact Hfit' | | | |].
    + rewrite int_succ_odd, Hpar, Nat.odd_succ, Nat.negb_odd. reflexivity.
    + rewrite I2, I1. reflexivity.
    + exact H2.
    + rewrite I2, I1. cbn [w0 set_mdb_in mdb_in].
      rewrite Hin, reply_cons, length_app in Hfuel. simpl in Hfuel. lia.
    + exists w'. split; [exact E|]. split; [exact H'|].
      split; [|split; [exact I' | rewrite C', C2, C1; reflexivity]].
      rewrite T', T2, T1. cbn [w0 set_mdb_in trace map rows client_writes].
      rewrite tableRow_odd, Hpar, <- !app_assoc. reflexivity.
Qed.

Lemma written_client_writes (bs : list bytes) :
  written ClientSocket (client_writes bs) = bs.
Proof. induction bs as [|b bs IH]; simpl; congruence. Qed.

Lemma written_mdb_client_writes (bs : list bytes) :
  written MdbSocket (client_writes bs) = [].
Proof. induction bs as [|b bs IH]; simpl; congruence. Qed.

Lemma all_sent_client_writes (bs : list bytes) : all_sent (client_writes bs).
Proof. induction bs; constructor; auto. Qed.

(** C9 (amended).  Let the backend answer a lookup with the lines [ls],
    each followed by ["\n"], and then a blank line; let every line be
    non-blank and short enough to fit the 1000-byte line buffer with its
    newline (at most 998 bytes), and let every write go through.  Then the
    handler takes the lines up to the blank line, which it reads and does
    not render (what follows it stays unread), and writes, between the
    table opening and the table end, one row per line, in the order
    received: row number [i] (counted from 1) opens with ["\n<tr><td>"]
    when [i] is odd and with ["\n<tr><td bgcolor=yellow>"] when [i] is even,
    and carries the line with its newline (as a C string: up to a NUL byte,
    should the line hold one). *)
Theorem lookup_table_rows (key : bytes) (ls : list bytes) (rest : bytes)
    (w : World) :
  Forall fits_line ls ->
  mdb_in w = reply ls ++ rest ->
  healthy w ->
  let w' := snd (processMdbRequest (keyURI ++ key) w) in
  exists evs,
    trace w' = trace w ++ evs /\
    written ClientSocket evs = lookup_page ls /\
    written MdbSocket evs = [key; nl] /\
    all_sent evs /\
    mdb_in w' = rest.
Proof.
  intros Hfit Hin Hw w'.
  assert (E : w' = snd (processMdbRequest (keyURI ++ key) w)) by reflexivity.
  clearbody w'.
  unfold processMdbRequest, mdb_page, lookup in E. cbn [snd] in E.
  replace (strncmp0 (keyURI ++ key) keyURI (length keyURI)) with true in E
    by (symmetry; apply strncmp0_prefix; exists key; reflexivity).
  rewrite skipn_app, skipn_all, Nat.sub_diag in E. cbn [skipn app] in E.
  cbv zeta in E.
  rewrite bind_eq in E. unfold perform, sendHttpStatus in E.
  assert (S0 : transmit ClientSocket (status_buffer 200) w =
               (Z.of_nat (length (status_buffer 200)),
                snd (transmit_or_cleanup ClientSocket (status_buffer 200) w))).
  { rewrite transmit_or_cleanup_send. unfold transmit.
    destruct Hw as [Hc _]. cbn [send fst snd].
    rewrite (accepts_all_hd _ Hc). reflexivity. }
  rewrite S0 in E. cbn [snd] in E.
  destruct (transmit_healthy ClientSocket (status_buffer 200) w Hw)
    as (w1 & E1 & H1 & T1 & I1 & _).
  rewrite E1 in E. cbn [snd] in E.
  destruct (transmit_healthy ClientSocket form w1 H1)
    as (w2 & E2 & H2 & T2 & I2 & _).
  rewrite bind_eq, E2, bind_eq, bind_eq in E.
  destruct (transmit_healthy MdbSocket key w2 H2)
    as (w3 & E3 & H3 & T3 & I3 & _).
  rewrite E3, bind_eq in E.
  destruct (transmit_healthy MdbSocket nl w3 H3)
    as (w4 & E4 & H4 & T4 & I4 & _).
  rewrite E4, bind_eq in E.
  destruct (transmit_healthy ClientSocket tableStart w4 H4)
    as (w5 & E5 & H5 & T5 & I5 & _).
  rewrite E5, bind_eq in E.
  assert (I : mdb_in w5 = reply ls ++ rest) by congruence.
  destruct (read_rows_reply ls (S (length (mdb_in w5))) 1 1 rest w5
              eq_refl Hfit I H5)
    as (w6 & E6 & H6 & T6 & I6 & _); [lia|].
  unfold read_all_rows in E. rewrite E6 in E.
  destruct (transmit_healthy ClientSocket tableEnd w6 H6)
    as (w7 & E7 & H7 & T7 & I7 & _).
  rewrite E7 in E.
  destruct (transmit_healthy ClientSocket pageEnd w7 H7)
    as (w8 & E8 & H8 & T8 & I8 & _).
  rewrite E8 in E. cbn [snd] in E. subst w'.
  exists (client_writes [status_buffer 200; form]
          ++ [Send MdbSocket key true; Send MdbSocket nl true]
          ++ client_writes [tableStart]
          ++ client_writes (rows 1 (map row_text ls))
          ++ client_writes [tableEnd; pageEnd]).
  split; [|split; [|split; [|split]]].
  - rewrite T8, T7, T6, T5, T4, T3, T2, T1. cbn [client_writes map].
    rewrite <- !app_assoc. reflexivity.
  - rewrite !written_app, !written_client_writes. reflexivity.
  - rewrite !written_app, !written_mdb_client_writes. reflexivity.
  - unfold all_sent. rewrite !Forall_app.
    repeat split; try apply all_sent_client_writes. repeat constructor.
  - congruence.
Qed.

(** The theorem at a reply of three lines. *)
Lemma lookup_table_rows_witness :
  Forall fits_line three_lines /\
  healthy (quiet [] (reply three_lines)) /\
  exists evs,
    trace (snd (processMdbRequest (keyURI ++ lit "alice")
                  (quiet [] (reply three_lines)))) = [] ++ evs /\
    written ClientSocket evs = lookup_page three_lines /\
    written MdbSocket evs = [lit "alice"; nl] /\
    all_sent evs /\
    mdb_in (snd (processMdbRequest (keyURI ++ lit "alice")
                   (quiet [] (reply three_lines)))) = [].
Proof.
  assert (F : Forall fits_line three_lines) by (unfold three_lines; fits).
  assert (H : healthy (quiet [] (reply three_lines)))
    by (split; constructor).
  split; [exact F | split; [exact H|]].
  apply (lookup_table_rows (lit "alice") three_lines []
           (quiet [] (reply three_lines)) F);
    [symmetry; apply app_nil_r | exact H].
Defined.

(** Rows 1 and 3 of a three-line reply open one way, row 2 the other. *)
Example three_rows :
  rows 1 (map row_text three_lines) =
  [ rowPlain;  lit "alice,555-1234" ++ nl;
    rowYellow; lit "bob,555-9876" ++ nl;
    rowPlain;  lit "carol,555-0000" ++ nl ].
Proof. reflexivity. Qed.

(** C9 as stated fails on two kinds of runs.
    A reply line of 999 bytes: fgets fills the line buffer with the line and
    leaves its newline, which the next turn takes for the blank line; the
    table ends after one row and the second line ["b"] stays unread.
    A write to the client that fails (here the fourth, the opening of the
    first row): the handler leaves at once; no row is complete and the
    reply stays unread from its second line on. *)
Lemma lookup_table_rows_counterexample :
  (let w := quiet [] (reply [long_line; lit "b"]) in
   let w' := snd (processMdbRequest (keyURI ++ lit "k") w) in
   written ClientSocket (trace w') =
     [status_buffer 200; form; tableStart; rowPlain; long_line;
      tableEnd; pageEnd] /\
   mdb_in w' = lit "b" ++ nl ++ nl /\
   written ClientSocket (trace w') <> lookup_page [long_line; lit "b"]) /\
  (let w := flaky [] (reply three_lines) [true; true; true; false] in
   let w' := snd (processMdbRequest (keyURI ++ lit "k") w) in
   written ClientSocket (trace w') =
     [status_buffer 200; form; tableStart; rowPlain] /\
   mdb_in w' = reply (tl three_lines) /\
   written ClientSocket (trace w') <> lookup_page three_lines).
Proof.
  split; cbv zeta.
  - assert (E : written ClientSocket
                  (trace (snd (processMdbRequest (keyURI ++ lit "k")
                                 (quiet [] (reply [long_line; lit "b"]))))) =
                [status_buffer 200; form; tableStart; rowPlain; long_line;
                 tableEnd; pageEnd]) by (vm_compute; reflexivity).
    split; [exact E | split; [vm_compute; reflexivity|]].
    rewrite E. intros H. apply (f_equal (@length bytes)) in H.
    vm_compute in H. discriminate H.
  - assert (E : written ClientSocket
                  (trace (snd (processMdbRequest (keyURI ++ lit "k")
                                 (flaky [] (reply three_lines)
                                    [true; true; true; false])))) =
                [status_buffer 200; form; tableStart; rowPlain])
      by (vm_compute; reflexivity).
    split; [exact E | split; [vm_compute; reflexivity|]].
    rewrite E. intros H. apply (f_equal (@length bytes)) in H.
    vm_compute in H. discriminate H.
Qed.


(* ================================================================= *)
(** ** The file handler (processFileRequest) *)

Lemma file_path_resolved (webRoot uri : bytes) :
  uri <> [] -> file_path webRoot uri = Some (resolved_path webRoot uri).
Proof.
  intros Hne. destruct (exists_last Hne) as (u & c & ->).
  unfold file_path, resolved_path, ends_with_slash, strcat.
  rewrite rev_app_distr. cbn [rev app].
  rewrite (app_assoc webRoot u [c]).
  replace (length ((webRoot ++ u) ++ [c]) - 1)%nat with (length (webRoot ++ u))
    by (rewrite (length_app (webRoot ++ u)); simpl; lia).
  rewrite nth_error_app2, Nat.sub_diag by lia. cbn [nth_error].
  destruct (Ascii.eqb c SLASH); rewrite <- ?app_assoc, ?app_nil_r; reflexivity.
Qed.

Lemma send_file_S (fuel : nat) (unread : bytes) (w : World) :
  send_file (S fuel) unread w =
  let buffer := firstn BUFFER_SIZE unread in
  if (0 <? length buffer)%nat then
    let (ok, w') := send ClientSocket buffer w in
    if ok then send_file fuel (skipn BUFFER_SIZE unread) w' else Some w'
  else Some w.
Proof. reflexivity. Qed.

Lemma BUFFER_SIZE_pos : (0 < BUFFER_SIZE)%nat.
Proof. unfold BUFFER_SIZE; lia. Qed.

(** A chunk is read as long as bytes are left. *)
Lemma fread_progress (unread : bytes) :
  unread <> [] ->
  (0 <? length (firstn BUFFER_SIZE unread))%nat = true /\
  (length (skipn BUFFER_SIZE unread) < length unread)%nat.
Proof.
  intros Hne. pose proof BUFFER_SIZE_pos.
  assert (0 < length unread)%nat by (destruct unread; [congruence | simpl; lia]).
  rewrite length_firstn, length_skipn. split; [apply Nat.ltb_lt|]; lia.
Qed.

(** The copy loop always comes to an end. *)
Lemma send_file_terminates (fuel : nat) (unread : bytes) (w : World) :
  (length unread < fuel)%nat -> send_file fuel unread w <> None.
Proof.
  revert unread w; induction fuel as [|fuel IH]; intros unread w Hlen; [lia|].
  rewrite send_file_S. cbv zeta.
  destruct unread as [|c d].
  - rewrite firstn_nil. discriminate.
  - destruct (fread_progress (c :: d)) as [-> Hs]; [discriminate|].
    destruct (send ClientSocket (firstn BUFFER_SIZE (c :: d)) w) as [[|] w1];
      [|discriminate].
    apply IH. lia.
Qed.

Lemma send_file_run (fuel : nat) (unread : bytes) (w w' : World) :
  send_file fuel unread w = Some w' -> client_run w w'.
Proof.
  revert unread w; induction fuel as [|fuel IH]; intros unread w; [discriminate|].
  rewrite send_file_S. cbv zeta.
  destruct (0 <? length (firstn BUFFER_SIZE unread))%nat.
  2:{ intros [= <-]. apply client_run_refl. }
  pose proof (client_run_send (firstn BUFFER_SIZE unread) w) as R.
  destruct (send ClientSocket (firstn BUFFER_SIZE unread) w) as [[|] w1];
    cbn [snd] in R.
  - intros H. apply IH in H. exact (client_run_trans _ _ _ R H).
  - intros [= <-]. exact R.
Qed.

(** The fuel [send_whole_file] gives the loop is enough. *)
Lemma send_whole_file_total (f : file) (w : World) :
  let data := firstn (readable f) (contents f) in
  send_file (S (length data)) data w = Some (send_whole_file f w).
Proof.
  intros data. unfold send_whole_file. fold data.
  destruct (send_file (S (length data)) data w) as [w'|] eqn:R; [reflexivity|].
  exfalso. revert R. apply send_file_terminates. lia.
Qed.

(** When the client takes every write, the chunks written are the file. *)
Lemma send_file_all (fuel : nat) :
  forall (unread : bytes) (w : World),
    accepts_all (client_ok w) ->
    (length unread < fuel)%nat ->
    exists w' chunks,
      send_file fuel unread w = Some w' /\
      trace w' = trace w ++ client_writes chunks /\
      concat chunks = unread /\
      Forall (fun c => c <> [] /\ (length c <= BUFFER_SIZE)%nat) chunks.
Proof.
  induction fuel as [|fuel IH]; intros unread w Hok Hlen; [lia|].
  rewrite send_file_S. cbv zeta.
  destruct unread as [|c d].
  - rewrite firstn_nil. exists w, []. cbn. rewrite app_nil_r.
    repeat split. constructor.
  - destruct (fread_progress (c :: d)) as [Hr Hs]; [discriminate|].
    rewrite Hr. cbn [send]. rewrite (accepts_all_hd _ Hok).
    match goal with |- context [send_file fuel _ ?w0] =>
      destruct (IH (skipn BUFFER_SIZE (c :: d)) w0) as (w' & chunks & E & T & C & F);
        [apply accepts_all_tl; exact Hok | lia |]
    end.
    exists w', (firstn BUFFER_SIZE (c :: d) :: chunks).
    split; [exact E|]. split; [|split].
    + rewrite T. cbn [trace client_writes map]. rewrite <- app_assoc. reflexivity.
    + cbn [concat]. rewrite C. apply firstn_skipn.
    + constructor; [|exact F]. split.
      * intros K. rewrite K in Hr. discriminate Hr.
      * rewrite length_firstn. lia.
Qed.

(** C6.  For every web root and every URI main can hand over (a URI is
    never empty: it begins with a slash), the path of the handler is the
    root followed by the URI, followed by ["index.html"] when the URI ends
    in a slash.  The handler calls stat on that path and, unless it is a
    directory, fopen.  It writes one status response to the client and
    returns the very code it wrote: 403 when the path is a directory, 404
    when it is not and cannot be opened, 200 otherwise.  Only after a 200
    do further writes follow (the file). *)
Theorem processFileRequest_status (fs : FileSystem) (webRoot uri : bytes)
    (w : World) :
  uri <> [] ->
  let path := resolved_path webRoot uri in
  let code := file_status fs path in
  file_path webRoot uri = Some path /\
  exists w' body,
    processFileRequest fs webRoot uri w = Some (code, w') /\
    trace w' = trace w ++ file_lookups fs path
                 ++ Send ClientSocket (status_buffer code) (hd true (client_ok w))
                 :: body /\
    Forall is_client_send body /\
    (code = 200%Z \/ body = []).
Proof.
  intros Hne path code. subst path code.
  pose proof (file_path_resolved webRoot uri Hne) as P.
  split; [exact P|].
  unfold processFileRequest, file_status, file_lookups. rewrite P. cbv zeta.
  set (path := resolved_path webRoot uri).
  destruct (stat_isdir fs path).
  { eexists _, []. split; [reflexivity|].
    rewrite sendHttpStatus_trace. cbn [log trace client_ok].
    rewrite <- app_assoc. repeat split; auto. }
  destruct (fopen_rb fs path) as [f|].
  2:{ eexists _, []. split; [reflexivity|].
      rewrite sendHttpStatus_trace. cbn [log trace client_ok].
      rewrite <- !app_assoc. repeat split; auto. }
  unfold send_whole_file.
  set (data := firstn (readable f) (contents f)).
  set (w1 := sendHttpStatus 200 (log (Fopen path) (log (Stat path) w))).
  assert (T1 : trace w1 = trace w ++ [Stat path; Fopen path]
                 ++ [Send ClientSocket (status_buffer 200) (hd true (client_ok w))]).
  { unfold w1. rewrite sendHttpStatus_trace. cbn [log trace client_ok].
    rewrite <- !app_assoc. reflexivity. }
  destruct (send_file (S (length data)) data w1) as [w2|] eqn:E.
  2:{ exfalso. revert E. apply send_file_terminates. lia. }
  apply send_file_run in E. destruct E as (_ & _ & body & T2 & F).
  exists w2, body. split; [reflexivity|].
  rewrite T2, T1, <- !app_assoc. repeat split; auto.
Qed.

(** The theorem at the URI ["/"] under the root ["/www"]. *)
Lemma processFileRequest_status_witness :
  lit "/" <> [] /\
  file_path (lit "/www") (lit "/") = Some (lit "/www/index.html") /\
  exists w' body,
    processFileRequest site (lit "/www") (lit "/") (quiet [] []) =
      Some (200%Z, w') /\
    trace w' = [] ++ [Stat (lit "/www/index.html"); Fopen (lit "/www/index.html")]
                 ++ Send ClientSocket (status_buffer 200) true :: body /\
    Forall is_client_send body /\
    (200%Z = 200%Z \/ body = []).
Proof.
  split; [discriminate|].
  apply (processFileRequest_status site (lit "/www") (lit "/") (quiet [] [])).
  discriminate.
Defined.

(** The three outcomes, run: a directory, a missing file, a file. *)
Example file_handler_outcomes :
  option_map fst (processFileRequest site (lit "/www") (lit "/docs") (quiet [] []))
    = Some 403%Z /\
  option_map fst (processFileRequest site (lit "/www") (lit "/missing.html") (quiet [] []))
    = Some 404%Z /\
  option_map fst (processFileRequest site (lit "/www") (lit "/index.html") (quiet [] []))
    = Some 200%Z.
Proof. repeat split. Qed.

(** C5.  Let the handler open a file: the path it builds is not a directory
    and fopen delivers the file.  Let the file be read to its end without an
    error and let the client take every write.  Then the handler returns
    200 and what it writes to the client is the status response (status
    line and blank line, no body of its own) followed by chunks of at most
    4096 bytes whose concatenation is the contents of the file, byte for
    byte, whatever the length of the file. *)
Theorem processFileRequest_body (fs : FileSystem) (webRoot uri path : bytes)
    (f : file) (w : World) :
  file_path webRoot uri = Some path ->
  stat_isdir fs path = false ->
  fopen_rb fs path = Some f ->
  (length (contents f) <= readable f)%nat ->
  accepts_all (client_ok w) ->
  exists w' chunks,
    processFileRequest fs webRoot uri w = Some (200%Z, w') /\
    trace w' = trace w ++ [Stat path; Fopen path]
                 ++ client_writes (status_buffer 200 :: chunks) /\
    status_buffer 200 = lit "HTTP/1.0 200 OK" ++ crlf ++ crlf /\
    concat chunks = contents f /\
    Forall (fun c => c <> [] /\ (length c <= BUFFER_SIZE)%nat) chunks.
Proof.
  intros P D O R A.
  unfold processFileRequest. rewrite P. cbv zeta. rewrite D, O.
  unfold send_whole_file. rewrite firstn_all2 by exact R.
  set (w1 := sendHttpStatus 200 (log (Fopen path) (log (Stat path) w))).
  assert (T1 : trace w1 = trace w ++ [Stat path; Fopen path]
                 ++ client_writes [status_buffer 200]).
  { unfold w1. rewrite sendHttpStatus_trace. cbn [log trace client_ok].
    rewrite (accepts_all_hd _ A), <- !app_assoc. reflexivity. }
  assert (A1 : accepts_all (client_ok w1)).
  { unfold w1. rewrite sendHttpStatus_send. cbn.
    apply accepts_all_tl; exact A. }
  destruct (send_file_all (S (length (contents f))) (contents f) w1 A1)
    as (w2 & chunks & E & T2 & C & F); [lia|].
  rewrite E. exists w2, chunks. split; [reflexivity|].
  split; [|split; [reflexivity | split; assumption]].
  rewrite T2, T1. cbn [client_writes map]. rewrite <- !app_assoc. reflexivity.
Qed.

(** The theorem at a file of 4097 bytes: one chunk boundary crossed. *)
Lemma processFileRequest_body_witness :
  let fs := one_file (lit "/www/big.bin") (blob 4097) in
  exists w' chunks,
    processFileRequest fs (lit "/www") (lit "/big.bin") (quiet [] []) =
      Some (200%Z, w') /\
    trace w' = [] ++ [Stat (lit "/www/big.bin"); Fopen (lit "/www/big.bin")]
                 ++ client_writes (status_buffer 200 :: chunks) /\
    status_buffer 200 = lit "HTTP/1.0 200 OK" ++ crlf ++ crlf /\
    concat chunks = blob 4097 /\
    Forall (fun c => c <> [] /\ (length c <= BUFFER_SIZE)%nat) chunks.
Proof.
  intros fs.
  apply (processFileRequest_body fs (lit "/www") (lit "/big.bin")
           (lit "/www/big.bin") (mkFile (blob 4097) (length (blob 4097)))
           (quiet [] [])).
  - reflexivity.
  - reflexivity.
  - vm_compute. reflexivity.
  - apply Nat.le_refl.
  - constructor.
Defined.

(** Files of 0, 1 and 4096 + 1 bytes: the chunks written after the status
    response. *)
Example file_chunks :
  let served n :=
    option_map (fun r => tl (written ClientSocket (trace (snd r))))
      (processFileRequest (one_file (lit "/www/f") (blob n)) (lit "/www")
         (lit "/f") (quiet [] [])) in
  served 0%nat = Some [] /\
  served 1%nat = Some [blob 1] /\
  served 4097%nat = Some [blob 4096; blob 1].
Proof. cbv zeta. repeat split; vm_compute; reflexivity. Qed.

(* ================================================================= *)
(** ** The request parser (main) *)

(** The four calls of strtok see the tokens of the line. *)
Lemma handle_request_tokens (fs : FileSystem) (root : bytes) (w : World)
    (buf rest : bytes) :
  fgets 1000 (client_in w) = Some (buf, rest) ->
  handle_request fs root w =
  match tokens (c_str buf) with
  | [m; u; v] => check_and_route fs root m u v (set_client_in rest w)
  | _ => reject 501 (set_client_in rest w)
  end.
Proof.
  intros G. unfold handle_request. rewrite G.
  destruct (strtok (c_str buf)) as [[m|] s1] eqn:K1.
  2:{ apply strtok_none in K1 as [-> ->].
      change (strtok []) with (@None bytes, @nil ascii). reflexivity. }
  apply strtok_some in K1 as [-> _].
  destruct (strtok s1) as [[u|] s2] eqn:K2.
  2:{ apply strtok_none in K2 as [-> ->].
      change (strtok []) with (@None bytes, @nil ascii). reflexivity. }
  apply strtok_some in K2 as [-> _].
  destruct (strtok s2) as [[v|] s3] eqn:K3.
  2:{ apply strtok_none in K3 as [-> ->].
      change (strtok []) with (@None bytes, @nil ascii). reflexivity. }
  apply strtok_some in K3 as [-> _].
  destruct (strtok s3) as [[x|] s4] eqn:K4.
  - apply strtok_some in K4 as [-> _]. reflexivity.
  - apply strtok_none in K4 as [-> _]. reflexivity.
Qed.

Lemma not_rooted_prefix (uri : bytes) :
  not_rooted uri = false <-> has_prefix [SLASH] uri.
Proof.
  destruct uri as [|c r]; simpl.
  - split; [discriminate | intros [t H]; discriminate].
  - rewrite negb_false_iff, Ascii.eqb_eq. split.
    + intros ->. exists r; reflexivity.
    + intros [t H]. injection H as -> _. reflexivity.
Qed.

Lemma reject_trace (code : Z) (w : World) :
  exists w', reject code w = Some (code, w') /\
    trace w' = trace w ++ [Send ClientSocket (status_buffer code)
                             (hd true (client_ok w))] /\
    mdb_in w' = mdb_in w /\ mdb_ok w' = mdb_ok w.
Proof.
  eexists. split; [reflexivity|].
  rewrite sendHttpStatus_trace, sendHttpStatus_send. repeat split.
Qed.

(** A refused request line is answered with its status at once. *)
Lemma handle_request_refused (fs : FileSystem) (root : bytes) (w : World)
    (buf rest : bytes) (code : Z) :
  fgets 1000 (client_in w) = Some (buf, rest) ->
  refused (c_str buf) code ->
  handle_request fs root w = reject code (set_client_in rest w).
Proof.
  intros G R. rewrite (handle_request_tokens fs root w buf rest G).
  destruct R as [Hc | m u v Ht Hm | m u v Ht Hv0 Hv1
                 | uri (v & Ht & Hv) Hr | uri (v & Ht & Hv) Hr].
  - destruct (tokens (c_str buf)) as [|a [|b [|c [|d l]]]]; try reflexivity.
    exfalso; apply Hc; reflexivity.
  - rewrite Ht. unfold check_and_route.
    apply strcmp0_neq in Hm. rewrite Hm. reflexivity.
  - rewrite Ht. unfold check_and_route.
    apply strcmp0_neq in Hv0, Hv1. rewrite Hv0, Hv1.
    destruct (strcmp0 m (lit "GET")); reflexivity.
  - rewrite Ht. unfold check_and_route. rewrite strcmp0_refl.
    assert (negb (strcmp0 v (lit "HTTP/1.0")) && negb (strcmp0 v (lit "HTTP/1.1"))
            = false) as ->.
    { destruct Hv as [-> | ->]; reflexivity. }
    destruct (not_rooted uri) eqn:N; [reflexivity|].
    exfalso. apply Hr, not_rooted_prefix, N.
  - rewrite Ht. unfold check_and_route. rewrite strcmp0_refl.
    assert (negb (strcmp0 v (lit "HTTP/1.0")) && negb (strcmp0 v (lit "HTTP/1.1"))
            = false) as ->.
    { destruct Hv as [-> | ->]; reflexivity. }
    destruct (not_rooted uri); [reflexivity|].
    assert (traversal uri = true) as ->; [|reflexivity].
    apply traversal_spec. destruct Hr; [right | left]; assumption.
Qed.

(* ----------------------------------------------------------------- *)
(** *** The header lines *)

Lemma skip_headers_S (fuel : nat) (w : World) :
  skip_headers (S fuel) w =
  match fgets 1000 (client_in w) with
  | None => Some (false, w)
  | Some (buf, rest) =>
      if strcmp0 crlf (c_str buf) || strcmp0 nl (c_str buf)
      then Some (true, set_client_in rest w)
      else skip_headers fuel (set_client_in rest w)
  end.
Proof. reflexivity. Qed.

(** The loop over the header lines always comes to an end. *)
Lemma skip_headers_terminates (fuel : nat) (w : World) :
  (length (client_in w) < fuel)%nat -> skip_headers fuel w <> None.
Proof.
  revert w; induction fuel as [|fuel IH]; intros w Hlen; [lia|].
  rewrite skip_headers_S.
  destruct (fgets 1000 (client_in w)) as [[buf rest]|] eqn:G; [|discriminate].
  destruct (strcmp0 crlf (c_str buf) || strcmp0 nl (c_str buf)); [discriminate|].
  apply IH. cbn. apply fgets_progress in G; lia.
Qed.

(** It only reads from the client. *)
Lemma skip_headers_frame (fuel : nat) (w : World) (found : bool) (w' : World) :
  skip_headers fuel w = Some (found, w') ->
  trace w' = trace w /\ client_ok w' = client_ok w /\
  mdb_in w' = mdb_in w /\ mdb_ok w' = mdb_ok w.
Proof.
  revert w; induction fuel as [|fuel IH]; intros w; [discriminate|].
  rewrite skip_headers_S.
  destruct (fgets 1000 (client_in w)) as [[buf rest]|].
  2:{ intros [= _ <-]. repeat split. }
  destruct (strcmp0 crlf (c_str buf) || strcmp0 nl (c_str buf)).
  - intros [= _ <-]. repeat split.
  - intros H. apply IH in H. exact H.
Qed.

Lemma skip_headers_spec (s : bytes) (r : option bytes) :
  headers s r ->
  forall (fuel : nat) (w : World),
    client_in w = s -> (length s < fuel)%nat ->
    exists w',
      skip_headers fuel w =
        Some (match r with Some _ => true | None => false end, w') /\
      client_in w' = match r with Some rest => rest | None => [] end.
Proof.
  induction 1 as [|s buf rest G B|s buf rest r G B1 B2 H IH];
    intros fuel w Hin Hlen; (destruct fuel as [|fuel]; [lia|]);
    rewrite skip_headers_S, Hin.
  - exists w. split; [reflexivity | exact Hin].
  - rewrite G.
    assert (strcmp0 crlf (c_str buf) || strcmp0 nl (c_str buf) = true) as ->.
    { destruct B as [-> | ->]; reflexivity. }
    eexists. split; reflexivity.
  - rewrite G.
    assert (strcmp0 crlf (c_str buf) || strcmp0 nl (c_str buf) = false) as ->.
    { apply orb_false_iff. split; apply strcmp0_neq; congruence. }
    apply IH; [reflexivity|]. apply fgets_progress in G; lia.
Qed.

(** The fuel [skip_all_headers] gives the loop is enough. *)
Lemma skip_all_headers_total (w : World) :
  skip_headers (S (length (client_in w))) w = Some (skip_all_headers w).
Proof.
  unfold skip_all_headers.
  destruct (skip_headers (S (length (client_in w))) w) as [r|] eqn:R;
    [reflexivity|].
  exfalso. revert R. apply skip_headers_terminates. lia.
Qed.

Lemma skip_all_headers_frame (w : World) :
  trace (snd (skip_all_headers w)) = trace w /\
  client_ok (snd (skip_all_headers w)) = client_ok w /\
  mdb_in (snd (skip_all_headers w)) = mdb_in w /\
  mdb_ok (snd (skip_all_headers w)) = mdb_ok w.
Proof.
  unfold skip_all_headers.
  destruct (skip_headers (S (length (client_in w))) w) as [[found w']|] eqn:K.
  - apply skip_headers_frame in K. exact K.
  - repeat split.
Qed.

Lemma skip_all_headers_spec (w : World) (r : option bytes) :
  headers (client_in w) r ->
  fst (skip_all_headers w) = match r with Some _ => true | None => false end /\
  client_in (snd (skip_all_headers w)) =
    match r with Some rest => rest | None => [] end.
Proof.
  intros H. unfold skip_all_headers.
  destruct (skip_headers_spec _ _ H (S (length (client_in w))) w eq_refl)
    as (w' & E & C); [lia|].
  rewrite E. split; [reflexivity | exact C].
Qed.

Lemma get_request_line_route (fs : FileSystem) (root : bytes) (w : World)
    (buf rest uri : bytes) :
  fgets 1000 (client_in w) = Some (buf, rest) ->
  get_request_line (c_str buf) uri ->
  has_prefix [SLASH] uri -> ~ traverses uri ->
  handle_request fs root w =
  match skip_all_headers (set_client_in rest w) with
  | (false, w2) => Some (400%Z, w2)
  | (true, w2) =>
      if strncmp0 uri mdbRequestURI (length mdbRequestURI)
      then Some (processMdbRequest uri w2)
      else processFileRequest fs root uri w2
  end.
Proof.
  intros G (v & Ht & Hv) Hr Hn.
  rewrite (handle_request_tokens fs root w buf rest G), Ht.
  unfold check_and_route. rewrite strcmp0_refl.
  assert (negb (strcmp0 v (lit "HTTP/1.0")) && negb (strcmp0 v (lit "HTTP/1.1"))
          = false) as ->.
  { destruct Hv as [-> | ->]; reflexivity. }
  apply not_rooted_prefix in Hr. rewrite Hr.
  destruct (traversal uri) eqn:T; [|reflexivity].
  exfalso. apply Hn. apply traversal_spec in T.
  destruct T; [right | left]; assumption.
Qed.

Lemma not_implemented_refused (line : bytes) :
  not_implemented_line line -> refused line 501.
Proof.
  intros H. destruct (tokens line) as [|m [|u [|v [|x l]]]] eqn:T;
    try (apply refused_count; rewrite T; discriminate).
  unfold not_implemented_line in H. rewrite T in H. cbn [nth length] in H.
  destruct H as [H | [H | [H0 H1]]].
  - congruence.
  - eapply refused_method; eassumption.
  - eapply refused_version; eassumption.
Qed.

(** What a refusal looks like from outside: the status response, then the
    close; the backend and the file system are left alone. *)
Lemma refused_response (fs : FileSystem) (root : bytes) (w : World)
    (buf rest : bytes) (code : Z) :
  fgets 1000 (client_in w) = Some (buf, rest) ->
  refused (c_str buf) code ->
  exists w' evs,
    serve_connection fs root w = Some (code, w') /\
    trace w' = trace w ++ evs /\
    evs = [Send ClientSocket (status_buffer code) (hd true (client_ok w)); Close] /\
    fs_accesses evs = [] /\
    written MdbSocket evs = [] /\
    mdb_in w' = mdb_in w.
Proof.
  intros G R. unfold serve_connection.
  rewrite (handle_request_refused fs root w buf rest code G R).
  destruct (reject_trace code (set_client_in rest w)) as (w1 & E & T & I & _).
  rewrite E. eexists _, _. split; [reflexivity|].
  cbn [log trace mdb_in]. rewrite T. cbn [set_client_in trace client_ok].
  rewrite <- app_assoc. repeat split. exact I.
Qed.

(** C1 (amended).  When the parser gives up a request, the status main
    notes is that of the failure and the connection is closed.  If the
    request line was read and refused for what it says (token count,
    method or version: 501; URI not beginning with a slash or path
    traversal: 400), the status response is written to the client before
    the close.  If a read failed (no request line at all, or the stream ends
    within the header lines), the status is 400 and the connection is
    closed without anything being written to the client. *)
Theorem parse_failure_response (fs : FileSystem) (root : bytes) (w : World)
    (code : Z) (answered : bool) :
  parse_failure (client_in w) code answered ->
  exists w',
    serve_connection fs root w = Some (code, w') /\
    trace w' =
      trace w
      ++ (if answered
          then [Send ClientSocket (status_buffer code) (hd true (client_ok w))]
          else [])
      ++ [Close].
Proof.
  intros H. remember (client_in w) as s eqn:Hs.
  destruct H as [|s buf rest code G R|s buf rest uri G L P N Hd].
  - unfold serve_connection, handle_request. rewrite <- Hs. cbn [fgets].
    eexists. split; reflexivity.
  - subst s.
    destruct (refused_response fs root w buf rest code G R)
      as (w' & evs & E & T & -> & _).
    exists w'. split; assumption.
  - subst s. unfold serve_connection.
    rewrite (get_request_line_route fs root w buf rest uri G L P N).
    destruct (skip_all_headers_spec (set_client_in rest w) None Hd) as [F _].
    destruct (skip_all_headers_frame (set_client_in rest w)) as (T & _).
    destruct (skip_all_headers (set_client_in rest w)) as [found w2].
    cbn [fst snd] in F, T. subst found.
    eexists. split; [reflexivity|]. cbn [log trace]. rewrite T. reflexivity.
Qed.

(** The theorem at a refused request line and at a header section that is
    cut short. *)
Lemma parse_failure_response_witness :
  (parse_failure (lit "PUT / HTTP/1.0" ++ crlf) 501 true /\
   exists w',
     serve_connection site (lit "/www") (quiet (lit "PUT / HTTP/1.0" ++ crlf) [])
       = Some (501%Z, w') /\
     trace w' = [] ++ [Send ClientSocket (status_buffer 501) true] ++ [Close]) /\
  (parse_failure (lit "GET / HTTP/1.0" ++ crlf ++ lit "Host: x" ++ crlf) 400 false /\
   exists w',
     serve_connection site (lit "/www")
       (quiet (lit "GET / HTTP/1.0" ++ crlf ++ lit "Host: x" ++ crlf) [])
       = Some (400%Z, w') /\
     trace w' = [] ++ [] ++ [Close]).
Proof.
  assert (P1 : parse_failure (lit "PUT / HTTP/1.0" ++ crlf) 501 true).
  { eapply fail_refused; [reflexivity|].
    eapply refused_method; [reflexivity | discriminate]. }
  assert (P2 : parse_failure
                 (lit "GET / HTTP/1.0" ++ crlf ++ lit "Host: x" ++ crlf) 400 false).
  { eapply fail_headers with (uri := lit "/"); [reflexivity | | | |].
    - exists (lit "HTTP/1.0"). split; [reflexivity | left; reflexivity].
    - exists []; reflexivity.
    - intros T. assert (K : traversal (lit "/") = true)
        by (apply traversal_spec; destruct T; [right | left]; assumption).
      discriminate K.
    - eapply headers_skip; [reflexivity | discriminate | discriminate|].
      apply headers_eof. }
  split; (split; [assumption|]).
  - apply (parse_failure_response site (lit "/www")
             (quiet (lit "PUT / HTTP/1.0" ++ crlf) []) 501 true P1).
  - apply (parse_failure_response site (lit "/www")
             (quiet (lit "GET / HTTP/1.0" ++ crlf ++ lit "Host: x" ++ crlf) [])
             400 false P2).
Defined.

(** C1 as stated fails: with no request line to read, and with a stream
    that ends within the header lines, the server closes the connection
    without writing the 400 response it has noted. *)
Lemma parse_failure_response_counterexample :
  (let w := quiet [] [] in
   option_map (fun r => (fst r, trace (snd r)))
     (serve_connection site (lit "/www") w) = Some (400%Z, [Close])) /\
  (let w := quiet (lit "GET / HTTP/1.0" ++ crlf ++ lit "Host: x" ++ crlf) [] in
   option_map (fun r => (fst r, trace (snd r)))
     (serve_connection site (lit "/www") w) = Some (400%Z, [Close])) /\
  written ClientSocket [Close] <> [status_buffer 400].
Proof. repeat split; try (vm_compute; reflexivity). discriminate. Qed.

(** A stream without a line feed that fits the buffer is read to its
    end. *)
Lemma fgets_aux_all (l : bytes) :
  forall room, ~ In LF l -> (length l <= room)%nat -> fgets_aux room l = (l, []).
Proof.
  induction l as [|c l IH]; intros room Hnl Hlen.
  - destruct room; reflexivity.
  - destruct room as [|room]; [simpl in Hlen; lia|].
    simpl. destruct (Ascii.eqb_spec c LF) as [->|_].
    + exfalso; apply Hnl; left; reflexivity.
    + rewrite IH; [reflexivity | intros K; apply Hnl; right; exact K
                   | simpl in Hlen; lia].
Qed.

(** The line feed that ends a line adds no token. *)
Lemma split_ws_newline (l : bytes) :
  forall cur, split_ws cur (l ++ [LF]) = split_ws cur l.
Proof.
  induction l as [|c l IH]; intros cur.
  - destruct cur; reflexivity.
  - cbn [app split_ws]. destruct (is_delim c); [destruct cur|]; rewrite ?IH;
      reflexivity.
Qed.

(** A request line the parser sees whole is what fgets delivers, and
    strtok cuts the tokens of that very line. *)
Lemma short_line_read (s line rest : bytes) :
  short_request_line s line rest ->
  exists buf,
    fgets 1000 s = Some (buf, rest) /\ tokens (c_str buf) = tokens line.
Proof.
  intros (Hnl & Hz & Hlen & [-> | (Hne & -> & ->)]).
  - exists (line ++ [LF]). split; [apply fgets_line; assumption|].
    rewrite c_str_id.
    + apply split_ws_newline.
    + rewrite in_app_iff. intros [K | [K | []]]; [exact (Hz K) | discriminate K].
  - exists line. split.
    + destruct line as [|c l]; [congruence|]. unfold fgets.
      replace (1000 - 1)%nat with 999%nat by reflexivity.
      rewrite fgets_aux_all; [reflexivity | exact Hnl | lia].
    + rewrite (c_str_id _ Hz). reflexivity.
Qed.

(** C2 (amended).  Take a request line of at most 998 bytes that holds no
    NUL byte, ended by a line feed or by the end of the stream.  If it does
    not split on whitespace (tab, space, CR, LF) into exactly three tokens,
    or its first token is not ["GET"], or its third token is neither
    ["HTTP/1.0"] nor ["HTTP/1.1"], then main notes 501, the server writes
    the 501 response to the client and closes the connection, and that is
    all it does: no stat, no fopen, nothing written to the backend and
    nothing read from it. *)
Theorem not_implemented_response (fs : FileSystem) (root : bytes) (w : World)
    (line rest : bytes) :
  short_request_line (client_in w) line rest ->
  not_implemented_line line ->
  exists w' evs,
    serve_connection fs root w = Some (501%Z, w') /\
    trace w' = trace w ++ evs /\
    evs = [Send ClientSocket (status_buffer 501) (hd true (client_ok w)); Close] /\
    fs_accesses evs = [] /\
    written MdbSocket evs = [] /\
    mdb_in w' = mdb_in w.
Proof.
  intros S H. destruct (short_line_read _ _ _ S) as (buf & G & T).
  apply (refused_response fs root w buf rest 501 G).
  apply not_implemented_refused.
  unfold not_implemented_line in *. rewrite T. exact H.
Qed.

(** The theorem at a request line of four tokens. *)
Lemma not_implemented_response_witness :
  let line := lit "GET / HTTP/1.0 now" ++ [CR] in
  short_request_line (line ++ LF :: crlf) line crlf /\
  not_implemented_line line /\
  exists w' evs,
    serve_connection site (lit "/www") (quiet (line ++ LF :: crlf) [])
      = Some (501%Z, w') /\
    trace w' = [] ++ evs /\
    evs = [Send ClientSocket (status_buffer 501) true; Close] /\
    fs_accesses evs = [] /\
    written MdbSocket evs = [] /\
    mdb_in w' = [].
Proof.
  intros line.
  assert (S : short_request_line (line ++ LF :: crlf) line crlf).
  { split; [not_in_line|]. split; [not_in_line|].
    split; [simpl; lia | left; reflexivity]. }
  assert (N : not_implemented_line line) by (left; discriminate).
  split; [exact S | split; [exact N|]].
  apply (not_implemented_response site (lit "/www")
           (quiet (line ++ LF :: crlf) []) line crlf S N).
Defined.

(** C2 as stated fails beyond what the parser sees of a line.  A request
    line of four tokens whose fourth token begins with the 1000th byte,
    and a request line whose third token is ["HTTP/1.0"] followed by a NUL
    byte and more, are not refused: fgets stores 999 bytes, strtok stops at
    the NUL, and both requests are answered 200 after a stat and an fopen. *)
Lemma not_implemented_response_counterexample :
  (let line := lit "GET /index.html HTTP/1.0" ++ repeat SP 975 ++ lit "x" ++ [CR] in
   tokens line = [lit "GET"; lit "/index.html"; lit "HTTP/1.0"; lit "x"] /\
   not_implemented_line line /\
   option_map (fun r => (fst r, trace (snd r)))
     (serve_connection site (lit "/www") (quiet (line ++ LF :: crlf) [])) =
     Some (200%Z, [Stat (lit "/www/index.html"); Fopen (lit "/www/index.html");
                   Send ClientSocket (status_buffer 200) true;
                   Send ClientSocket (lit "<h1>hi</h1>") true; Close])) /\
  (let line := lit "GET /index.html HTTP/1.0" ++ [NUL] ++ lit "X" ++ [CR] in
   tokens line = [lit "GET"; lit "/index.html"; lit "HTTP/1.0" ++ [NUL] ++ lit "X"] /\
   not_implemented_line line /\
   option_map (fun r => (fst r, trace (snd r)))
     (serve_connection site (lit "/www") (quiet (line ++ LF :: crlf) [])) =
     Some (200%Z, [Stat (lit "/www/index.html"); Fopen (lit "/www/index.html");
                   Send ClientSocket (status_buffer 200) true;
                   Send ClientSocket (lit "<h1>hi</h1>") true; Close])).
Proof.
  cbv zeta. split; (split; [vm_compute; reflexivity | split]).
  - left. intros E. vm_compute in E. discriminate E.
  - vm_compute. reflexivity.
  - right; right. split; intros E; vm_compute in E; discriminate E.
  - vm_compute. reflexivity.
Qed.

(** C3 (amended).  Take a request line of at most 998 bytes that holds no
    NUL byte, ended by a line feed or by the end of the stream, and that
    splits into exactly three tokens, the first being ["GET"] and the third
    ["HTTP/1.0"] or ["HTTP/1.1"].  If its URI contains ["/../"] or ends with
    ["/.."], then main notes 400, the server writes the 400 response to the
    client and closes the connection, and that is all it does: no stat, no
    fopen, nothing written to the backend and nothing read from it. *)
Theorem traversal_response (fs : FileSystem) (root : bytes) (w : World)
    (line rest uri : bytes) :
  short_request_line (client_in w) line rest ->
  get_request_line line uri ->
  traverses uri ->
  exists w' evs,
    serve_connection fs root w = Some (400%Z, w') /\
    trace w' = trace w ++ evs /\
    evs = [Send ClientSocket (status_buffer 400) (hd true (client_ok w)); Close] /\
    fs_accesses evs = [] /\
    written MdbSocket evs = [] /\
    mdb_in w' = mdb_in w.
Proof.
  intros S L T. destruct (short_line_read _ _ _ S) as (buf & G & E).
  apply (refused_response fs root w buf rest 400 G).
  apply (refused_traversal _ uri); [|exact T].
  unfold get_request_line in *. rewrite E. exact L.
Qed.

(** The theorem at the URI ["/docs/../../etc/passwd"]. *)
Lemma traversal_response_witness :
  let line := lit "GET /docs/../../etc/passwd HTTP/1.1" ++ [CR] in
  short_request_line (line ++ LF :: crlf) line crlf /\
  get_request_line line (lit "/docs/../../etc/passwd") /\
  traverses (lit "/docs/../../etc/passwd") /\
  exists w' evs,
    serve_connection site (lit "/www") (quiet (line ++ LF :: crlf) [])
      = Some (400%Z, w') /\
    trace w' = [] ++ evs /\
    evs = [Send ClientSocket (status_buffer 400) true; Close] /\
    fs_accesses evs = [] /\
    written MdbSocket evs = [] /\
    mdb_in w' = [].
Proof.
  intros line.
  assert (S : short_request_line (line ++ LF :: crlf) line crlf).
  { split; [not_in_line|]. split; [not_in_line|].
    split; [simpl; lia | left; reflexivity]. }
  assert (L : get_request_line line (lit "/docs/../../etc/passwd")).
  { exists (lit "HTTP/1.1"). split; [reflexivity | right; reflexivity]. }
  assert (T : traverses (lit "/docs/../../etc/passwd")).
  { left. exists (lit "/docs"), (lit "../etc/passwd"). reflexivity. }
  split; [exact S | split; [exact L | split; [exact T|]]].
  apply (traversal_response site (lit "/www") (quiet (line ++ LF :: crlf) [])
           line crlf (lit "/docs/../../etc/passwd") S L T).
Defined.

(** C3 as stated fails in two ways.  A request whose URI contains
    ["/../"] but whose method is not ["GET"] is answered 501, not 400: the
    method is checked first.  And a GET request of three tokens whose URI
    contains ["/../"] behind the 999th byte of the line, or behind a NUL
    byte, is answered 501 as well: the parser sees a line of two tokens. *)
Lemma traversal_response_counterexample :
  (let line := lit "POST /../ HTTP/1.0" ++ crlf in
   tokens (c_str line) = [lit "POST"; lit "/../"; lit "HTTP/1.0"] /\
   traverses (lit "/../") /\
   option_map (fun r => (fst r, trace (snd r)))
     (serve_connection site (lit "/www") (quiet (line ++ crlf) [])) =
     Some (501%Z, [Send ClientSocket (status_buffer 501) true; Close])) /\
  (let uri := lit "/" ++ repeat "a"%char 1000 ++ lit "/../x" in
   let line := lit "GET " ++ uri ++ lit " HTTP/1.0" ++ [CR] in
   get_request_line line uri /\
   traverses uri /\
   option_map (fun r => (fst r, trace (snd r)))
     (serve_connection site (lit "/www") (quiet (line ++ LF :: crlf) [])) =
     Some (501%Z, [Send ClientSocket (status_buffer 501) true; Close])) /\
  (let uri := lit "/a" ++ [NUL] ++ lit "/../x" in
   let line := lit "GET " ++ uri ++ lit " HTTP/1.0" ++ [CR] in
   get_request_line line uri /\
   traverses uri /\
   option_map (fun r => (fst r, trace (snd r)))
     (serve_connection site (lit "/www") (quiet (line ++ LF :: crlf) [])) =
     Some (501%Z, [Send ClientSocket (status_buffer 501) true; Close])) /\
  status_buffer 501 <> status_buffer 400.
Proof.
  cbv zeta. split; [|split; [|split]].
  - split; [reflexivity | split].
    + left. exists [], []. reflexivity.
    + vm_compute. reflexivity.
  - split; [|split].
    + exists (lit "HTTP/1.0"). split; [vm_compute; reflexivity | left; reflexivity].
    + left. exists (lit "/" ++ repeat "a"%char 1000), (lit "x").
      vm_compute. reflexivity.
    + vm_compute. reflexivity.
  - split; [|split].
    + exists (lit "HTTP/1.0"). split; [reflexivity | left; reflexivity].
    + left. exists (lit "/a" ++ [NUL]), (lit "x"). reflexivity.
    + vm_compute. reflexivity.
  - vm_compute. discriminate.
Qed.

(* ----------------------------------------------------------------- *)
(** *** Routing, and the absence of undefined behaviour *)

(** main hands no URI to a handler unless it begins with a slash. *)
Lemma unrooted_never_routed (fs : FileSystem) (root m uri v : bytes) (w : World) :
  not_rooted uri = true ->
  exists code, check_and_route fs root m uri v w = reject code w.
Proof.
  intros N. unfold check_and_route. rewrite N.
  destruct (negb (strcmp0 m (lit "GET"))); [eexists; reflexivity|].
  destruct (negb (strcmp0 v (lit "HTTP/1.0")) && negb (strcmp0 v (lit "HTTP/1.1")));
    eexists; reflexivity.
Qed.

(** Every URI that begins with ["/mdb-lookup"] and comes through the parser
    goes to processMdbRequest; every other one to processFileRequest. *)
Lemma routed_by_prefix (fs : FileSystem) (root : bytes) (w : World)
    (buf rest rest' uri : bytes) :
  fgets 1000 (client_in w) = Some (buf, rest) ->
  get_request_line (c_str buf) uri ->
  has_prefix [SLASH] uri -> ~ traverses uri ->
  headers rest (Some rest') ->
  exists w2,
    client_in w2 = rest' /\ trace w2 = trace w /\
    client_ok w2 = client_ok w /\ mdb_in w2 = mdb_in w /\ mdb_ok w2 = mdb_ok w /\
    (has_prefix mdbRequestURI uri ->
     handle_request fs root w = Some (processMdbRequest uri w2)) /\
    (~ has_prefix mdbRequestURI uri ->
     handle_request fs root w = processFileRequest fs root uri w2).
Proof.
  intros G L P N H.
  rewrite (get_request_line_route fs root w buf rest uri G L P N).
  destruct (skip_all_headers_spec (set_client_in rest w) (Some rest') H) as [F C].
  destruct (skip_all_headers_frame (set_client_in rest w)) as (T & O & I & M).
  destruct (skip_all_headers (set_client_in rest w)) as [found w2].
  cbn [fst snd] in *. subst found.
  exists w2. repeat split; try assumption.
  - intros K. apply strncmp0_prefix in K. rewrite K. reflexivity.
  - intros K. apply strncmp0_not_prefix in K. rewrite K. reflexivity.
Qed.

Lemma processFileRequest_defined (fs : FileSystem) (webRoot uri : bytes)
    (w : World) :
  uri <> [] -> processFileRequest fs webRoot uri w <> None.
Proof.
  intros Hne. unfold processFileRequest.
  rewrite (file_path_resolved webRoot uri Hne). cbv zeta.
  destruct (stat_isdir fs _); [discriminate|].
  destruct (fopen_rb fs _); discriminate.
Qed.

(** No connection drives the server into the undefined read of
    processFileRequest: every turn of the accept loop has a result. *)
Lemma serve_connection_defined (fs : FileSystem) (root : bytes) (w : World) :
  serve_connection fs root w <> None.
Proof.
  unfold serve_connection.
  assert (H : handle_request fs root w <> None);
    [|destruct (handle_request fs root w) as [[code w']|]; congruence].
  destruct (fgets 1000 (client_in w)) as [[buf rest]|] eqn:G.
  2:{ unfold handle_request. rewrite G. discriminate. }
  rewrite (handle_request_tokens fs root w buf rest G).
  destruct (tokens (c_str buf)) as [|m [|u [|v [|x l]]]]; try discriminate.
  unfold check_and_route.
  destruct (negb (strcmp0 m (lit "GET"))); [discriminate|].
  destruct (negb (strcmp0 v (lit "HTTP/1.0")) && negb (strcmp0 v (lit "HTTP/1.1")));
    [discriminate|].
  destruct (not_rooted u) eqn:N; [discriminate|].
  destruct (traversal u); [discriminate|].
  destruct (skip_all_headers (set_client_in rest w)) as [[|] w2]; [|discriminate].
  destruct (strncmp0 u mdbRequestURI (length mdbRequestURI)); [discriminate|].
  apply processFileRequest_defined.
  destruct u; [discriminate N | discriminate].
Qed.

(** Outside what main passes: with an empty URI the slash test looks at the
    end of the web root. *)
Remark file_path_empty_uri :
  file_path (lit "/www/") [] = Some (lit "/www/index.html") /\
  file_path [] [] = None.
Proof. split; reflexivity. Qed.

(** The bare URI ["/mdb-lookup"]: status response, form, page end. *)
Example bare_lookup_page :
  processMdbRequest mdbRequestURI (quiet [] (lit "unread")) =
  (200%Z, mkWorld [] (lit "unread") [] []
            (client_writes [status_buffer 200; form; pageEnd])).
Proof. vm_compute. reflexivity. Qed.

(** Two runs of the lookup handler that are cut short and still return
    200: the backend closes its stream after one line; the client is gone
    after the status response. *)
Example lookup_cut_short :
  (let r := processMdbRequest (keyURI ++ lit "k")
              (quiet [] (lit "alice,555-1234" ++ nl)) in
   fst r = 200%Z /\
   written ClientSocket (trace (snd r)) =
     [status_buffer 200; form; tableStart; rowPlain; lit "alice,555-1234" ++ nl]) /\
  (let r := processMdbRequest (keyURI ++ lit "k")
              (flaky [] (reply three_lines) [true; false]) in
   fst r = 200%Z /\
   trace (snd r) = [Send ClientSocket (status_buffer 200) true;
                    Send ClientSocket form false]).
Proof. repeat split; vm_compute; reflexivity. Qed.

(* ----------------------------------------------------------------- *)
(** *** The parser decides every stream *)

(** A request line is refused or it is a GET request line with a rooted
    URI free of traversal. *)
Lemma refused_or_accepted (line : bytes) :
  (exists code, refused line code) \/
  (exists uri, get_request_line line uri /\ has_prefix [SLASH] uri /\
               ~ traverses uri).
Proof.
  destruct (tokens line) as [|m [|u [|v [|x l]]]] eqn:T;
    try (left; exists 501%Z; apply refused_count; rewrite T; discriminate).
  destruct (strcmp0 m (lit "GET")) eqn:Hm.
  2:{ left. exists 501%Z. eapply refused_method; [exact T|].
      apply strcmp0_neq, Hm. }
  apply strcmp0_eq in Hm. subst m.
  destruct (strcmp0 v (lit "HTTP/1.0")) eqn:H0, (strcmp0 v (lit "HTTP/1.1")) eqn:H1;
    try (assert (L : get_request_line line u)
           by (exists v; split; [exact T|];
               first [left; apply strcmp0_eq; assumption
                     |right; apply strcmp0_eq; assumption])).
  4:{ left. exists 501%Z. eapply refused_version; [exact T| |];
        apply strcmp0_neq; assumption. }
  all: destruct (not_rooted u) eqn:N;
    [left; exists 400%Z; apply (refused_root line u L);
     intros K; apply not_rooted_prefix in K; congruence|].
  all: destruct (traversal u) eqn:V;
    [left; exists 400%Z; apply (refused_traversal line u L);
     apply traversal_spec in V; destruct V; [right | left]; assumption|].
  all: right; exists u; split; [exact L|]; split;
    [apply not_rooted_prefix, N|].
  all: intros K; assert (traversal u = true)
         by (apply traversal_spec; destruct K; [right | left]; assumption);
       congruence.
Qed.

(** Reading header lines from a stream has an outcome. *)
Lemma headers_total (s : bytes) : exists r, headers s r.
Proof.
  remember (length s) as n eqn:Hn. revert s Hn.
  induction n as [n IH] using lt_wf_ind. intros s Hn.
  destruct (fgets 1000 s) as [[buf rest]|] eqn:G.
  2:{ destruct s; [exists None; constructor | discriminate G]. }
  destruct (strcmp0 crlf (c_str buf)) eqn:B1.
  { exists (Some rest). eapply headers_blank; [exact G|].
    left. symmetry. apply strcmp0_eq, B1. }
  destruct (strcmp0 nl (c_str buf)) eqn:B2.
  { exists (Some rest). eapply headers_blank; [exact G|].
    right. symmetry. apply strcmp0_eq, B2. }
  destruct (IH (length rest)) with (s := rest) as [r Hr];
    [apply fgets_progress in G; lia | reflexivity|].
  exists r. eapply headers_skip; [exact G | | | exact Hr].
  - apply strcmp0_neq in B1. congruence.
  - apply strcmp0_neq in B2. congruence.
Qed.

(** Every client stream is given up by the parser or brings a request to a
    handler. *)
Lemma parse_outcome (s : bytes) :
  (exists code answered, parse_failure s code answered) \/
  (exists buf rest uri rest',
     fgets 1000 s = Some (buf, rest) /\
     get_request_line (c_str buf) uri /\
     has_prefix [SLASH] uri /\ ~ traverses uri /\
     headers rest (Some rest')).
Proof.
  destruct (fgets 1000 s) as [[buf rest]|] eqn:G.
  2:{ left. exists 400%Z, false.
      destruct s; [constructor | discriminate G]. }
  destruct (refused_or_accepted (c_str buf)) as [[code R] | (uri & L & P & N)].
  { left. exists code, true. eapply fail_refused; eassumption. }
  destruct (headers_total rest) as [[rest'|] H].
  - right. exists buf, rest, uri, rest'. repeat split; assumption.
  - left. exists 400%Z, false. eapply fail_headers; eassumption.
Qed.

(* ================================================================= *)
(** ** Further properties of the status table and the status response *)

(** X1.  getStatusMessage is a lookup in a table without repeated codes:
    for a code the table lists it returns the phrase listed with it, and for
    every other code, zero and the negative ones included, it returns
    ["Unknown Status Code"].  The end marker of the table is never taken
    for an entry. *)
Theorem getStatusMessage_lookup (statusCode : Z) :
  NoDup (map fst HttpStatusCodes) /\
  ((exists message,
      In (statusCode, message) HttpStatusCodes /\ (0 < statusCode)%Z /\
      getStatusMessage statusCode = message) \/
   ((forall message,
       In (statusCode, message) HttpStatusCodes -> statusCode = 0%Z) /\
    getStatusMessage statusCode = lit "Unknown Status Code")).
Proof.
  split.
  { unfold HttpStatusCodes. cbn [map fst].
    repeat (constructor;
            [let H := fresh in
             intros H; cbn [In] in H;
             repeat (destruct H as [H|H]; [discriminate H|]); exact H|]).
    constructor. }
  unfold getStatusMessage, HttpStatusCodes. cbn [status_scan Z.gtb Z.compare].
  repeat match goal with
         | |- context [(?c =? statusCode)%Z] =>
             destruct (Z.eqb_spec c statusCode) as [<-|?];
               [left; eexists; split; [cbn [In]; tauto | split; [lia | reflexivity]]|]
         end.
  right. split; [|reflexivity].
  intros message H. cbn [In] in H.
  repeat (destruct H as [H|H]; [injection H as H _; congruence|]).
  contradiction.
Qed.

(* ----------------------------------------------------------------- *)
(** *** The two 1000-byte arrays of sendHttpStatus *)

Lemma nb_digits_double (d : Decimal.uint) :
  (Decimal.nb_digits (Decimal.Little.double d) <= S (Decimal.nb_digits d))%nat /\
  (Decimal.nb_digits (Decimal.Little.succ_double d) <= S (Decimal.nb_digits d))%nat.
Proof.
  induction d as [|d [IH1 IH2]|d [IH1 IH2]|d [IH1 IH2]|d [IH1 IH2]|d [IH1 IH2]
                  |d [IH1 IH2]|d [IH1 IH2]|d [IH1 IH2]|d [IH1 IH2]|d [IH1 IH2]];
    cbn [Decimal.Little.double Decimal.Little.succ_double Decimal.nb_digits];
    split; lia.
Qed.

Lemma nb_digits_to_little_uint (p : positive) :
  (Decimal.nb_digits (Pos.to_little_uint p) <= Pos.size_nat p)%nat.
Proof.
  induction p as [p IH|p IH|]; cbn [Pos.to_little_uint Pos.size_nat].
  - pose proof (proj2 (nb_digits_double (Pos.to_little_uint p))). lia.
  - pose proof (proj1 (nb_digits_double (Pos.to_little_uint p))). lia.
  - cbn. lia.
Qed.

Lemma size_nat_bound (p : positive) : forall k : nat,
  (Zpos p < 2 ^ Z.of_nat k)%Z -> (Pos.size_nat p <= k)%nat.
Proof.
  induction p as [p IH|p IH|]; intros [|k] H; cbn [Pos.size_nat];
    try (change (2 ^ Z.of_nat 0)%Z with 1%Z in H; lia).
  - apply le_n_S, IH. rewrite Nat2Z.inj_succ, Z.pow_succ_r in H by lia. lia.
  - apply le_n_S, IH. rewrite Nat2Z.inj_succ, Z.pow_succ_r in H by lia. lia.
Qed.

Lemma length_string_of_uint (d : Decimal.uint) :
  length (lit (NilEmpty.string_of_uint d)) = Decimal.nb_digits d.
Proof.
  induction d; cbn [NilEmpty.string_of_uint lit list_ascii_of_string
                    length Decimal.nb_digits];
    try reflexivity; f_equal; exact IHd.
Qed.

(** [%d] prints a 32-bit [int] in 33 characters at most (a rough bound:
    one per binary digit, and the sign). *)
Lemma sprintf_d_length (n : Z) :
  (INT_MIN <= n <= INT_MAX)%Z -> (length (sprintf_d n) <= 33)%nat.
Proof.
  intros [Hlo Hhi]. unfold sprintf_d.
  assert (B : forall p, (Zpos p <= 2147483648)%Z ->
              (length (lit (NilZero.string_of_uint (Pos.to_uint p))) <= 32)%nat).
  { intros p Hp.
    assert (S : (Pos.size_nat p <= 32)%nat).
    { apply size_nat_bound.
      change (2 ^ Z.of_nat 32)%Z with 4294967296%Z. lia. }
    pose proof (nb_digits_to_little_uint p) as D.
    unfold Pos.to_uint. rewrite <- DecimalFacts.nb_digits_rev in D.
    unfold NilZero.string_of_uint.
    destruct (Decimal.rev (Pos.to_little_uint p)) eqn:E;
      [cbn; lia | rewrite length_string_of_uint; lia ..]. }
  unfold INT_MIN, INT_MAX in *.
  destruct n as [|p|p]; cbn [Z.to_int NilZero.string_of_int].
  - cbn. lia.
  - specialize (B p). lia.
  - specialize (B p).
    change (lit (String "-" ?s)) with ("-"%char :: lit s).
    cbn [lit list_ascii_of_string length].
    assert (length (lit (NilZero.string_of_uint (Pos.to_uint p))) <= 32)%nat
      by (apply B; lia).
    unfold lit in *. lia.
Qed.

Lemma getStatusMessage_length (statusCode : Z) :
  (length (getStatusMessage statusCode) <= 21)%nat.
Proof.
  destruct (status_scan_listed HttpStatusCodes statusCode) as [H | H].
  - fold (getStatusMessage statusCode) in H.
    assert (F : Forall (fun e => (length (snd e) <= 21)%nat) HttpStatusCodes).
    { repeat constructor; apply Nat.leb_le; vm_compute; reflexivity. }
    rewrite Forall_forall in F. apply (F _ H).
  - unfold getStatusMessage. rewrite H. apply Nat.leb_le. vm_compute. reflexivity.
Qed.

(** X2.  For every status code an [int] can hold, what sendHttpStatus puts
    together with sprintf and strcat stays inside its arrays: the response,
    body included, has fewer than 1000 bytes (161 at most), so
    [buffer[1000]] and [body[1000]] never overflow. *)
Theorem status_buffer_bound (statusCode : Z) :
  (INT_MIN <= statusCode <= INT_MAX)%Z ->
  (length (status_buffer statusCode) <= 161)%nat /\
  (length (status_buffer statusCode) < 1000)%nat.
Proof.
  intros R. pose proof (sprintf_d_length statusCode R) as D.
  pose proof (getStatusMessage_length statusCode) as M.
  assert (L : (length (status_buffer statusCode) <= 161)%nat); [|split; lia].
  unfold status_buffer, strcat.
  destruct (negb (statusCode =? 200)%Z);
    repeat rewrite length_app; cbn [lit list_ascii_of_string length nl crlf]; lia.
Qed.

(** The theorem at the smallest [int]. *)
Lemma status_buffer_bound_witness :
  (INT_MIN <= INT_MIN <= INT_MAX)%Z /\
  (length (status_buffer INT_MIN) <= 161)%nat /\
  (length (status_buffer INT_MIN) < 1000)%nat.
Proof.
  assert (R : (INT_MIN <= INT_MIN <= INT_MAX)%Z) by (unfold INT_MIN, INT_MAX; lia).
  split; [exact R | apply (status_buffer_bound INT_MIN R)].
Defined.

(* ================================================================= *)
(** ** After a failed write *)

Lemma all_sent_stops (evs : list event) :
  all_sent evs -> stops_at_failure evs.
Proof.
  induction 1 as [|e evs He F IH]; [exact I|].
  destruct e as [s b [|]| | |]; simpl; try exact IH. discriminate He.
Qed.

Lemma stops_app (e1 e2 : list event) :
  all_sent e1 -> stops_at_failure e2 -> stops_at_failure (e1 ++ e2).
Proof.
  induction 1 as [|e evs He F IH]; intros H2; [exact H2|].
  destruct e as [s b [|]| | |]; simpl; try (apply IH; exact H2).
  discriminate He.
Qed.

Lemma careful_transmit (s : sock) (b : bytes) :
  careful (transmit_or_cleanup s b).
Proof.
  intros w. rewrite transmit_or_cleanup_send.
  exists [Send s b (fst (send s b w))]. cbn [fst snd].
  split; [destruct s; reflexivity|].
  split; [repeat constructor|].
  destruct (fst (send s b w)); [repeat constructor | reflexivity].
Qed.

Lemma careful_ret : careful (ret tt).
Proof.
  intros w. exists []. cbn. rewrite app_nil_r.
  split; [reflexivity | split; constructor].
Qed.

Lemma careful_bind (m k : M unit) :
  careful m -> careful k -> careful (m ;; k).
Proof.
  intros Hm Hk w. rewrite bind_eq.
  destruct (Hm w) as (e1 & T1 & S1 & O1).
  destruct (m w) as [[[]|] w1]; cbn [fst snd] in *.
  - destruct (Hk w1) as (e2 & T2 & S2 & O2).
    exists (e1 ++ e2). rewrite T2, T1, app_assoc.
    split; [reflexivity|]. split; [apply Forall_app; split; assumption|].
    destruct (fst (k w1)).
    + apply Forall_app; split; assumption.
    + apply stops_app; assumption.
  - exists e1. repeat split; assumption.
Qed.

Lemma read_rows_careful (fuel : nat) :
  forall (rowIndex : Z) (w : World) r (w' : World),
    read_rows fuel rowIndex w = Some (r, w') ->
    exists evs,
      trace w' = trace w ++ evs /\
      Forall is_send evs /\
      match r with
      | Some _ => all_sent evs
      | None => stops_at_failure evs
      end.
Proof.
  induction fuel as [|fuel IH]; intros i w r w'; [discriminate|].
  rewrite read_rows_S.
  destruct (fgets 1000 (mdb_in w)) as [[buf rest]|].
  2:{ intros [= <- <-]. exists []. rewrite app_nil_r.
      split; [reflexivity | split; constructor]. }
  destruct (strcmp0 nl (c_str buf)).
  { intros [= <- <-]. exists []. cbn. rewrite app_nil_r.
    split; [reflexivity | split; constructor]. }
  assert (C : careful (transmit_or_cleanup ClientSocket (tableRow i) ;;
                       transmit_or_cleanup ClientSocket (c_str buf)))
    by (apply careful_bind; apply careful_transmit).
  destruct (C (set_mdb_in rest w)) as (e1 & T1 & S1 & O1).
  destruct ((transmit_or_cleanup ClientSocket (tableRow i) ;;
             transmit_or_cleanup ClientSocket (c_str buf)) (set_mdb_in rest w))
    as [[[]|] w2]; cbn [fst snd set_mdb_in trace] in *.
  - intros H. apply IH in H. destruct H as (e2 & T2 & S2 & O2).
    exists (e1 ++ e2). rewrite T2, T1, app_assoc.
    split; [reflexivity|]. split; [apply Forall_app; split; assumption|].
    destruct r.
    + apply Forall_app; split; assumption.
    + apply stops_app; assumption.
  - intros [= <- <-]. exists e1. repeat split; assumption.
Qed.

Lemma careful_read_all_rows : careful read_all_rows.
Proof.
  intros w. pose proof (read_all_rows_total w) as T.
  destruct (read_all_rows w) as [r w'] eqn:E.
  apply read_rows_careful in T. exact T.
Qed.

Lemma careful_lookup (requestURI : bytes) : careful (lookup requestURI).
Proof.
  unfold lookup. destruct (strncmp0 requestURI keyURI (length keyURI));
    [|apply careful_ret].
  cbv zeta.
  repeat (apply careful_bind;
          [first [apply careful_transmit | apply careful_read_all_rows]|]).
  apply careful_transmit.
Qed.

(** X3.  Once the status response is out (its result is not looked at),
    the lookup handler does nothing but write to its two sockets, and the
    first write that fails is the last: no further byte goes to the client
    or to the backend. *)
Theorem processMdbRequest_stops_at_failure (requestURI : bytes) (w : World) :
  exists rest,
    trace (snd (processMdbRequest requestURI w)) =
      trace w ++ Send ClientSocket (status_buffer 200) (hd true (client_ok w))
              :: rest /\
    Forall is_send rest /\
    stops_at_failure rest.
Proof.
  unfold processMdbRequest, mdb_page. cbn [snd].
  rewrite bind_eq. unfold perform at 1.
  assert (C : careful (transmit_or_cleanup ClientSocket form ;;
                       lookup requestURI ;;
                       transmit_or_cleanup ClientSocket pageEnd)).
  { apply careful_bind; [apply careful_transmit|].
    apply careful_bind; [apply careful_lookup | apply careful_transmit]. }
  destruct (C (sendHttpStatus 200 w)) as (evs & T & S & O).
  exists evs. rewrite T, sendHttpStatus_trace, <- app_assoc.
  split; [reflexivity | split; [exact S|]].
  destruct (fst _); [apply all_sent_stops|]; exact O.
Qed.

Lemma fread_nothing (unread : bytes) :
  (0 <? length (firstn BUFFER_SIZE unread))%nat = false -> unread = [].
Proof.
  intros H. destruct unread as [|c d]; [reflexivity|].
  destruct (fread_progress (c :: d)) as [K _]; [discriminate | congruence].
Qed.

(** The copy loop under any behaviour of the client socket. *)
Lemma send_file_careful (fuel : nat) :
  forall (unread : bytes) (w w' : World),
    send_file fuel unread w = Some w' ->
    exists evs,
      trace w' = trace w ++ evs /\
      Forall is_client_send evs /\
      stops_at_failure evs /\
      has_prefix (concat (written ClientSocket evs)) unread /\
      (all_sent evs -> concat (written ClientSocket evs) = unread) /\
      mdb_in w' = mdb_in w /\ mdb_ok w' = mdb_ok w.
Proof.
  induction fuel as [|fuel IH]; intros unread w w'; [discriminate|].
  rewrite send_file_S. cbv zeta.
  destruct (0 <? length (firstn BUFFER_SIZE unread))%nat eqn:R.
  2:{ intros [= <-]. apply fread_nothing in R. subst unread.
      exists []. rewrite app_nil_r. cbn.
      repeat split; try constructor. exists []; reflexivity. }
  cbn [send].
  destruct (hd true (client_ok w)) eqn:O.
  - intros H. apply IH in H. destruct H as (evs & T & C & S & P & A & Hi & Hm).
    exists (Send ClientSocket (firstn BUFFER_SIZE unread) true :: evs).
    cbn [trace mdb_in mdb_ok] in T, Hi, Hm.
    split; [rewrite T, <- app_assoc; reflexivity|].
    split; [constructor; [exact I | exact C]|].
    split; [exact S|]. cbn [written concat].
    split; [|split; [|split; assumption]].
    + destruct P as [t P]. exists t.
      rewrite <- app_assoc, <- P. symmetry; apply firstn_skipn.
    + intros F. inversion F as [|? ? _ F']; subst.
      rewrite (A F'). apply firstn_skipn.
  - intros [= <-].
    exists [Send ClientSocket (firstn BUFFER_SIZE unread) false].
    cbn [trace mdb_in mdb_ok written concat]. rewrite app_nil_r.
    split; [reflexivity|]. split; [repeat constructor|].
    split; [reflexivity|]. split; [|split; [|split; reflexivity]].
    + exists (skipn BUFFER_SIZE unread). symmetry; apply firstn_skipn.
    + intros F. inversion F as [|? ? K _]. discriminate K.
Qed.

(** X4.  Whatever the client socket does and wherever reading the file
    fails, once the file handler has opened a file it writes the 200
    response and then hands the file to send in order, chunk by chunk: the
    bytes handed over are a prefix of the contents of the file, the first
    write that fails is the last, and when no write fails they are all the
    bytes that could be read. *)
Theorem processFileRequest_transfer (fs : FileSystem)
    (webRoot uri path : bytes) (f : file) (w : World) :
  file_path webRoot uri = Some path ->
  stat_isdir fs path = false ->
  fopen_rb fs path = Some f ->
  exists w' sends,
    processFileRequest fs webRoot uri w = Some (200%Z, w') /\
    trace w' = trace w ++ [Stat path; Fopen path]
                 ++ Send ClientSocket (status_buffer 200) (hd true (client_ok w))
                 :: sends /\
    Forall is_client_send sends /\
    stops_at_failure sends /\
    has_prefix (concat (written ClientSocket sends)) (contents f) /\
    (all_sent sends ->
     concat (written ClientSocket sends) = firstn (readable f) (contents f)).
Proof.
  intros P D O. unfold processFileRequest. rewrite P. cbv zeta. rewrite D, O.
  pose proof (send_whole_file_total f
                (sendHttpStatus 200 (log (Fopen path) (log (Stat path) w)))) as T.
  cbv zeta in T. apply send_file_careful in T.
  destruct T as (evs & T & C & S & Pre & A & _).
  eexists _, evs. split; [reflexivity|].
  split; [|split; [exact C | split; [exact S | split; [|exact A]]]].
  - rewrite T, sendHttpStatus_trace. cbn [log trace client_ok].
    rewrite <- !app_assoc. reflexivity.
  - destruct Pre as [t Pre]. exists (t ++ skipn (readable f) (contents f)).
    rewrite app_assoc, <- Pre. symmetry; apply firstn_skipn.
Qed.

(** The theorem at a file of 5000 bytes and a client that takes the status
    response and the first chunk only. *)
Lemma processFileRequest_transfer_witness :
  let fs := one_file (lit "/www/big.bin") (blob 5000) in
  let w := flaky [] [] [true; true; false] in
  exists w' sends,
    processFileRequest fs (lit "/www") (lit "/big.bin") w = Some (200%Z, w') /\
    trace w' = [] ++ [Stat (lit "/www/big.bin"); Fopen (lit "/www/big.bin")]
                 ++ Send ClientSocket (status_buffer 200) true :: sends /\
    Forall is_client_send sends /\
    stops_at_failure sends /\
    has_prefix (concat (written ClientSocket sends)) (blob 5000) /\
    (all_sent sends ->
     concat (written ClientSocket sends) = firstn (length (blob 5000)) (blob 5000)).
Proof.
  intros fs w.
  apply (processFileRequest_transfer fs (lit "/www") (lit "/big.bin")
           (lit "/www/big.bin") (mkFile (blob 5000) (length (blob 5000))) w).
  - reflexivity.
  - reflexivity.
  - vm_compute. reflexivity.
Defined.

(* ================================================================= *)
(** ** Whole connections *)

(** The tokens strtok cuts are not empty and hold no delimiter; their bytes
    are bytes of the line. *)
Lemma split_ws_tokens (s : bytes) :
  forall cur : bytes,
    Forall (fun c => is_delim c = false) cur ->
    Forall (fun t => t <> [] /\
                     forall c, In c t ->
                               is_delim c = false /\ (In c cur \/ In c s))
           (split_ws cur s).
Proof.
  induction s as [|x r IH]; intros cur Hcur; simpl.
  - destruct cur as [|y cur]; constructor; [|constructor].
    split.
    + intros E. apply (f_equal (@length ascii)) in E.
      rewrite length_rev in E. discriminate E.
    + intros c Hc. apply in_rev in Hc. rewrite Forall_forall in Hcur.
      split; [apply Hcur, Hc | left; exact Hc].
  - destruct (is_delim x) eqn:D.
    + assert (W : Forall (fun t => t <> [] /\
                            forall c, In c t ->
                              is_delim c = false /\ (In c cur \/ In c (x :: r)))
                         (split_ws [] r)).
      { eapply Forall_impl; [|apply (IH []); constructor].
        intros t [Hne Ht]. split; [exact Hne|].
        intros c Hc. destruct (Ht c Hc) as [Hd [[]|Hr]].
        split; [exact Hd | right; right; exact Hr]. }
      destruct cur as [|y cur]; [exact W|].
      constructor; [|exact W]. split.
      * intros E. apply (f_equal (@length ascii)) in E.
        rewrite length_rev in E. discriminate E.
      * intros c Hc. apply in_rev in Hc. rewrite Forall_forall in Hcur.
        split; [apply Hcur, Hc | left; exact Hc].
    + eapply Forall_impl; [|apply (IH (x :: cur)); constructor; assumption].
      intros t [Hne Ht]. split; [exact Hne|].
      intros c Hc. destruct (Ht c Hc) as [Hd [[E|Hr]|Hr]].
      * split; [exact Hd | right; left; exact E].
      * split; [exact Hd | left; exact Hr].
      * split; [exact Hd | right; right; exact Hr].
Qed.

Lemma tokens_plain (buf t : bytes) :
  In t (tokens (c_str buf)) -> t <> [] /\ plain t.
Proof.
  intros H. pose proof (split_ws_tokens (c_str buf) [] (Forall_nil _)) as F.
  rewrite Forall_forall in F. destruct (F t H) as [Hne Ht].
  split; [exact Hne|]. apply Forall_forall. intros c Hc.
  destruct (Ht c Hc) as [Hd [[]|Hin]]. split; [exact Hd|].
  intros E. subst c. exact (c_str_no_nul buf Hin).
Qed.

Lemma get_request_line_plain (buf uri : bytes) :
  get_request_line (c_str buf) uri -> plain uri.
Proof.
  intros (v & Ht & _). apply (tokens_plain buf uri).
  rewrite Ht. right; left; reflexivity.
Qed.

Lemma refused_codes (line : bytes) (code : Z) :
  refused line code -> code = 400%Z \/ code = 501%Z.
Proof. destruct 1; auto. Qed.

(** The three ways a connection goes: a read fails, the request line is
    refused, or a routable URI reaches one of the two handlers. *)
Lemma serve_connection_cases (fs : FileSystem) (root : bytes) (w : World) :
  (exists w',
     serve_connection fs root w = Some (400%Z, w') /\
     trace w' = trace w ++ [Close] /\
     mdb_in w' = mdb_in w /\ mdb_ok w' = mdb_ok w) \/
  (exists code w',
     (code = 400%Z \/ code = 501%Z) /\
     serve_connection fs root w = Some (code, w') /\
     trace w' = trace w ++ [Send ClientSocket (status_buffer code)
                              (hd true (client_ok w)); Close] /\
     mdb_in w' = mdb_in w /\ mdb_ok w' = mdb_ok w) \/
  (exists buf rest uri w2,
     fgets 1000 (client_in w) = Some (buf, rest) /\
     get_request_line (c_str buf) uri /\
     routable uri /\
     trace w2 = trace w /\ client_ok w2 = client_ok w /\
     mdb_in w2 = mdb_in w /\ mdb_ok w2 = mdb_ok w /\
     ((has_prefix mdbRequestURI uri /\
       serve_connection fs root w =
         Some (fst (processMdbRequest uri w2),
               log Close (snd (processMdbRequest uri w2)))) \/
      (~ has_prefix mdbRequestURI uri /\
       exists code w3,
         processFileRequest fs root uri w2 = Some (code, w3) /\
         serve_connection fs root w = Some (code, log Close w3)))).
Proof.
  destruct (parse_outcome (client_in w))
    as [(code & answered & F) | (buf & rest & uri & rest' & G & L & P & N & H)].
  - remember (client_in w) as s eqn:Hs.
    destruct F as [|s buf rest code G R|s buf rest uri G L P N Hd].
    + left. unfold serve_connection, handle_request. rewrite <- Hs. cbn [fgets].
      eexists. repeat split.
    + right; left. subst s.
      destruct (refused_response fs root w buf rest code G R)
        as (w' & evs & E & T & -> & _ & _ & Hi).
      exists code, w'. split; [exact (refused_codes _ _ R)|].
      split; [exact E | split; [exact T | split; [exact Hi|]]].
      unfold serve_connection in E.
      rewrite (handle_request_refused fs root w buf rest code G R) in E.
      destruct (reject_trace code (set_client_in rest w)) as (w1 & E1 & _ & _ & M).
      rewrite E1 in E. injection E as <-. exact M.
    + left. subst s. unfold serve_connection.
      rewrite (get_request_line_route fs root w buf rest uri G L P N).
      destruct (skip_all_headers_spec (set_client_in rest w) None Hd) as [F _].
      destruct (skip_all_headers_frame (set_client_in rest w)) as (T & _ & Hi & Hm).
      destruct (skip_all_headers (set_client_in rest w)) as [found w2].
      cbn [fst snd] in *. subst found.
      eexists. split; [reflexivity|]. cbn [log trace mdb_in mdb_ok].
      rewrite T. repeat split; assumption.
  - right; right.
    destruct (routed_by_prefix fs root w buf rest rest' uri G L P N H)
      as (w2 & _ & T & O & Hi & Hm & Rm & Rf).
    exists buf, rest, uri, w2.
    split; [exact G | split; [exact L|]].
    split; [split; [exact P | split; [exact N | exact (get_request_line_plain _ _ L)]]|].
    split; [exact T | split; [exact O | split; [exact Hi | split; [exact Hm|]]]].
    destruct (strncmp0 uri mdbRequestURI (length mdbRequestURI)) eqn:K.
    + left. apply strncmp0_prefix in K. split; [exact K|].
      unfold serve_connection. rewrite (Rm K).
      destruct (processMdbRequest uri w2); reflexivity.
    + right. apply strncmp0_not_prefix in K. split; [exact K|].
      unfold serve_connection. rewrite (Rf K).
      destruct (processFileRequest fs root uri w2) as [[code w3]|] eqn:E.
      * exists code, w3. split; reflexivity.
      * exfalso. revert E. apply processFileRequest_defined.
        destruct P as [t ->]. discriminate.
Qed.

Lemma closes_app (e1 e2 : list event) :
  closes (e1 ++ e2) = (closes e1 + closes e2)%nat.
Proof.
  induction e1 as [|[s b ok| | |] e1 IH]; simpl; try exact IH; [reflexivity|].
  rewrite IH. reflexivity.
Qed.

Lemma sends_no_close (evs : list event) :
  Forall is_send evs -> closes evs = 0%nat /\ fs_accesses evs = [].
Proof.
  induction 1 as [|e evs He F IH]; [split; reflexivity|].
  destruct e; simpl in He; try contradiction. exact IH.
Qed.

Lemma client_sends_are_sends (evs : list event) :
  Forall is_client_send evs -> Forall is_send evs.
Proof.
  apply Forall_impl. intros [[|] b ok| | |]; simpl; tauto.
Qed.

(** The lookup handler, seen from main: the status response, then writes
    only; what goes to the backend. *)
Lemma mdb_request_run (uri : bytes) (w : World) :
  exists rest,
    trace (snd (processMdbRequest uri w)) =
      trace w ++ Send ClientSocket (status_buffer 200) (hd true (client_ok w))
              :: rest /\
    Forall is_send rest /\
    written MdbSocket rest =
      (if hd true (tl (client_ok w)) then
         if strncmp0 uri keyURI (length keyURI) then
           if hd true (mdb_ok w)
           then [skipn (length keyURI) uri; nl]
           else [skipn (length keyURI) uri]
         else []
       else []).
Proof.
  destruct (mdb_page_trace uri w) as (rest & T & _ & Wm). cbv zeta in T, Wm.
  exists (Send ClientSocket form (hd true (tl (client_ok w))) :: rest).
  split; [exact T|]. split; [|exact Wm].
  unfold processMdbRequest, mdb_page in T. cbn [snd] in T.
  rewrite bind_eq in T. unfold perform at 1 in T.
  assert (C : careful (transmit_or_cleanup ClientSocket form ;;
                       lookup uri ;;
                       transmit_or_cleanup ClientSocket pageEnd)).
  { apply careful_bind; [apply careful_transmit|].
    apply careful_bind; [apply careful_lookup | apply careful_transmit]. }
  destruct (C (sendHttpStatus 200 w)) as (evs & T' & S & _).
  rewrite T', sendHttpStatus_trace, <- app_assoc in T.
  apply app_inv_head in T. injection T as <-. exact S.
Qed.

(** Without a key the lookup handler leaves the backend as it is. *)
Lemma mdb_request_no_key (uri : bytes) (w : World) :
  ~ has_prefix keyURI uri ->
  mdb_in (snd (processMdbRequest uri w)) = mdb_in w /\
  mdb_ok (snd (processMdbRequest uri w)) = mdb_ok w.
Proof.
  intros N. apply strncmp0_not_prefix in N.
  remember (snd (processMdbRequest uri w)) as w' eqn:E.
  unfold processMdbRequest, mdb_page, lookup in E. cbn [snd] in E.
  rewrite N, bind_eq in E. unfold perform in E.
  rewrite sendHttpStatus_send, bind_eq, transmit_or_cleanup_send in E.
  cbn [send fst snd client_in mdb_in client_ok mdb_ok trace] in E.
  destruct (hd true (tl (client_ok w))); [|subst w'; split; reflexivity].
  rewrite bind_eq in E. unfold ret in E. rewrite transmit_or_cleanup_send in E.
  subst w'. split; reflexivity.
Qed.

(** The file handler, seen from main. *)
Lemma file_request_run (fs : FileSystem) (root uri : bytes) (w : World) :
  uri <> [] ->
  let path := resolved_path root uri in
  let code := file_status fs path in
  exists w' body,
    processFileRequest fs root uri w = Some (code, w') /\
    trace w' = trace w ++ file_lookups fs path
                 ++ Send ClientSocket (status_buffer code) (hd true (client_ok w))
                 :: body /\
    Forall is_client_send body /\
    (code = 200%Z \/ body = []) /\
    (code = 200%Z \/ code = 403%Z \/ code = 404%Z) /\
    mdb_in w' = mdb_in w /\ mdb_ok w' = mdb_ok w.
Proof.
  intros Hne path code. subst path code.
  unfold processFileRequest, file_status, file_lookups.
  rewrite (file_path_resolved root uri Hne). cbv zeta.
  set (path := resolved_path root uri).
  destruct (stat_isdir fs path).
  { eexists _, []. split; [reflexivity|].
    rewrite sendHttpStatus_trace, sendHttpStatus_send.
    cbn [log trace client_ok]. rewrite <- app_assoc. repeat split; auto. }
  destruct (fopen_rb fs path) as [f|].
  2:{ eexists _, []. split; [reflexivity|].
      rewrite sendHttpStatus_trace, sendHttpStatus_send.
      cbn [log trace client_ok]. rewrite <- !app_assoc. repeat split; auto. }
  pose proof (send_whole_file_total f
                (sendHttpStatus 200 (log (Fopen path) (log (Stat path) w)))) as T.
  cbv zeta in T. apply send_file_careful in T.
  destruct T as (evs & T & C & _ & _ & _ & Hi & Hm).
  eexists _, evs. split; [reflexivity|].
  assert (Si : mdb_in (sendHttpStatus 200 (log (Fopen path) (log (Stat path) w)))
               = mdb_in w) by (rewrite sendHttpStatus_send; reflexivity).
  assert (Sm : mdb_ok (sendHttpStatus 200 (log (Fopen path) (log (Stat path) w)))
               = mdb_ok w) by (rewrite sendHttpStatus_send; reflexivity).
  rewrite Si in Hi. rewrite Sm in Hm.
  rewrite T, sendHttpStatus_trace.
  cbn [log trace client_ok]. rewrite <- !app_assoc.
  repeat split; auto.
Qed.

Lemma closes_file_lookups (fs : FileSystem) (path : bytes) :
  closes (file_lookups fs path) = 0%nat /\
  written ClientSocket (file_lookups fs path) = [] /\
  written MdbSocket (file_lookups fs path) = [] /\
  fs_accesses (file_lookups fs path) = file_lookups fs path.
Proof. unfold file_lookups. destruct (stat_isdir fs path); repeat split. Qed.

Lemma written_sends_client (evs : list event) :
  Forall is_client_send evs -> fs_accesses evs = [] /\ written MdbSocket evs = [].
Proof. intros H. destruct (client_sends_only evs H). split; assumption. Qed.

(** Everything one turn of the accept loop does, in one statement. *)
Lemma connection_run (fs : FileSystem) (root : bytes) (w : World) :
  exists code w' evs,
    serve_connection fs root w = Some (code, w') /\
    trace w' = trace w ++ evs ++ [Close] /\
    closes evs = 0%nat /\
    known_status code /\
    ((written ClientSocket evs = [] /\ code = 400%Z) \/
     (exists rest,
        written ClientSocket evs = status_buffer code :: rest /\
        (code = 200%Z \/ rest = []))) /\
    ((written MdbSocket evs = [] /\
      mdb_in w' = mdb_in w /\ mdb_ok w' = mdb_ok w) \/
     (exists buf rest key,
        fgets 1000 (client_in w) = Some (buf, rest) /\
        get_request_line (c_str buf) (keyURI ++ key) /\
        plain key /\
        (written MdbSocket evs = [] \/ written MdbSocket evs = [key] \/
         written MdbSocket evs = [key; nl]))) /\
    (fs_accesses evs = [] \/
     (exists buf rest uri,
        fgets 1000 (client_in w) = Some (buf, rest) /\
        get_request_line (c_str buf) uri /\
        routable uri /\ ~ has_prefix mdbRequestURI uri /\
        fs_accesses evs = file_lookups fs (resolved_path root uri))).
Proof.
  destruct (serve_connection_cases fs root w)
    as [(w' & E & T & Hi & Hm)
       |[(code & w' & Hc & E & T & Hi & Hm)
        |(buf & rest & uri & w2 & G & L & R & T2 & O2 & Hi2 & Hm2 & H)]].
  - exists 400%Z, w', []. split; [exact E|]. split; [exact T|].
    split; [reflexivity|]. split; [right; left; reflexivity|].
    split; [left; split; reflexivity|].
    split; [left; repeat split; assumption | left; reflexivity].
  - exists code, w', [Send ClientSocket (status_buffer code) (hd true (client_ok w))].
    split; [exact E|]. split; [exact T|]. split; [reflexivity|].
    split; [destruct Hc as [-> | ->]; unfold known_status; tauto|].
    split; [right; exists []; split; [reflexivity | right; reflexivity]|].
    split; [left; repeat split; assumption | left; reflexivity].
  - destruct H as [[Pm E] | (Nm & code & w3 & Ef & E)].
    + destruct (mdb_request_run uri w2) as (tail & T & S & Wm).
      rewrite T2, O2 in T. rewrite O2, Hm2 in Wm.
      destruct (sends_no_close tail S) as [Cl Fs].
      exists 200%Z, (log Close (snd (processMdbRequest uri w2))),
             (Send ClientSocket (status_buffer 200) (hd true (client_ok w)) :: tail).
      split; [exact E|]. cbn [log trace mdb_in mdb_ok].
      split; [rewrite T, <- app_assoc; reflexivity|].
      split; [exact Cl|]. split; [left; reflexivity|].
      split; [right; eexists; split; [reflexivity | left; reflexivity]|].
      split; [|left; exact Fs]. cbn [written].
      destruct (strncmp0 uri keyURI (length keyURI)) eqn:K.
      * right. apply strncmp0_prefix in K. destruct K as [key ->].
        rewrite skipn_app, skipn_all, Nat.sub_diag in Wm. cbn [skipn app] in Wm.
        exists buf, rest, key. split; [exact G | split; [exact L|]].
        split; [destruct R as (_ & _ & Pl); apply Forall_app in Pl; apply Pl|].
        rewrite Wm.
        destruct (hd true (tl (client_ok w))); [|left; reflexivity].
        destruct (hd true (mdb_ok w)); [right; right | right; left]; reflexivity.
      * left. apply strncmp0_not_prefix in K.
        destruct (mdb_request_no_key uri w2 K) as [Ki Km].
        split; [|split; congruence].
        rewrite Wm. destruct (hd true (tl (client_ok w))); reflexivity.
    + assert (Hne : uri <> []) by (destruct R as ([t ->] & _); discriminate).
      destruct (file_request_run fs root uri w2 Hne)
        as (w3' & body & Ef' & T & C & B & Ks & Hi & Hm).
      rewrite Ef in Ef'. injection Ef' as -> <-.
      rewrite T2, O2 in T.
      destruct (closes_file_lookups fs (resolved_path root uri))
        as (Cl & Wc & Wmm & Fl).
      destruct (written_sends_client body C) as [Fb Wb].
      destruct (sends_no_close body (client_sends_are_sends body C)) as [Cb _].
      set (code := file_status fs (resolved_path root uri)) in *.
      exists code, (log Close w3),
             (file_lookups fs (resolved_path root uri)
              ++ Send ClientSocket (status_buffer code) (hd true (client_ok w))
              :: body).
      split; [exact E|]. cbn [log trace mdb_in mdb_ok].
      split; [rewrite T, <- !app_assoc; reflexivity|].
      split; [rewrite closes_app, Cl; exact Cb|].
      split; [unfold known_status; tauto|].
      split; [right; exists (written ClientSocket body);
              rewrite written_app, Wc; split; [reflexivity|];
              destruct B as [B | ->]; [left; exact B | right; reflexivity]|].
      split; [left; rewrite written_app, Wmm; cbn [written app];
              split; [exact Wb | split; congruence]|].
      right. exists buf, rest, uri.
      split; [exact G | split; [exact L | split; [exact R | split; [exact Nm|]]]].
      rewrite fs_accesses_app, Fl. cbn [fs_accesses filter is_fs_access].
      fold (fs_accesses body). rewrite Fb. apply app_nil_r.
Qed.


(** X6.  On every connection whose reads all come back (streams that
    come to an end), whatever reaches the client before the close begins with the
    status response of the very code main notes; a response other than 200
    is followed by nothing; and nothing at all is written only when the
    code is 400. *)
Theorem first_write_is_status (fs : FileSystem) (root : bytes) (w : World) :
  exists code w' evs,
    serve_connection fs root w = Some (code, w') /\
    trace w' = trace w ++ evs ++ [Close] /\
    ((written ClientSocket evs = [] /\ code = 400%Z) \/
     (exists rest,
        written ClientSocket evs = status_buffer code :: rest /\
        (code = 200%Z \/ rest = []))).
Proof.
  destruct (connection_run fs root w) as (code & w' & evs & E & T & _ & _ & C & _).
  exists code, w', evs. split; [exact E|]. split; [exact T | exact C].
Qed.

(** X7.  The backend connection is touched only by a request whose URI
    begins with ["/mdb-lookup?key="]: on any other connection nothing is
    written to it and nothing is read from it.  And what a lookup writes is
    the key, which holds no tab, space, CR, LF or NUL, followed by at most
    one newline: a client cannot put a second line on the backend
    connection. *)
Theorem backend_only_for_lookups (fs : FileSystem) (root : bytes) (w : World) :
  exists code w' evs,
    serve_connection fs root w = Some (code, w') /\
    trace w' = trace w ++ evs ++ [Close] /\
    ((written MdbSocket evs = [] /\
      mdb_in w' = mdb_in w /\ mdb_ok w' = mdb_ok w) \/
     (exists buf rest key,
        fgets 1000 (client_in w) = Some (buf, rest) /\
        get_request_line (c_str buf) (keyURI ++ key) /\
        plain key /\
        (written MdbSocket evs = [] \/ written MdbSocket evs = [key] \/
         written MdbSocket evs = [key; nl]))).
Proof.
  destruct (connection_run fs root w)
    as (code & w' & evs & E & T & _ & _ & _ & B & _).
  exists code, w', evs. split; [exact E|]. split; [exact T | exact B].
Qed.

(** X8.  The file system is touched only by a request that reaches the file
    handler, and then through one path: the web root followed by the URI
    (and ["index.html"] after a final slash), where the URI begins with a
    slash, neither contains ["/../"] nor ends with ["/.."], holds no
    whitespace or NUL and does not begin with ["/mdb-lookup"].  There is one
    stat of that path and, unless it is a directory, one fopen after it;
    rejected requests and lookups make no file system call. *)
Theorem fs_only_for_files (fs : FileSystem) (root : bytes) (w : World) :
  exists code w' evs,
    serve_connection fs root w = Some (code, w') /\
    trace w' = trace w ++ evs ++ [Close] /\
    (fs_accesses evs = [] \/
     (exists buf rest uri,
        fgets 1000 (client_in w) = Some (buf, rest) /\
        get_request_line (c_str buf) uri /\
        routable uri /\ ~ has_prefix mdbRequestURI uri /\
        fs_accesses evs = file_lookups fs (resolved_path root uri))).
Proof.
  destruct (connection_run fs root w)
    as (code & w' & evs & E & T & _ & _ & _ & _ & F).
  exists code, w', evs. split; [exact E|]. split; [exact T | exact F].
Qed.

(* ================================================================= *)
(** ** Request lines with any spacing *)

Lemma plain_no_delim (s : bytes) :
  plain s -> Forall (fun c => is_delim c = false) s.
Proof. apply Forall_impl. intros c [H _]; exact H. Qed.

Lemma split_ws_word (t : bytes) :
  forall cur s : bytes,
    Forall (fun c => is_delim c = false) t ->
    split_ws cur (t ++ s) = split_ws (rev t ++ cur) s.
Proof.
  induction t as [|c t IH]; intros cur s H; [reflexivity|].
  inversion H as [|? ? Hc Ht]; subst. cbn [app split_ws]. rewrite Hc.
  rewrite IH by exact Ht. cbn [rev]. rewrite <- app_assoc. reflexivity.
Qed.

Lemma split_ws_blanks (d : bytes) :
  forall s : bytes,
    Forall (fun c => is_delim c = true) d ->
    split_ws [] (d ++ s) = split_ws [] s.
Proof.
  induction d as [|c d IH]; intros s H; [reflexivity|].
  inversion H as [|? ? Hc Hd]; subst. cbn [app split_ws]. rewrite Hc.
  apply IH, Hd.
Qed.

(** A word followed by at least one delimiter is a token. *)
Lemma split_ws_token (t d s : bytes) :
  t <> [] -> d <> [] ->
  Forall (fun c => is_delim c = false) t ->
  Forall (fun c => is_delim c = true) d ->
  split_ws [] (t ++ d ++ s) = t :: split_ws [] s.
Proof.
  intros Ht Hd Pt Pd. rewrite split_ws_word by exact Pt. rewrite app_nil_r.
  destruct d as [|c d]; [congruence|].
  inversion Pd as [|? ? Hc Hd']; subst. cbn [app split_ws]. rewrite Hc.
  destruct (rev t) as [|y r] eqn:E.
  - apply (f_equal (@rev ascii)) in E. rewrite rev_involutive in E.
    cbn in E. congruence.
  - rewrite <- E, rev_involutive. f_equal. apply split_ws_blanks, Hd'.
Qed.

Lemma blanks_delims (d : bytes) :
  blanks d -> Forall (fun c => is_delim c = true) d /\ ~ In LF d /\ ~ In NUL d.
Proof.
  intros H. split; [|split].
  - revert H. apply Forall_impl. intros c [K _]; exact K.
  - intros K. unfold blanks in H. rewrite Forall_forall in H.
    destruct (H _ K) as [_ N]. congruence.
  - intros K. unfold blanks in H. rewrite Forall_forall in H.
    destruct (H _ K) as [D _]. discriminate D.
Qed.

Lemma plain_clean (s : bytes) : plain s -> ~ In LF s /\ ~ In NUL s.
Proof.
  intros H. unfold plain in H. rewrite Forall_forall in H.
  split; intros K; destruct (H _ K) as [D N]; [discriminate D | congruence].
Qed.

(** X9.  The request line is read with any spacing: a method, a URI and a
    version that hold no whitespace, separated by non-empty runs of tabs,
    spaces and CRs, with any such run before and after, ended by LF (alone
    or after CR), are taken as the three parts of the request, provided the
    line has at most 998 bytes before its LF: main goes on to its checks
    with exactly these three strings and has read the stream up to the LF. *)
Theorem request_line_parsed (fs : FileSystem) (root : bytes) (w : World)
    (d0 m d1 u d2 v d3 rest : bytes) :
  blanks d0 -> blanks d1 -> blanks d2 -> blanks d3 ->
  d1 <> [] -> d2 <> [] ->
  plain m -> plain u -> plain v ->
  m <> [] -> u <> [] -> v <> [] ->
  (length (d0 ++ m ++ d1 ++ u ++ d2 ++ v ++ d3) <= 998)%nat ->
  client_in w = d0 ++ m ++ d1 ++ u ++ d2 ++ v ++ d3 ++ LF :: rest ->
  handle_request fs root w =
  check_and_route fs root m u v (set_client_in rest w).
Proof.
  intros B0 B1 B2 B3 N1 N2 Pm Pu Pv Nm Nu Nv Hlen Hin.
  destruct (blanks_delims _ B0) as (D0 & L0 & Z0).
  destruct (blanks_delims _ B1) as (D1 & L1 & Z1).
  destruct (blanks_delims _ B2) as (D2 & L2 & Z2).
  destruct (blanks_delims _ B3) as (D3 & L3 & Z3).
  destruct (plain_clean _ Pm) as [Lm Zm].
  destruct (plain_clean _ Pu) as [Lu Zu].
  destruct (plain_clean _ Pv) as [Lv Zv].
  set (line := d0 ++ m ++ d1 ++ u ++ d2 ++ v ++ d3) in *.
  assert (Lline : ~ In LF line).
  { unfold line. rewrite !in_app_iff. tauto. }
  assert (Zline : ~ In NUL (line ++ [LF])).
  { unfold line. rewrite !in_app_iff. cbn [In]. intros K.
    repeat destruct K as [K|K]; try tauto. discriminate K. }
  assert (G : fgets 1000 (client_in w) = Some (line ++ [LF], rest)).
  { rewrite Hin.
    replace (d0 ++ m ++ d1 ++ u ++ d2 ++ v ++ d3 ++ LF :: rest)
      with (line ++ LF :: rest)
      by (unfold line; rewrite <- !app_assoc; reflexivity).
    apply fgets_line; assumption. }
  rewrite (handle_request_tokens fs root w _ _ G), (c_str_id _ Zline).
  assert (T : tokens (line ++ [LF]) = [m; u; v]); [|rewrite T; reflexivity].
  unfold tokens, line. rewrite <- !app_assoc.
  rewrite split_ws_blanks by exact D0.
  rewrite split_ws_token by (auto using plain_no_delim).
  rewrite split_ws_token by (auto using plain_no_delim).
  replace (v ++ d3 ++ [LF]) with (v ++ (d3 ++ [LF]) ++ [])
    by (rewrite app_nil_r; reflexivity).
  rewrite split_ws_token; [reflexivity | exact Nv | | apply plain_no_delim, Pv |].
  - destruct d3; discriminate.
  - apply Forall_app. split; [exact D3 | repeat constructor].
Qed.

(** The theorem at ["\tGET  /index.html\t HTTP/1.1 \r\n"]. *)
Lemma request_line_parsed_witness :
  let w := quiet ([TAB] ++ lit "GET" ++ lit "  " ++ lit "/index.html"
                   ++ [TAB; SP] ++ lit "HTTP/1.1" ++ [SP; CR] ++ LF :: crlf) [] in
  handle_request site (lit "/www") w =
  check_and_route site (lit "/www") (lit "GET") (lit "/index.html")
    (lit "HTTP/1.1") (set_client_in crlf w).
Proof.
  intros w.
  apply (request_line_parsed site (lit "/www") w [TAB] (lit "GET") (lit "  ")
           (lit "/index.html") [TAB; SP] (lit "HTTP/1.1") [SP; CR] crlf);
    try discriminate; try (cbn; lia); try reflexivity;
    repeat constructor; try discriminate.
Defined.

(* ================================================================= *)
(** ** Whole requests *)

Lemma header_line_read (h rest : bytes) :
  header_line h ->
  exists buf,
    fgets 1000 (h ++ crlf ++ rest) = Some (buf, rest) /\
    c_str buf <> crlf /\ c_str buf <> nl.
Proof.
  intros (Hne & Hnl & Hlen). exists ((h ++ [CR]) ++ [LF]). split.
  - replace (h ++ crlf ++ rest) with ((h ++ [CR]) ++ LF :: rest)
      by (rewrite <- app_assoc; reflexivity).
    apply fgets_line.
    + rewrite in_app_iff. intros [K|[K|[]]]; [exact (Hnl K) | discriminate K].
    + rewrite length_app. simpl. lia.
  - destruct h as [|c h]; [congruence|]. cbn [app c_str].
    destruct (Ascii.eqb_spec c NUL) as [_|Nc]; [split; discriminate|].
    split.
    + intros E. injection E as Ec E.
      destruct h as [|d h]; [discriminate E|]. cbn [app c_str] in E.
      destruct (Ascii.eqb d NUL); [discriminate E|].
      injection E as Ed _. apply Hnl. right; left. exact Ed.
    + intros E. injection E as Ec _. apply Hnl. left. exact Ec.
Qed.

Lemma headers_block (hs : list bytes) (more : bytes) :
  Forall header_line hs ->
  headers (concat (map (fun h => h ++ crlf) hs) ++ crlf ++ more) (Some more).
Proof.
  induction 1 as [|h hs Hh _ IH].
  - apply headers_blank with (buf := crlf); [reflexivity | left; reflexivity].
  - cbn [map concat]. rewrite <- !app_assoc.
    destruct (header_line_read h
                (concat (map (fun h => h ++ crlf) hs) ++ crlf ++ more) Hh)
      as (buf & G & N1 & N2).
    exact (headers_skip _ buf _ _ G N1 N2 IH).
Qed.

Lemma world_eta (w w' : World) :
  client_in w' = client_in w -> mdb_in w' = mdb_in w ->
  client_ok w' = client_ok w -> mdb_ok w' = mdb_ok w -> trace w' = trace w ->
  w' = w.
Proof. destruct w, w'; cbn; intros; subst; reflexivity. Qed.

(** A well-formed GET request for a routable URI reaches the handler the
    URI selects, with the client stream read up to the empty line and
    nothing else changed. *)
Lemma request_routed (fs : FileSystem) (root : bytes) (w : World)
    (uri : bytes) (hs : list bytes) (more : bytes) :
  routable uri -> (length uri <= 984)%nat -> Forall header_line hs ->
  handle_request fs root (set_client_in (get_request_with uri hs ++ more) w) =
  if strncmp0 uri mdbRequestURI (length mdbRequestURI)
  then Some (processMdbRequest uri (set_client_in more w))
  else processFileRequest fs root uri (set_client_in more w).
Proof.
  intros (Hr & Ht & Hp) Hlen Hh.
  set (rest := concat (map (fun h => h ++ crlf) hs) ++ crlf ++ more).
  set (line := lit "GET " ++ uri ++ lit " HTTP/1.0" ++ [CR]).
  destruct (plain_clean _ Hp) as [Lu Zu].
  assert (Lline : ~ In LF line).
  { unfold line. rewrite !in_app_iff. intros [K|[K|[K|K]]]; try tauto;
      revert K; not_in_line. }
  assert (Zline : ~ In NUL (line ++ [LF])).
  { unfold line. rewrite !in_app_iff. intros [[K|[K|[K|K]]]|K]; try tauto;
      revert K; not_in_line. }
  assert (G : fgets 1000 (client_in (set_client_in (get_request_with uri hs ++ more) w))
              = Some (line ++ [LF], rest)).
  { cbn [set_client_in client_in].
    replace (get_request_with uri hs ++ more) with (line ++ LF :: rest).
    - apply fgets_line; [exact Lline|]. unfold line.
      rewrite !length_app. simpl. lia.
    - unfold line, rest, get_request_with, crlf. rewrite <- !app_assoc.
      reflexivity. }
  assert (L : get_request_line (c_str (line ++ [LF])) uri).
  { exists (lit "HTTP/1.0"). split; [|left; reflexivity].
    rewrite (c_str_id _ Zline). unfold tokens, line.
    change (lit "GET ") with (lit "GET" ++ [SP]).
    change (lit " HTTP/1.0") with ([SP] ++ lit "HTTP/1.0").
    rewrite <- !app_assoc.
    assert (Nu : uri <> []) by (destruct Hr as [t ->]; discriminate).
    rewrite (split_ws_token (lit "GET") [SP]);
      [| discriminate | discriminate | repeat constructor | repeat constructor].
    rewrite (split_ws_token uri [SP]);
      [| exact Nu | discriminate | apply plain_no_delim, Hp | repeat constructor].
    reflexivity. }
  rewrite (get_request_line_route fs root _ _ _ uri G L Hr Ht).
  assert (H : headers (client_in (set_client_in rest
                (set_client_in (get_request_with uri hs ++ more) w))) (Some more))
    by (apply headers_block, Hh).
  destruct (skip_all_headers_spec _ _ H) as [F C].
  destruct (skip_all_headers_frame (set_client_in rest
              (set_client_in (get_request_with uri hs ++ more) w)))
    as (T & O & I & M).
  destruct (skip_all_headers _) as [found w2]. cbn [fst snd] in *. subst found.
  assert (E : w2 = set_client_in more w) by (apply world_eta; assumption).
  rewrite E. reflexivity.
Qed.

(** X10.  Header lines make no difference: a GET request for a routable
    URI that carries header lines (each not empty, without a newline of
    its own and of at most 997 bytes) is served exactly as the same request
    without them: same status code, same writes, same file system calls,
    same state of the backend connection, and the client stream read up to
    the same place, just behind the empty line. *)
Theorem headers_ignored (fs : FileSystem) (root : bytes) (w : World)
    (uri : bytes) (hs : list bytes) (more : bytes) :
  routable uri -> (length uri <= 984)%nat -> Forall header_line hs ->
  serve_connection fs root (set_client_in (get_request_with uri hs ++ more) w) =
  serve_connection fs root (set_client_in (get_request uri ++ more) w).
Proof.
  intros R L H. unfold serve_connection.
  change (get_request uri) with (get_request_with uri []).
  rewrite (request_routed fs root w uri hs more R L H).
  rewrite (request_routed fs root w uri [] more R L (Forall_nil _)).
  reflexivity.
Qed.

(** The theorem at a request for ["/index.html"] with two header lines. *)
Lemma headers_ignored_witness :
  let hs := [lit "Host: localhost"; lit "Accept: */*"] in
  serve_connection site (lit "/www")
    (set_client_in (get_request_with (lit "/index.html") hs ++ []) (quiet [] [])) =
  serve_connection site (lit "/www")
    (set_client_in (get_request (lit "/index.html") ++ []) (quiet [] [])).
Proof.
  intros hs.
  apply (headers_ignored site (lit "/www") (quiet [] []) (lit "/index.html") hs []).
  - split; [exists (lit "index.html"); reflexivity|]. split.
    + intros T. assert (K : traversal (lit "/index.html") = true)
        by (apply traversal_spec; destruct T; [right | left]; assumption).
      discriminate K.
    + repeat constructor; discriminate.
  - simpl. lia.
  - repeat constructor; try discriminate; try not_in_line; simpl; lia.
Defined.

(** X11.  From the request to the close: a GET request for a routable URI
    that is not a lookup, naming a path that is not a directory and that
    fopen opens, on a connection that takes every write, is answered with
    the 200 response followed by the readable bytes of the file in chunks
    of at most 4096 bytes; the file system is asked with one stat and one
    fopen of the root followed by the URI (and ["index.html"] after a final
    slash); then the connection is closed, whatever the client sent after
    the empty line being left unread. *)
Theorem get_file_served (fs : FileSystem) (root : bytes) (w : World)
    (uri : bytes) (hs : list bytes) (more : bytes) (f : file) :
  routable uri -> (length uri <= 984)%nat -> Forall header_line hs ->
  ~ has_prefix mdbRequestURI uri ->
  stat_isdir fs (resolved_path root uri) = false ->
  fopen_rb fs (resolved_path root uri) = Some f ->
  accepts_all (client_ok w) ->
  exists w' chunks,
    serve_connection fs root (set_client_in (get_request_with uri hs ++ more) w)
      = Some (200%Z, w') /\
    trace w' = trace w
                 ++ [Stat (resolved_path root uri); Fopen (resolved_path root uri)]
                 ++ client_writes (status_buffer 200 :: chunks) ++ [Close] /\
    concat chunks = firstn (readable f) (contents f) /\
    Forall (fun c => c <> [] /\ (length c <= BUFFER_SIZE)%nat) chunks /\
    client_in w' = more /\ mdb_in w' = mdb_in w /\ mdb_ok w' = mdb_ok w.
Proof.
  intros R L H N D O A. unfold serve_connection.
  rewrite (request_routed fs root w uri hs more R L H).
  apply strncmp0_not_prefix in N. rewrite N.
  assert (Nu : uri <> []) by (destruct R as [[t ->] _]; discriminate).
  unfold processFileRequest. rewrite (file_path_resolved root uri Nu).
  cbv zeta. rewrite D, O.
  set (path := resolved_path root uri).
  set (w1 := sendHttpStatus 200
               (log (Fopen path) (log (Stat path) (set_client_in more w)))).
  assert (E1 : w1 = mkWorld more (mdb_in w) (tl (client_ok w)) (mdb_ok w)
                      (trace w ++ [Stat path; Fopen path]
                         ++ client_writes [status_buffer 200])).
  { unfold w1. rewrite sendHttpStatus_send.
    cbn [send snd log set_client_in client_in mdb_in client_ok mdb_ok trace].
    rewrite (accepts_all_hd _ A), <- !app_assoc. reflexivity. }
  destruct (send_file_all (S (length (firstn (readable f) (contents f))))
              (firstn (readable f) (contents f)) w1)
    as (w2 & chunks & E & T & C & F).
  { rewrite E1. cbn. apply accepts_all_tl, A. }
  { lia. }
  pose proof (send_whole_file_total f w1) as W. cbv zeta in W.
  rewrite E in W. injection W as W. rewrite <- W.
  apply send_file_run in E. destruct E as (Ci & Cm & _).
  pose proof (send_file_careful _ _ _ _
                (eq_trans (send_whole_file_total f w1) (f_equal _ (eq_sym W))))
    as (evs & _ & _ & _ & _ & _ & Hi & Hm).
  exists (log Close w2), chunks. split; [reflexivity|].
  cbn [log trace client_in mdb_in mdb_ok].
  split; [|split; [exact C | split; [exact F | split; [|split]]]].
  - rewrite T, E1. cbn [trace client_writes map app]. rewrite <- !app_assoc.
    reflexivity.
  - rewrite Ci, E1. reflexivity.
  - rewrite Hi, E1. reflexivity.
  - rewrite Hm, E1. reflexivity.
Qed.

(** The theorem at ["GET /index.html HTTP/1.0"] with a header line and two
    bytes behind the empty line. *)
Lemma get_file_served_witness :
  let w := quiet [] [] in
  exists w' chunks,
    serve_connection site (lit "/www")
      (set_client_in (get_request_with (lit "/index.html") [lit "Host: x"]
                        ++ lit "zz") w)
      = Some (200%Z, w') /\
    trace w' = trace w
                 ++ [Stat (resolved_path (lit "/www") (lit "/index.html"));
                     Fopen (resolved_path (lit "/www") (lit "/index.html"))]
                 ++ client_writes (status_buffer 200 :: chunks) ++ [Close] /\
    concat chunks = firstn 11 (lit "<h1>hi</h1>") /\
    Forall (fun c => c <> [] /\ (length c <= BUFFER_SIZE)%nat) chunks /\
    client_in w' = lit "zz" /\ mdb_in w' = mdb_in w /\ mdb_ok w' = mdb_ok w.
Proof.
  intros w.
  apply (get_file_served site (lit "/www") w (lit "/index.html")
           [lit "Host: x"] (lit "zz") (mkFile (lit "<h1>hi</h1>") 11)).
  - split; [exists (lit "index.html"); reflexivity|]. split.
    + intros T. assert (K : traversal (lit "/index.html") = true)
        by (apply traversal_spec; destruct T; [right | left]; assumption).
      discriminate K.
    + repeat constructor; discriminate.
  - simpl. lia.
  - repeat constructor; try discriminate; try not_in_line; simpl; lia.
  - intros K. apply strncmp0_prefix in K. discriminate K.
  - reflexivity.
  - reflexivity.
  - constructor.
Defined.

(* ================================================================= *)
(** ** The backend connection across clients *)

(** One write to the client, by the next result of its socket. *)
Lemma client_write (b : bytes) (w : World) (ok : bool) (oks : list bool) :
  client_ok w = ok :: oks ->
  transmit_or_cleanup ClientSocket b w =
  ((if ok then Some tt else None),
   mkWorld (client_in w) (mdb_in w) oks (mdb_ok w)
           (trace w ++ [Send ClientSocket b ok])).
Proof.
  intros E. rewrite transmit_or_cleanup_send. cbn [send fst snd].
  rewrite E. reflexivity.
Qed.

(** One write to a backend that takes every write. *)
Lemma mdb_write (b : bytes) (w : World) :
  accepts_all (mdb_ok w) ->
  transmit_or_cleanup MdbSocket b w =
  (Some tt,
   mkWorld (client_in w) (mdb_in w) (client_ok w) (tl (mdb_ok w))
           (trace w ++ [Send MdbSocket b true])).
Proof.
  intros A. rewrite transmit_or_cleanup_send. cbn [send fst snd].
  rewrite (accepts_all_hd _ A). reflexivity.
Qed.

Lemma rows_length (ls : list bytes) :
  forall i, length (rows i ls) = (2 * length ls)%nat.
Proof.
  induction ls as [|l ls IH]; intros i; [reflexivity|].
  cbn [rows length]. rewrite IH. lia.
Qed.

Lemma cut_writes_written (bs : list bytes) :
  forall n,
    written ClientSocket (cut_writes bs n) = firstn (S n) bs /\
    written MdbSocket (cut_writes bs n) = [].
Proof.
  unfold cut_writes.
  induction bs as [|b bs IH]; intros n.
  - rewrite firstn_nil. destruct n; split; reflexivity.
  - destruct n as [|n].
    + split; reflexivity.
    + destruct (IH n) as [C M]. cbn [firstn client_writes map nth_error app written].
      fold (client_writes (firstn n bs)). rewrite C, M. split; reflexivity.
Qed.

(** The loop over the reply when the client takes [k] more writes and
    refuses the next, [k] being less than the number of row pieces: the
    loop jumps to the cleanup label; the lines read so far are gone from
    the stream, the others are left in it. *)
Lemma read_rows_cut (ls : list bytes) :
  forall (fuel i k : nat) (rowIndex : Z) (oks : list bool) (rest : bytes)
         (w : World),
    Z.odd rowIndex = Nat.odd i ->
    Forall fits_line ls ->
    mdb_in w = reply ls ++ rest ->
    client_ok w = repeat true k ++ false :: oks ->
    (k < 2 * length ls)%nat ->
    (length (mdb_in w) < fuel)%nat ->
    exists w',
      read_rows fuel rowIndex w = Some (None, w') /\
      trace w' = trace w ++ cut_writes (rows i (map row_text ls)) k /\
      mdb_in w' = reply (skipn (S (k / 2)) ls) ++ rest /\
      mdb_ok w' = mdb_ok w.
Proof.
  induction ls as [|l ls IH];
    intros fuel i k rowIndex oks rest w Hpar Hfit Hin Hok Hk Hfuel.
  - simpl in Hk. lia.
  - destruct fuel as [|fuel]; [lia|].
    inversion Hfit as [|? ? (Hne & Hnl & Hlen) Hfit']; subst.
    rewrite read_rows_S, Hin, reply_cons, fgets_line by assumption.
    change (c_str (l ++ [LF])) with (row_text l).
    rewrite row_text_not_blank by assumption.
    rewrite bind_eq, tableRow_odd, Hpar.
    destruct k as [|[|k]].
    + rewrite (client_write _ _ false oks) by exact Hok.
      eexists. split; [reflexivity|].
      cbn [trace mdb_in mdb_ok set_mdb_in]. repeat split.
    + rewrite (client_write _ _ true (false :: oks)) by exact Hok.
      rewrite (client_write _ _ false oks) by reflexivity.
      eexists. split; [reflexivity|].
      cbn [trace mdb_in mdb_ok set_mdb_in]. rewrite <- app_assoc. repeat split.
    + rewrite (client_write _ _ true (true :: repeat true k ++ false :: oks))
        by exact Hok.
      rewrite (client_write _ _ true (repeat true k ++ false :: oks))
        by reflexivity.
      match goal with |- context [read_rows fuel _ ?w0] =>
        destruct (IH fuel (S i) k (int_succ rowIndex) oks rest w0)
          as (w' & E & T & I & M)
      end.
      * rewrite int_succ_odd, Hpar, Nat.odd_succ, <- Nat.negb_odd. reflexivity.
      * exact Hfit'.
      * reflexivity.
      * reflexivity.
      * cbn [length] in Hk. lia.
      * cbn [mdb_in set_mdb_in]. rewrite Hin, reply_cons, length_app in Hfuel.
        cbn [length] in Hfuel. lia.
      * exists w'. split; [exact E|].
        cbn [trace mdb_in mdb_ok set_mdb_in] in T, I, M.
        split; [|split; [|exact M]].
        -- rewrite T, <- !app_assoc. reflexivity.
        -- rewrite I. replace (S (S k) / 2)%nat with (S (k / 2)); [reflexivity|].
           replace (S (S k)) with (k + 1 * 2)%nat by lia.
           rewrite Nat.div_add by lia. lia.
Qed.

(** The lookup handler up to the table: on a client that takes two writes
    and a backend that takes every write, the status response and the
    form go to the client, the key and a newline to the backend. *)
Lemma lookup_opening (key : bytes) (w : World) :
  hd true (client_ok w) = true ->
  hd true (tl (client_ok w)) = true ->
  accepts_all (mdb_ok w) ->
  snd (processMdbRequest (keyURI ++ key) w) =
  snd (((transmit_or_cleanup ClientSocket tableStart ;;
         read_all_rows ;;
         transmit_or_cleanup ClientSocket tableEnd) ;;
        transmit_or_cleanup ClientSocket pageEnd)
         (mkWorld (client_in w) (mdb_in w) (tl (tl (client_ok w)))
            (tl (tl (mdb_ok w)))
            (trace w ++ client_writes [status_buffer 200; form]
               ++ [Send MdbSocket key true; Send MdbSocket nl true]))).
Proof.
  intros H1 H2 A.
  unfold processMdbRequest, mdb_page, lookup. cbn [snd].
  replace (strncmp0 (keyURI ++ key) keyURI (length keyURI)) with true
    by (symmetry; apply strncmp0_prefix; exists key; reflexivity).
  rewrite skipn_app, skipn_all, Nat.sub_diag. cbn [skipn app].
  cbv beta match zeta.
  rewrite bind_eq. unfold perform. rewrite sendHttpStatus_send.
  cbn [send snd]. rewrite H1.
  rewrite bind_eq, transmit_or_cleanup_send. cbn [send fst snd client_ok].
  rewrite H2. cbn [client_in mdb_in mdb_ok trace].
  rewrite bind_eq, bind_eq.
  rewrite mdb_write by exact A. cbn [client_in mdb_in client_ok mdb_ok trace].
  rewrite bind_eq.
  rewrite mdb_write by (apply accepts_all_tl; exact A).
  cbn [client_in mdb_in client_ok mdb_ok trace client_writes map].
  rewrite <- !app_assoc. reflexivity.
Qed.

(** A lookup that the backend answers and that both sockets take. *)
Lemma lookup_answered (key : bytes) (ls : list bytes) (rest : bytes)
    (w : World) :
  Forall fits_line ls ->
  mdb_in w = reply ls ++ rest ->
  healthy w ->
  trace (snd (processMdbRequest (keyURI ++ key) w)) =
    trace w ++ lookup_events key ls /\
  mdb_in (snd (processMdbRequest (keyURI ++ key) w)) = rest /\
  accepts_all (mdb_ok (snd (processMdbRequest (keyURI ++ key) w))).
Proof.
  intros Hfit Hin [Hc Hm].
  rewrite (lookup_opening key w (accepts_all_hd _ Hc)
             (accepts_all_hd _ (accepts_all_tl _ Hc)) Hm).
  set (w4 := mkWorld _ _ _ _ _).
  assert (H4 : healthy w4) by (split; cbn; auto using accepts_all_tl).
  destruct (transmit_healthy ClientSocket tableStart w4 H4)
    as (w5 & E5 & H5 & T5 & I5 & _).
  rewrite bind_eq, bind_eq, E5, bind_eq.
  assert (I : mdb_in w5 = reply ls ++ rest) by (rewrite I5; exact Hin).
  destruct (read_rows_reply ls (S (length (mdb_in w5))) 1 1 rest w5
              eq_refl Hfit I H5)
    as (w6 & E6 & H6 & T6 & I6 & _); [lia|].
  unfold read_all_rows. rewrite E6.
  destruct (transmit_healthy ClientSocket tableEnd w6 H6)
    as (w7 & E7 & H7 & T7 & I7 & _).
  rewrite E7.
  destruct (transmit_healthy ClientSocket pageEnd w7 H7)
    as (w8 & E8 & H8 & T8 & I8 & _).
  rewrite E8. cbn [snd].
  split; [|split; [congruence | exact (proj2 H8)]].
  rewrite T8, T7, T6, T5. unfold w4, lookup_events, client_writes.
  cbn [trace map]. rewrite map_app, <- !app_assoc. reflexivity.
Qed.

(** A lookup whose client takes [n] writes and refuses the next one while
    the table is being written. *)
Lemma lookup_abandoned (key : bytes) (ls : list bytes) (rest : bytes)
    (n : nat) (oks : list bool) (w : World) :
  Forall fits_line ls ->
  mdb_in w = reply ls ++ rest ->
  accepts_all (mdb_ok w) ->
  client_ok w = repeat true n ++ false :: oks ->
  (2 <= n < 3 + 2 * length ls)%nat ->
  exists evs,
    trace (snd (processMdbRequest (keyURI ++ key) w)) = trace w ++ evs /\
    closes evs = 0%nat /\
    written ClientSocket evs = firstn (S n) (lookup_page ls) /\
    written MdbSocket evs = [key; nl] /\
    mdb_in (snd (processMdbRequest (keyURI ++ key) w)) =
      reply (skipn ((n - 1) / 2) ls) ++ rest /\
    accepts_all (mdb_ok (snd (processMdbRequest (keyURI ++ key) w))).
Proof.
  intros Hfit Hin Hm Hok Hn.
  destruct n as [|[|m]]; [lia | lia |].
  rewrite (lookup_opening key w); [| rewrite Hok; reflexivity
                                   | rewrite Hok; reflexivity | exact Hm].
  rewrite Hok. cbn [repeat app tl].
  set (sent := client_writes [status_buffer 200; form]
                 ++ [Send MdbSocket key true; Send MdbSocket nl true]).
  assert (A2 : accepts_all (tl (tl (mdb_ok w)))) by auto using accepts_all_tl.
  rewrite bind_eq, bind_eq.
  destruct m as [|k].
  - rewrite (client_write _ _ false oks) by reflexivity. cbn [snd].
    cbn [client_in mdb_in client_ok mdb_ok trace].
    exists (sent ++ [Send ClientSocket tableStart false]).
    split; [rewrite <- app_assoc; reflexivity|].
    split; [reflexivity|]. split; [reflexivity|]. split; [reflexivity|].
    split; [exact Hin | exact A2].
  - rewrite (client_write _ _ true (repeat true k ++ false :: oks))
      by reflexivity.
    cbn [client_in mdb_in client_ok mdb_ok trace].
    rewrite bind_eq. unfold read_all_rows.
    match goal with |- context [read_rows _ _ ?w0] =>
      destruct (read_rows_cut ls (S (length (mdb_in w0))) 1 k 1 oks rest w0)
        as (w' & E & T & I & M);
        [reflexivity | exact Hfit | exact Hin | reflexivity | lia | lia |]
    end.
    rewrite E. cbn [snd]. cbn [trace mdb_ok] in T, M.
    exists (sent ++ [Send ClientSocket tableStart true]
              ++ cut_writes (rows 1 (map row_text ls)) k).
    destruct (cut_writes_written (rows 1 (map row_text ls)) k) as [Wc Wm].
    split; [rewrite T, <- !app_assoc; reflexivity|].
    split; [|split; [|split; [|split]]].
    + rewrite !closes_app. unfold cut_writes. rewrite closes_app.
      assert (Z : forall bs, closes (client_writes bs) = 0%nat)
        by (induction bs; simpl; auto).
      rewrite Z. destruct (nth_error _ k); reflexivity.
    + rewrite !written_app, Wc. unfold lookup_page.
      assert (F : forall (a b c : bytes) (l : list bytes),
                 firstn (S (S (S (S k)))) ([a; b; c] ++ l) =
                 a :: b :: c :: firstn (S k) l) by reflexivity.
      rewrite F, firstn_app, rows_length, length_map.
      replace (S k - 2 * length ls)%nat with 0%nat by lia.
      rewrite firstn_O, app_nil_r. reflexivity.
    + rewrite !written_app, Wm. reflexivity.
    + rewrite I. replace ((S (S (S k)) - 1) / 2)%nat with (S (k / 2));
        [reflexivity|].
      replace (S (S (S k)) - 1)%nat with (k + 1 * 2)%nat by lia.
      rewrite Nat.div_add by lia. lia.
    + rewrite M. exact A2.
Qed.

Lemma cut_reply_cons (l : bytes) (ls : list bytes) :
  cut_reply (l :: ls) = l ++ LF :: cut_reply ls.
Proof. unfold cut_reply. simpl. unfold nl. rewrite <- app_assoc. reflexivity. Qed.

(** The loop on a reply that ends without its blank line: one row per
    line, then the jump to the cleanup label. *)
Lemma read_rows_eof (ls : list bytes) :
  forall (fuel i : nat) (rowIndex : Z) (w : World),
    Z.odd rowIndex = Nat.odd i ->
    Forall fits_line ls ->
    mdb_in w = cut_reply ls ->
    healthy w ->
    (length (mdb_in w) < fuel)%nat ->
    exists w',
      read_rows fuel rowIndex w = Some (None, w') /\
      trace w' = trace w ++ client_writes (rows i (map row_text ls)) /\
      mdb_in w' = [].
Proof.
  induction ls as [|l ls IH]; intros fuel i rowIndex w Hpar Hfit Hin Hw Hfuel.
  - destruct fuel as [|fuel]; [lia|]. rewrite read_rows_S, Hin.
    exists w. split; [reflexivity|]. cbn. rewrite app_nil_r.
    split; [reflexivity | exact Hin].
  - destruct fuel as [|fuel]; [lia|].
    inversion Hfit as [|? ? (Hne & Hnl & Hlen) Hfit']; subst.
    rewrite read_rows_S, Hin, cut_reply_cons, fgets_line by assumption.
    change (c_str (l ++ [LF])) with (row_text l).
    rewrite row_text_not_blank by assumption.
    rewrite bind_eq.
    set (w0 := set_mdb_in (cut_reply ls) w).
    assert (H0 : healthy w0) by exact Hw.
    destruct (transmit_healthy ClientSocket (tableRow rowIndex) w0 H0)
      as (w1 & E1 & H1 & T1 & I1 & C1).
    rewrite E1.
    destruct (transmit_healthy ClientSocket (row_text l) w1 H1)
      as (w2 & E2 & H2 & T2 & I2 & C2).
    rewrite E2.
    destruct (IH fuel (S i) (int_succ rowIndex) w2)
      as (w' & E & T' & I'); [| exact Hfit' | | | |].
    + rewrite int_succ_odd, Hpar, Nat.odd_succ, Nat.negb_odd. reflexivity.
    + rewrite I2, I1. reflexivity.
    + exact H2.
    + rewrite I2, I1. cbn [w0 set_mdb_in mdb_in].
      rewrite Hin, cut_reply_cons, length_app in Hfuel. simpl in Hfuel. lia.
    + exists w'. split; [exact E|]. split; [|exact I'].
      rewrite T', T2, T1. cbn [w0 set_mdb_in trace map rows client_writes].
      rewrite tableRow_odd, Hpar, <- !app_assoc. reflexivity.
Qed.

(** X12.  The backend closes its stream in the middle of a reply: the
    lines [ls] have come, the blank line has not.  On sockets that take
    every write the lookup handler still answers 200 and writes the form,
    the table opening and one row per line received; then it stops: the
    table end and the page end are not written, and the stream is at its
    end. *)
Theorem backend_closed_mid_reply (key : bytes) (ls : list bytes) (w : World) :
  Forall fits_line ls ->
  mdb_in w = cut_reply ls ->
  healthy w ->
  fst (processMdbRequest (keyURI ++ key) w) = 200%Z /\
  trace (snd (processMdbRequest (keyURI ++ key) w)) =
    trace w ++ client_writes [status_buffer 200; form]
      ++ [Send MdbSocket key true; Send MdbSocket nl true]
      ++ client_writes (tableStart :: rows 1 (map row_text ls)) /\
  mdb_in (snd (processMdbRequest (keyURI ++ key) w)) = [].
Proof.
  intros Hfit Hin [Hc Hm]. split; [reflexivity|].
  rewrite (lookup_opening key w (accepts_all_hd _ Hc)
             (accepts_all_hd _ (accepts_all_tl _ Hc)) Hm).
  set (w4 := mkWorld _ _ _ _ _).
  assert (H4 : healthy w4) by (split; cbn; auto using accepts_all_tl).
  destruct (transmit_healthy ClientSocket tableStart w4 H4)
    as (w5 & E5 & H5 & T5 & I5 & _).
  rewrite bind_eq, bind_eq, E5, bind_eq.
  assert (I : mdb_in w5 = cut_reply ls) by (rewrite I5; exact Hin).
  destruct (read_rows_eof ls (S (length (mdb_in w5))) 1 1 w5
              eq_refl Hfit I H5)
    as (w6 & E6 & T6 & I6); [lia|].
  unfold read_all_rows. rewrite E6. cbn [snd].
  split; [|exact I6].
  rewrite T6, T5. unfold w4. cbn [trace client_writes map].
  rewrite <- !app_assoc. reflexivity.
Qed.

(** The theorem at a backend that closes after two lines. *)
Lemma backend_closed_mid_reply_witness :
  let ls := [lit "alice,555-1234"; lit "bob,555-9876"] in
  let w := quiet [] (cut_reply ls) in
  fst (processMdbRequest (keyURI ++ lit "b") w) = 200%Z /\
  trace (snd (processMdbRequest (keyURI ++ lit "b") w)) =
    trace w ++ client_writes [status_buffer 200; form]
      ++ [Send MdbSocket (lit "b") true; Send MdbSocket nl true]
      ++ client_writes (tableStart :: rows 1 (map row_text ls)) /\
  mdb_in (snd (processMdbRequest (keyURI ++ lit "b") w)) = [].
Proof.
  intros ls w.
  apply (backend_closed_mid_reply (lit "b") ls w).
  - unfold ls. fits.
  - reflexivity.
  - split; constructor.
Defined.

(* ----------------------------------------------------------------- *)
(** *** Lookups over the accept loop *)

Lemma lookup_uri_routable (key : bytes) :
  lookup_key key ->
  routable (keyURI ++ key) /\ (length (keyURI ++ key) <= 984)%nat /\
  strncmp0 (keyURI ++ key) mdbRequestURI (length mdbRequestURI) = true.
Proof.
  intros (P & T & L). split; [split; [|split]|split].
  - exists (lit "mdb-lookup?key=" ++ key). reflexivity.
  - exact T.
  - apply Forall_app. split; [|exact P].
    repeat constructor; discriminate.
  - rewrite length_app. change (length keyURI) with 16%nat. lia.
  - apply strncmp0_prefix. exists (lit "?key=" ++ key). reflexivity.
Qed.

(** A connection that asks for a key reaches the lookup handler with the
    backend as the turns before left it. *)
Lemma lookup_request_served (fs : FileSystem) (root : bytes) (key : bytes)
    (c : connection) (w : World) :
  lookup_key key ->
  conn_in c = get_request (keyURI ++ key) ->
  serve_connection fs root (accepted c w) =
  Some (200%Z,
        log Close
          (snd (processMdbRequest (keyURI ++ key)
                  (mkWorld [] (mdb_in w) (conn_ok c) (mdb_ok w) (trace w))))).
Proof.
  intros K Hc. destruct (lookup_uri_routable key K) as (R & L & S).
  assert (E : accepted c w =
              set_client_in (get_request_with (keyURI ++ key) [] ++ [])
                (mkWorld [] (mdb_in w) (conn_ok c) (mdb_ok w) (trace w))).
  { unfold accepted. rewrite Hc, app_nil_r. reflexivity. }
  rewrite E. unfold serve_connection.
  rewrite (request_routed fs root _ _ [] [] R L (Forall_nil _)), S.
  reflexivity.
Qed.

(** X13.  The one backend connection serves the clients one after the
    other.  Let clients ask for keys, one per connection, on sockets that
    take every write, and let the backend stream hold the replies in the
    order of the requests (each reply a list of lines that fit the line
    buffer, closed by a blank line), followed by [rest].  Then every
    connection is answered 200 with the page of its own reply and closed
    before the next one is served; the backend is sent each key with its
    newline, in order; and the stream is left at [rest]. *)
Theorem lookups_in_turn (fs : FileSystem) (root : bytes)
    (asked : list (bytes * list bytes)) (rest : bytes) (w : World) :
  Forall (fun x => lookup_key (fst x) /\ Forall fits_line (snd x)) asked ->
  mdb_in w = concat (map (fun x => reply (snd x)) asked) ++ rest ->
  accepts_all (mdb_ok w) ->
  exists w',
    accept_loop fs root (map (fun x => lookup_client (fst x)) asked) w =
      Some (map (fun _ => 200%Z) asked, w') /\
    trace w' =
      trace w ++ concat (map (fun x => lookup_events (fst x) (snd x) ++ [Close])
                           asked) /\
    mdb_in w' = rest.
Proof.
  intros H. revert w.
  induction H as [|[key ls] asked [K F] _ IH]; intros w Hin Hm.
  - exists w. cbn. rewrite app_nil_r. repeat split. exact Hin.
  - cbn [map fst snd concat accept_loop] in *.
    rewrite (lookup_request_served fs root key (lookup_client key) w K eq_refl).
    rewrite <- app_assoc in Hin.
    destruct (lookup_answered key ls
                (concat (map (fun x => reply (snd x)) asked) ++ rest)
                (mkWorld [] (mdb_in w) (conn_ok (lookup_client key)) (mdb_ok w)
                   (trace w)) F Hin)
      as (T & I & M); [split; [constructor | exact Hm]|].
    destruct (IH (log Close
                    (snd (processMdbRequest (keyURI ++ key)
                       (mkWorld [] (mdb_in w) (conn_ok (lookup_client key))
                          (mdb_ok w) (trace w))))))
      as (w' & E & T' & I'); [exact I | exact M |].
    rewrite E. exists w'. split; [reflexivity|]. split; [|exact I'].
    rewrite T'. cbn [log trace]. rewrite T. cbn [trace].
    rewrite <- !app_assoc. reflexivity.
Qed.

(** The theorem at two clients, the second of which is answered with two
    lines. *)
Lemma lookups_in_turn_witness :
  let asked := [(lit "alice", [lit "alice,555-1234"]);
                (lit "bob", [lit "bob,555-9876"; lit "bobby,555-1111"])] in
  let w := quiet [] (concat (map (fun x => reply (snd x)) asked) ++ lit "next") in
  exists w',
    accept_loop site (lit "/www") (map (fun x => lookup_client (fst x)) asked) w =
      Some (map (fun _ => 200%Z) asked, w') /\
    trace w' =
      trace w ++ concat (map (fun x => lookup_events (fst x) (snd x) ++ [Close])
                           asked) /\
    mdb_in w' = lit "next".
Proof.
  intros asked w.
  apply (lookups_in_turn site (lit "/www") asked (lit "next") w).
  - assert (N : forall key, traversal (keyURI ++ key) = false ->
                            ~ traverses (keyURI ++ key)).
    { intros key F T.
      assert (K : traversal (keyURI ++ key) = true)
        by (apply traversal_spec; destruct T; [right | left]; assumption).
      congruence. }
    repeat constructor; try discriminate; try (apply N; reflexivity);
      try not_in_line; simpl; lia.
  - reflexivity.
  - constructor.
Defined.

(** X14.  A lookup that is cut short leaves its reply to the next client.
    Let a first client ask for [key1] and take [n] writes but not the next
    one, the failing write falling on the table opening or on a row
    ([2 <= n < 3 + 2 * length ls1]), and let the backend answer with the
    lines [ls1] and a blank line.  The handler has sent [key1] to the
    backend and stops at the failed write: of the reply it has read the
    first [(n - 1) / 2] lines only.  A second client that asks for [key2]
    on sockets that take every write is then answered 200 with a page whose
    rows are the remaining lines of the reply to [key1]; whatever the
    backend says after that reply, the answer to [key2] included, is left
    in the stream. *)
Theorem stale_reply (fs : FileSystem) (root : bytes)
    (key1 key2 : bytes) (ls1 : list bytes) (rest : bytes) (n : nat)
    (w : World) :
  lookup_key key1 -> lookup_key key2 ->
  Forall fits_line ls1 ->
  (2 <= n < 3 + 2 * length ls1)%nat ->
  mdb_in w = reply ls1 ++ rest ->
  accepts_all (mdb_ok w) ->
  exists w' evs,
    accept_loop fs root [leaving_client key1 n; lookup_client key2] w =
      Some ([200%Z; 200%Z], w') /\
    trace w' =
      trace w ++ evs ++ [Close]
        ++ lookup_events key2 (skipn ((n - 1) / 2) ls1) ++ [Close] /\
    closes evs = 0%nat /\
    written ClientSocket evs = firstn (S n) (lookup_page ls1) /\
    written MdbSocket evs = [key1; nl] /\
    mdb_in w' = rest.
Proof.
  intros K1 K2 F N Hin Hm. cbn [accept_loop].
  rewrite (lookup_request_served fs root key1 (leaving_client key1 n) w K1 eq_refl).
  destruct (lookup_abandoned key1 ls1 rest n []
              (mkWorld [] (mdb_in w) (conn_ok (leaving_client key1 n))
                 (mdb_ok w) (trace w)) F Hin Hm eq_refl N)
    as (evs & T & C & Wc & Wm & I & M).
  set (w1 := log Close _).
  rewrite (lookup_request_served fs root key2 (lookup_client key2) w1 K2 eq_refl).
  destruct (lookup_answered key2 (skipn ((n - 1) / 2) ls1) rest
              (mkWorld [] (mdb_in w1) (conn_ok (lookup_client key2))
                 (mdb_ok w1) (trace w1)))
    as (T2 & I2 & M2).
  { clear - F. revert ls1 F. induction ((n - 1) / 2)%nat as [|j IH];
      intros ls1 F; [exact F|].
    destruct F as [|l ls1 _ F]; [constructor | exact (IH ls1 F)]. }
  { exact I. }
  { split; [constructor | exact M]. }
  eexists _, evs. split; [reflexivity|].
  split; [|split; [exact C | split; [exact Wc | split; [exact Wm | exact I2]]]].
  cbn [log trace]. rewrite T2. cbn [trace]. unfold w1. cbn [log trace].
  rewrite T. cbn [trace]. rewrite <- !app_assoc. reflexivity.
Qed.

(** The theorem at a first client that leaves while the second row is
    written: the second client, asking for ["bob"], gets the third line
    of the reply to ["alice"]. *)
Lemma stale_reply_witness :
  let w := quiet [] (reply three_lines ++ reply [lit "bob,555-9876"]) in
  exists w' evs,
    accept_loop site (lit "/www")
      [leaving_client (lit "alice") 5; lookup_client (lit "bob")] w =
      Some ([200%Z; 200%Z], w') /\
    trace w' =
      trace w ++ evs ++ [Close]
        ++ lookup_events (lit "bob") (skipn ((5 - 1) / 2) three_lines)
        ++ [Close] /\
    closes evs = 0%nat /\
    written ClientSocket evs = firstn 6 (lookup_page three_lines) /\
    written MdbSocket evs = [lit "alice"; nl] /\
    mdb_in w' = reply [lit "bob,555-9876"].
Proof.
  intros w.
  assert (N : forall key, traversal (keyURI ++ key) = false ->
                          ~ traverses (keyURI ++ key)).
  { intros key F T.
    assert (K : traversal (keyURI ++ key) = true)
      by (apply traversal_spec; destruct T; [right | left]; assumption).
    congruence. }
  apply (stale_reply site (lit "/www") (lit "alice") (lit "bob") three_lines
           (reply [lit "bob,555-9876"]) 5 w).
  - repeat constructor; try discriminate; try (apply N; reflexivity); simpl; lia.
  - repeat constructor; try discriminate; try (apply N; reflexivity); simpl; lia.
  - unfold three_lines. fits.
  - simpl. lia.
  - reflexivity.
  - constructor.
Defined.
